(** * MPESA Connect: webhook delivery, retry sweep, STK callback, password reset

    A shallow embedding of
      - src/models/webhook.js, src/models/transaction.js, src/models/user.js
        (the three Mongoose schemas),
      - src/services/webhook-service.js (sendWebhook, createWebhook,
        retryFailedWebhooks),
      - src/api/v1/stk/handlers.js (stkCallback and the status mapping of
        checkStkStatus),
      - src/api/v1/c2b/handlers.js (validation, confirmation) and
        src/api/v1/b2c/handlers.js (b2cResult, b2cTimeout),
      - src/api/v1/auth/handlers.js (forgotPassword, resetPassword).

    Asynchronous functions become computations of the monad [Async]: a
    function from the world (the three collections, the clock, the client
    endpoints, the storage fault script) to a completion (normal or thrown)
    and the next world.  Every [await] is a bind; [try]/[catch] is
    [tryCatch].  Numbers are integers ([Z]); dates are milliseconds since the
    epoch.  What the platform fixes and the source does not (the text of
    [JSON.stringify], the HMAC, the printing of numbers beyond the safe
    integers, the parsing of a date text, [parseFloat], bcrypt, the
    normalisation Mongoose applies to an address) is a variable of the
    section the handlers live in. *)

From Stdlib Require Import ZArith List String Ascii Bool Lia DecimalString.
Import ListNotations.
Local Open Scope Z_scope.
Local Open Scope list_scope.

Declare Scope async_scope.
Delimit Scope async_scope with async.

(* ------------------------------------------------------------------ *)
(** ** JavaScript values *)

Definition ObjectId := nat.
Definition Date := Z.

(** A scalar of a request body as [JSON.parse] gives it.  A property that
    is missing is [None : option Json]; the nested objects of a body are
    records of their own. *)
Inductive Json :=
| JsonNull
| JsonBool (b : bool)
| JsonNumber (z : Z)
| JsonString (s : string).

(** The values the handlers put into the objects they build. *)
Inductive JsValue :=
| JsUndefined
| JsNull
| JsBool (b : bool)
| JsNumber (z : Z)
| JsNaN
| JsString (s : string)
| JsObjectId (i : ObjectId)
| JsDate (d : Date)
| JsBody (body : list (string * Json)).

(** A plain object, in property order. *)
Definition JsObject := list (string * JsValue).

Definition nonEmpty (s : string) : bool :=
  match s with EmptyString => false | _ => true end.

(** JavaScript truthiness. *)
Definition truthy (v : Json) : bool :=
  match v with
  | JsonNull => false
  | JsonBool b => b
  | JsonNumber z => negb (z =? 0)
  | JsonString s => nonEmpty s
  end.

Definition decimal (z : Z) : string := NilZero.string_of_int (Z.to_int z).

(** The integers a JavaScript number holds exactly; [String(n)] prints
    these digit for digit. *)
Definition safeInteger (z : Z) : bool := Z.abs z <=? 9007199254740991.

Definition ofJson (v : Json) : JsValue :=
  match v with
  | JsonNull => JsNull
  | JsonBool b => JsBool b
  | JsonNumber z => JsNumber z
  | JsonString s => JsString s
  end.

Definition optJs {A} (f : A -> JsValue) (o : option A) : JsValue :=
  match o with Some a => f a | None => JsUndefined end.

(** [object.name] on a parsed body. *)
Definition get (name : string) (object : list (string * Json)) : option Json :=
  option_map snd (find (fun kv => String.eqb (fst kv) name) object).

(** The parsed body as a value of the object it is put into. *)
Definition ofBody (object : list (string * Json)) : JsObject :=
  map (fun kv => (fst kv, ofJson (snd kv))) object.

(** [s.substring(a, b)] for [a <= b]. *)
Definition substring (a b : nat) (s : string) : string :=
  String.substring a (b - a) s.

Definition optStringEqb (a b : option string) : bool :=
  match a, b with
  | Some x, Some y => String.eqb x y
  | None, None => true
  | _, _ => false
  end.

(* ------------------------------------------------------------------ *)
(** ** src/models/webhook.js *)

Module Webhook.
Record t := mk {
  _id : ObjectId;
  userId : ObjectId;
  transactionId : option ObjectId;
  type : option string;
  status : string;
  payload : JsObject;
  destination : string;
  attempts : Z;
  lastAttempt : option Date;
  response : option (Z * string);
  errorMessage : option string
}.

Definition typeEnum : list string :=
  ["STK"; "C2B_CONFIRMATION"; "C2B_VALIDATION"; "B2C_RESULT"; "B2C_TIMEOUT"]%string.

Definition statusEnum : list string :=
  ["PENDING"; "SENT"; "FAILED"; "RETRYING"]%string.

Definition set_status (s : string) (w : t) : t :=
  mk (_id w) (userId w) (transactionId w) (type w) s (payload w)
     (destination w) (attempts w) (lastAttempt w) (response w) (errorMessage w).

Definition set_attempts (n : Z) (w : t) : t :=
  mk (_id w) (userId w) (transactionId w) (type w) (status w) (payload w)
     (destination w) n (lastAttempt w) (response w) (errorMessage w).

Definition set_lastAttempt (d : option Date) (w : t) : t :=
  mk (_id w) (userId w) (transactionId w) (type w) (status w) (payload w)
     (destination w) (attempts w) d (response w) (errorMessage w).

Definition set_response (r : option (Z * string)) (w : t) : t :=
  mk (_id w) (userId w) (transactionId w) (type w) (status w) (payload w)
     (destination w) (attempts w) (lastAttempt w) r (errorMessage w).

Definition set_errorMessage (m : option string) (w : t) : t :=
  mk (_id w) (userId w) (transactionId w) (type w) (status w) (payload w)
     (destination w) (attempts w) (lastAttempt w) (response w) m.

Definition inEnum (e : list string) (s : string) : bool :=
  existsb (String.eqb s) e.

(** The schema validation Mongoose runs inside [save()]: [type] is
    required and both [type] and [status] are restricted to their
    enumerations.  The other required paths are always present in [t].
    Returns the validation error message, if any. *)
Definition validate (w : t) : option string :=
  match type w with
  | None => Some "Webhook validation failed: type: Path `type` is required."%string
  | Some ty =>
    if negb (inEnum typeEnum ty) then
      Some ("Webhook validation failed: type: `" ++ ty
            ++ "` is not a valid enum value for path `type`.")%string
    else if negb (inEnum statusEnum (status w)) then
      Some ("Webhook validation failed: status: `" ++ status w
            ++ "` is not a valid enum value for path `status`.")%string
    else None
  end.
End Webhook.

(* ------------------------------------------------------------------ *)
(** ** src/models/user.js *)

Module User.
Record Endpoints := mkEndpoints {
  stkCallback : option string;
  c2bConfirmation : option string;
  c2bValidation : option string;
  b2cResult : option string
}.

Record WebhookConfig := mkWebhookConfig {
  secret : option string;
  endpoints : option Endpoints
}.

Record t := mk {
  _id : ObjectId;
  email : string;
  apiKey : option string;
  secretKey : option string;
  webhookConfig : option WebhookConfig;
  resetPasswordToken : option string;
  resetPasswordExpires : option Date
}.
End User.

(* ------------------------------------------------------------------ *)
(** ** The raw STK callback body posted by the payment network

    [request.payload] of stkCallback.  A property that may be missing is
    an [option]; reading a property of a missing object throws. *)

Module Callback.
Record NameValue := mkNameValue {
  Name : string;
  Value : option Json
}.

Record Metadata := mkMetadata {
  Item : option (list NameValue)
}.

Record StkCallback := mkStkCallback {
  CheckoutRequestID : option string;
  ResultCode : option Z;
  ResultDesc : option string;
  CallbackMetadata : option Metadata
}.

Record Envelope := mkEnvelope {
  stkCallback : option StkCallback
}.

Record t := mk {
  Body : option Envelope
}.
End Callback.

(* ------------------------------------------------------------------ *)
(** ** The bodies of the C2B and B2C callbacks

    A C2B body is a flat object of scalars ([TransID], [TransAmount],
    [BillRefNumber], [MSISDN], [BusinessShortCode], ...).  A B2C body is
    [{ Result: { ConversationID, ..., ResultParameters: { ResultParameter:
    [{ Key, Value }] } } }]. *)

Definition C2BBody := list (string * Json).

Module B2C.
Record KeyValue := mkKeyValue {
  Key : string;
  Value : option Json
}.

Record Parameters := mkParameters {
  ResultParameter : option (list KeyValue)
}.

Record ResultBody := mkResultBody {
  ConversationID : option string;
  OriginatorConversationID : option string;
  ResultCode : option Z;
  ResultDesc : option string;
  ResultParameters : option Parameters
}.

Record t := mk {
  Result : option ResultBody
}.
End B2C.

(* ------------------------------------------------------------------ *)
(** ** src/models/transaction.js *)

Module Transaction.
(** What the Mixed path [callbackData] holds. *)
Inductive CallbackData :=
| ofStk (body : Callback.t)
| ofC2B (body : C2BBody)
| ofB2C (body : B2C.t).

(** The paths the handlers read or write, and [validationError]: the error
    Mongoose keeps on the document object when an assigned value cannot be
    cast to the type of its path.  It is no stored path: [save()] refuses a
    document that carries one. *)
Record t := mk {
  _id : ObjectId;
  userId : ObjectId;
  type : string;
  amount : Z;
  phoneNumber : string;
  status : string;
  mpesaReference : option string;
  checkoutRequestId : option string;
  conversationId : option string;
  resultCode : option Z;
  resultDesc : option string;
  accountReference : option string;
  mpesaTimestamp : option Date;
  callbackData : option CallbackData;
  validationError : option string
}.

Definition typeEnum : list string := ["STK"; "C2B"; "B2C"]%string.

Definition statusEnum : list string :=
  ["PENDING"; "COMPLETED"; "FAILED"; "CANCELLED"]%string.

Definition set_callback (cb : option Callback.t) (rc : option Z)
    (rd : option string) (tx : t) : t :=
  mk (_id tx) (userId tx) (type tx) (amount tx) (phoneNumber tx) (status tx)
     (mpesaReference tx) (checkoutRequestId tx) (conversationId tx) rc rd
     (accountReference tx) (mpesaTimestamp tx) (option_map ofStk cb)
     (validationError tx).

Definition set_callbackData (cb : option CallbackData) (tx : t) : t :=
  mk (_id tx) (userId tx) (type tx) (amount tx) (phoneNumber tx) (status tx)
     (mpesaReference tx) (checkoutRequestId tx) (conversationId tx)
     (resultCode tx) (resultDesc tx) (accountReference tx) (mpesaTimestamp tx)
     cb (validationError tx).

Definition set_result (rc : option Z) (rd : option string) (tx : t) : t :=
  mk (_id tx) (userId tx) (type tx) (amount tx) (phoneNumber tx) (status tx)
     (mpesaReference tx) (checkoutRequestId tx) (conversationId tx) rc rd
     (accountReference tx) (mpesaTimestamp tx) (callbackData tx)
     (validationError tx).

Definition set_status (s : string) (tx : t) : t :=
  mk (_id tx) (userId tx) (type tx) (amount tx) (phoneNumber tx) s
     (mpesaReference tx) (checkoutRequestId tx) (conversationId tx)
     (resultCode tx) (resultDesc tx) (accountReference tx) (mpesaTimestamp tx)
     (callbackData tx) (validationError tx).

Definition set_mpesaReference (r : option string) (tx : t) : t :=
  mk (_id tx) (userId tx) (type tx) (amount tx) (phoneNumber tx) (status tx)
     r (checkoutRequestId tx) (conversationId tx)
     (resultCode tx) (resultDesc tx) (accountReference tx) (mpesaTimestamp tx)
     (callbackData tx) (validationError tx).

Definition set_mpesaTimestamp (d : option Date) (tx : t) : t :=
  mk (_id tx) (userId tx) (type tx) (amount tx) (phoneNumber tx) (status tx)
     (mpesaReference tx) (checkoutRequestId tx) (conversationId tx)
     (resultCode tx) (resultDesc tx) (accountReference tx) d
     (callbackData tx) (validationError tx).

Definition set_validationError (e : option string) (tx : t) : t :=
  mk (_id tx) (userId tx) (type tx) (amount tx) (phoneNumber tx) (status tx)
     (mpesaReference tx) (checkoutRequestId tx) (conversationId tx)
     (resultCode tx) (resultDesc tx) (accountReference tx) (mpesaTimestamp tx)
     (callbackData tx) e.

(** The document a query returns: a fresh object, with no error on it. *)
Definition loaded (tx : t) : t := set_validationError None tx.

Definition quoted (s : string) : string :=
  (String (Ascii.ascii_of_nat 34) s ++ String (Ascii.ascii_of_nat 34) EmptyString)%string.

(** The cast error Mongoose records for an Invalid Date. *)
Definition invalidDate : string :=
  ("Transaction validation failed: mpesaTimestamp: Cast to date failed for value "
   ++ quoted "Invalid Date" ++ " (type Date) at path "
   ++ quoted "mpesaTimestamp")%string.

(** The cast error Mongoose records for a NaN amount. *)
Definition invalidAmount : string :=
  ("Transaction validation failed: amount: Cast to Number failed for value "
   ++ quoted "NaN" ++ " (type number) at path " ++ quoted "amount")%string.

(** [transaction.mpesaTimestamp = date], where [None] is an Invalid Date:
    the cast fails, the path keeps its value and the error is recorded. *)
Definition assign_mpesaTimestamp (date : option Date) (tx : t) : t :=
  match date with
  | Some d => set_mpesaTimestamp (Some d) tx
  | None => set_validationError (Some invalidDate) tx
  end.
End Transaction.

(* ------------------------------------------------------------------ *)
(** ** Outbound HTTP (axios) *)

Record Headers := mkHeaders {
  Content_Type : string;
  X_MPESA_Connect_Signature : string;
  X_MPESA_Connect_Timestamp : Date;
  X_MPESA_Connect_WebhookId : ObjectId
}.

Record Request := mkRequest {
  method : string;
  url : string;
  headers : Headers;
  data : JsObject;
  timeout : Z
}.

(** What the client endpoint does with a request: it answers with a status
    code and a body, or the transport fails (connection refused, DNS, the
    10 s timeout) with the message axios puts in the error. *)
Inductive HttpReply :=
| Replied (status : Z) (body : string)
| TransportFailed (message : string).

(** A response body or a Boom error returned by a route handler. *)
Inductive Response :=
| Reply (body : JsObject)
| Boom (statusCode : Z) (message : string).

(* ------------------------------------------------------------------ *)
(** ** The world *)

Inductive Event :=
| Logged (level msg : string)
| SavedWebhook (doc : Webhook.t)
| Posted (req : Request)
| Detached (webhookId : ObjectId).

Record World := mkWorld {
  webhooks : list Webhook.t;
  users : list User.t;
  transactions : list Transaction.t;
  clock : Date;
  network : Request -> HttpReply;
  faults : list (option string);
  entropy : list string;
  nextObjectId : ObjectId;
  trace : list Event
}.

Definition set_webhooks (ws : list Webhook.t) (w : World) : World :=
  mkWorld ws (users w) (transactions w) (clock w) (network w) (faults w)
          (entropy w) (nextObjectId w) (trace w).

Definition set_users (us : list User.t) (w : World) : World :=
  mkWorld (webhooks w) us (transactions w) (clock w) (network w) (faults w)
          (entropy w) (nextObjectId w) (trace w).

Definition set_transactions (ts : list Transaction.t) (w : World) : World :=
  mkWorld (webhooks w) (users w) ts (clock w) (network w) (faults w)
          (entropy w) (nextObjectId w) (trace w).

Definition set_faults (fs : list (option string)) (w : World) : World :=
  mkWorld (webhooks w) (users w) (transactions w) (clock w) (network w) fs
          (entropy w) (nextObjectId w) (trace w).

Definition set_entropy (es : list string) (w : World) : World :=
  mkWorld (webhooks w) (users w) (transactions w) (clock w) (network w)
          (faults w) es (nextObjectId w) (trace w).

Definition set_nextObjectId (n : ObjectId) (w : World) : World :=
  mkWorld (webhooks w) (users w) (transactions w) (clock w) (network w)
          (faults w) (entropy w) n (trace w).

Definition emit (e : Event) (w : World) : World :=
  mkWorld (webhooks w) (users w) (transactions w) (clock w) (network w)
          (faults w) (entropy w) (nextObjectId w) (trace w ++ [e]).

(* ------------------------------------------------------------------ *)
(** ** The monad of asynchronous functions *)

Inductive Completion (A : Type) :=
| Normal (a : A)
| Thrown (message : string).
Arguments Normal {A} a.
Arguments Thrown {A} message.

Definition Async (A : Type) := World -> Completion A * World.

Definition ret {A} (a : A) : Async A := fun w => (Normal a, w).

Definition throw {A} (message : string) : Async A := fun w => (Thrown message, w).

Definition bind {A B} (m : Async A) (k : A -> Async B) : Async B :=
  fun w => match m w with
           | (Normal a, w') => k a w'
           | (Thrown e, w') => (Thrown e, w')
           end.

Definition tryCatch {A} (m : Async A) (handler : string -> Async A) : Async A :=
  fun w => match m w with
           | (Normal a, w') => (Normal a, w')
           | (Thrown e, w') => handler e w'
           end.

Notation "x <- m ;; k" := (bind m (fun x => k))
  (at level 61, m at next level, right associativity) : async_scope.
Notation "m ;; k" := (bind m (fun _ => k))
  (at level 61, right associativity) : async_scope.
Local Open Scope async_scope.

Fixpoint forEach {A} (l : list A) (f : A -> Async unit) : Async unit :=
  match l with
  | [] => ret tt
  | a :: l' => f a ;; forEach l' f
  end.

(** One round trip to MongoDB.  The head of the fault script says whether
    this round trip fails (with the driver's error message); an empty script
    means the storage is up. *)
Definition storage {A} (op : Async A) : Async A :=
  fun w => match faults w with
           | [] => op w
           | None :: rest => op (set_faults rest w)
           | Some e :: rest => (Thrown e, set_faults rest w)
           end.

Definition logger (level msg : string) : Async unit :=
  fun w => (Normal tt, emit (Logged level msg) w).

Definition Date_now : Async Date := fun w => (Normal (clock w), w).

(** [crypto.randomBytes(n).toString('hex')]. *)
Definition randomHex : Async string :=
  fun w => match entropy w with
           | [] => (Normal EmptyString, w)
           | r :: rest => (Normal r, set_entropy rest w)
           end.

(** A fresh [_id] for [new Model(...)]. *)
Definition newObjectId : Async ObjectId :=
  fun w => (Normal (nextObjectId w), set_nextObjectId (S (nextObjectId w)) w).

(* ------------------------------------------------------------------ *)
(** ** Mongoose model operations *)

Definition hasId (id : ObjectId) (d : Webhook.t) : bool :=
  Nat.eqb (Webhook._id d) id.

(** [updateOne({_id: d._id}, d)]: the first document carrying the id of [d]
    is replaced by [d]. *)
Fixpoint replaceDoc (d : Webhook.t) (ws : list Webhook.t) : list Webhook.t :=
  match ws with
  | [] => []
  | x :: rest =>
    if hasId (Webhook._id d) x then d :: rest else x :: replaceDoc d rest
  end.

(** [Webhook.findById(id)]. *)
Definition Webhook_findById (id : ObjectId) : Async (option Webhook.t) :=
  storage (fun w => (Normal (find (hasId id) (webhooks w)), w)).

(** [webhook.save()] on a document loaded from the collection: validation
    runs first, then the stored document with the same [_id] is updated. *)
Definition Webhook_save (doc : Webhook.t) : Async unit :=
  match Webhook.validate doc with
  | Some e => throw e
  | None =>
    storage (fun w =>
      match find (hasId (Webhook._id doc)) (webhooks w) with
      | Some _ =>
        (Normal tt,
         emit (SavedWebhook doc) (set_webhooks (replaceDoc doc (webhooks w)) w))
      | None => (Thrown "No document found for query"%string, w)
      end)
  end.

(** [webhook.save()] on a document made by [new Webhook(...)]: validation,
    then an insert at the end of the collection. *)
Definition Webhook_insert (doc : Webhook.t) : Async unit :=
  match Webhook.validate doc with
  | Some e => throw e
  | None =>
    storage (fun w =>
      match find (hasId (Webhook._id doc)) (webhooks w) with
      | Some _ => (Thrown "E11000 duplicate key error"%string, w)
      | None =>
        (Normal tt,
         emit (SavedWebhook doc) (set_webhooks (webhooks w ++ [doc]) w))
      end)
  end.

(** [cursor.limit(n)]: MongoDB reads a limit of 0 as no limit. *)
Definition limit {A} (n : nat) (l : list A) : list A :=
  match n with
  | O => l
  | _ => firstn n l
  end.

(** [Webhook.find(query).limit(n)]: no sort is given, so the documents come
    in the natural order of the collection. *)
Definition Webhook_find_limit (query : Webhook.t -> bool) (n : nat)
  : Async (list Webhook.t) :=
  storage (fun w => (Normal (limit n (filter query (webhooks w))), w)).

Definition userHasId (id : ObjectId) (u : User.t) : bool :=
  Nat.eqb (User._id u) id.

(** The paths declared [select: false] are left out of a query result
    unless they are selected explicitly. *)
Definition defaultProjection (u : User.t) : User.t :=
  User.mk (User._id u) (User.email u) None None
    (match User.webhookConfig u with
     | Some c => Some (User.mkWebhookConfig None (User.endpoints c))
     | None => None
     end)
    (User.resetPasswordToken u) (User.resetPasswordExpires u).

Definition selectSecret (u : User.t) : User.t :=
  User.mk (User._id u) (User.email u) None None (User.webhookConfig u)
    (User.resetPasswordToken u) (User.resetPasswordExpires u).

(** [User.findById(id)]. *)
Definition User_findById (id : ObjectId) : Async (option User.t) :=
  storage (fun w =>
    (Normal (option_map defaultProjection (find (userHasId id) (users w))), w)).

(** [User.findById(id).select('+webhookConfig.secret')]. *)
Definition User_findById_select_secret (id : ObjectId) : Async (option User.t) :=
  storage (fun w =>
    (Normal (option_map selectSecret (find (userHasId id) (users w))), w)).


(** [!user || !user.webhookConfig || !user.webhookConfig.secret] is false
    exactly when this is [Some secret]. *)
Definition webhookSecret (user : option User.t) : option string :=
  match user with
  | None => None
  | Some u =>
    match User.webhookConfig u with
    | None => None
    | Some c =>
      match User.secret c with
      | Some s => if nonEmpty s then Some s else None
      | None => None
      end
    end
  end.

(** [await axios({...})]: the request goes out; a reply outside 2xx and a
    transport failure both reject. *)
Definition axios (req : Request) : Async (Z * string) :=
  fun w =>
    let w' := emit (Posted req) w in
    match network w req with
    | Replied st body =>
      if (200 <=? st) && (st <? 300) then (Normal (st, body), w')
      else (Thrown ("Request failed with status code " ++ decimal st)%string, w')
    | TransportFailed msg => (Thrown msg, w')
    end.

(** A call of an async function whose promise is not awaited. *)
Definition detach (webhookId : ObjectId) : Async unit :=
  fun w => (Normal tt, emit (Detached webhookId) w).

Module WebhookData.
Record t := mk {
  userId : ObjectId;
  transactionId : option ObjectId;
  destination : string;
  eventType : string;
  payload : JsObject
}.
End WebhookData.

(* ------------------------------------------------------------------ *)
(** ** Phone numbers (src/api/v1/stk/handlers.js, src/core/mpesa/stk.js) *)

(** [s.replace(/^c/, by)]: a leading [c] is replaced, once. *)
Definition replaceLeading (c : ascii) (by_ : string) (s : string) : string :=
  match s with
  | String a rest => if Ascii.eqb a c then (by_ ++ rest)%string else s
  | EmptyString => s
  end.

(** [phoneNumber.replace(/^0/, '254').replace(/^\+/, '')], as written in
    initiateStkPush and again in [StkPush.initiate]. *)
Definition formatPhone (phoneNumber : string) : string :=
  replaceLeading "+" "" (replaceLeading "0" "254" phoneNumber).

Definition isDigit (c : ascii) : bool :=
  (48 <=? nat_of_ascii c)%nat && (nat_of_ascii c <=? 57)%nat.

(** [7[0-9]{8}] on the whole string. *)
Definition isSubscriber (s : string) : bool :=
  match s with
  | String a rest =>
    Ascii.eqb a "7" && Nat.eqb (String.length rest) 8
    && forallb isDigit (list_ascii_of_string rest)
  | EmptyString => false
  end.

(** The route validation of [phoneNumber]:
    [/^(?:254|\+254|0)?(7[0-9]{8})$/]. *)
Definition validPhone (s : string) : bool :=
  isSubscriber s
  || match s with
     | String a rest =>
       (Ascii.eqb a "0" && isSubscriber rest)
       || (String.eqb (String.substring 0 3 s) "254"
           && isSubscriber (String.substring 3 (String.length s - 3) s))
       || (String.eqb (String.substring 0 4 s) "+254"
           && isSubscriber (String.substring 4 (String.length s - 4) s))
     | EmptyString => false
     end.

(* ------------------------------------------------------------------ *)
(** ** Timestamps of the STK requests (src/core/mpesa/stk.js) *)

(** What the getters of [new Date()] return. *)
Record LocalDate := mkLocalDate {
  getFullYear : Z;
  getMonth : Z;
  getDate : Z;
  getHours : Z;
  getMinutes : Z;
  getSeconds : Z
}.

Fixpoint repeatChar (n : nat) (c : ascii) : string :=
  match n with
  | O => EmptyString
  | S k => String c (repeatChar k c)
  end.

(** [s.padStart(targetLength, fill)] for a one-character [fill]. *)
Definition padStart (targetLength : nat) (fill : ascii) (s : string) : string :=
  (repeatChar (targetLength - String.length s) fill ++ s)%string.

Definition generateTimestamp (date : LocalDate) : string :=
  let year := decimal (getFullYear date) in
  let month := padStart 2 "0" (decimal (getMonth date + 1)) in
  let day := padStart 2 "0" (decimal (getDate date)) in
  let hours := padStart 2 "0" (decimal (getHours date)) in
  let minutes := padStart 2 "0" (decimal (getMinutes date)) in
  let seconds := padStart 2 "0" (decimal (getSeconds date)) in
  (year ++ month ++ day ++ hours ++ minutes ++ seconds)%string.

(* ------------------------------------------------------------------ *)
(** ** src/core/mpesa/auth.js *)

Module MpesaAuth.
Record t := mk {
  consumerKey : string;
  consumerSecret : string;
  baseUrl : string;
  tokenCache : option string;
  tokenExpiry : option Date
}.

Record TokenRequest := mkTokenRequest {
  url : string;
  Authorization : string
}.

(** The answer to the token request: [response.data] (possibly missing)
    with its [access_token] (possibly missing), or a rejection by axios. *)
Inductive TokenReply :=
| Answered (data : option (option string))
| Rejected (message : string).

Inductive Effect :=
| Log (level msg : string)
| Get (req : TokenRequest).

Definition set_token (token : string) (expiry : Date) (this : t) : t :=
  mk (consumerKey this) (consumerSecret this) (baseUrl this) (Some token) (Some expiry).

(** [Buffer.from(`${key}:${secret}`).toString('base64')], for the base64
    encoder [base64]. *)
Definition generateAuthString (base64 : string -> string) (this : t) : string :=
  base64 (consumerKey this ++ ":" ++ consumerSecret this)%string.

(** [this.tokenCache && this.tokenExpiry && this.tokenExpiry > now]. *)
Definition cached (now : Date) (this : t) : option string :=
  match tokenCache this, tokenExpiry this with
  | Some token, Some expiry =>
    if nonEmpty token && (now <? expiry) then Some token else None
  | _, _ => None
  end.

(** [getOAuthToken()] at time [now], against the token endpoint
    [endpoint]: the completion, the object afterwards and what was done. *)
Definition getOAuthToken (base64 : string -> string)
    (endpoint : TokenRequest -> TokenReply) (now : Date) (this : t)
  : Completion string * t * list Effect :=
  match cached now this with
  | Some token => (Normal token, this, [Log "debug" "Using cached OAuth token"])
  | None =>
    let auth := generateAuthString base64 this in
    let req :=
      mkTokenRequest
        (baseUrl this ++ "/oauth/v1/generate?grant_type=client_credentials")%string
        ("Basic " ++ auth)%string in
    let done := [Log "info" "Fetching new OAuth token from Safaricom"; Get req] in
    match endpoint req with
    | Rejected message =>
      (Thrown message, this, done ++ [Log "error" "Error getting OAuth token"])
    | Answered data =>
      match data with
      | Some (Some token) =>
        if nonEmpty token then
          (Normal token, set_token token (now + 55 * 60 * 1000) this, done)
        else
          (Thrown "Could not get access token from response"%string, this,
           done ++ [Log "error" "Error getting OAuth token"])
      | _ =>
        (Thrown "Could not get access token from response"%string, this,
         done ++ [Log "error" "Error getting OAuth token"])
      end
    end
  end.
End MpesaAuth.

(* ------------------------------------------------------------------ *)
(** ** The object getWebhookStatus returns (src/services/webhook-service.js)

    [created] and [eventType] are read from the loaded document, whose
    schema declares neither path. *)

Module WebhookStatus.
Record t := mk {
  id : ObjectId;
  status : string;
  attempts : Z;
  lastAttempt : option Date;
  created : JsValue;
  eventType : JsValue;
  transactionId : option ObjectId;
  errorMessage : option string
}.
End WebhookStatus.

(* ------------------------------------------------------------------ *)
(** ** Sample inputs *)

(** A stand-in serializer and keyed hash, used only to run the model on
    concrete inputs. *)
Module Sample.
Definition show (v : JsValue) : string :=
  match v with
  | JsUndefined => "undefined"
  | JsNull => "null"
  | JsBool true => "true"
  | JsBool false => "false"
  | JsNumber z => decimal z
  | JsNaN => "NaN"
  | JsString s => s
  | JsObjectId i => decimal (Z.of_nat i)
  | JsDate d => decimal d
  | JsBody _ => "{}"
  end.
Definition stringify (o : JsObject) : string :=
  fold_right (fun kv acc => (fst kv ++ "=" ++ show (snd kv) ++ ";" ++ acc)%string)
             EmptyString o.
Definition hmac (key msg : string) : string := (key ++ "|" ++ msg)%string.

(** Stand-ins for the other platform functions: numbers printed in full,
    a date text accepted when it is YYYY-MM-DDTHH:MM:SS with month 01-12,
    day 01-31, hour 00-23, minute and second 00-59 (the time returned is
    the fourteen digits read as a number), addresses taken as they are. *)
Definition numberToString (z : Z) : string := decimal z.

Definition digit (c : ascii) : option Z :=
  let n := nat_of_ascii c in
  if ((48 <=? n) && (n <=? 57))%nat then Some (Z.of_nat n - 48) else None.

Definition twoDigits (a b : ascii) (lo hi : Z) : option Z :=
  match digit a, digit b with
  | Some x, Some y =>
    let n := 10 * x + y in
    if (lo <=? n) && (n <=? hi) then Some n else None
  | _, _ => None
  end.

Definition parseDate (s : string) : option Date :=
  match list_ascii_of_string s with
  | [y1; y2; y3; y4; d1; m1; m2; d2; a1; a2; t; h1; h2; c1; i1; i2; c2; s1; s2] =>
    if Ascii.eqb d1 "-" && Ascii.eqb d2 "-" && Ascii.eqb t "T"
       && Ascii.eqb c1 ":" && Ascii.eqb c2 ":" then
      match twoDigits y1 y2 0 99, twoDigits y3 y4 0 99, twoDigits m1 m2 1 12,
            twoDigits a1 a2 1 31, twoDigits h1 h2 0 23, twoDigits i1 i2 0 59,
            twoDigits s1 s2 0 59 with
      | Some c, Some y, Some m, Some d, Some h, Some i, Some sec =>
        Some (((((((c * 100 + y) * 100 + m) * 100 + d) * 100 + h) * 100 + i)
               * 100) + sec)
      | _, _, _, _, _, _, _ => None
      end
    else None
  | _ => None
  end.

Definition normalize (email : string) : string := email.

Definition parseFloat (v : option Json) : option Z :=
  match v with
  | Some (JsonNumber z) => Some z
  | _ => None
  end.

(** The merchant holds the short code 600123. *)
Definition shortCodeIs (code : option Json) (u : User.t) : bool :=
  match code with
  | Some (JsonString c) => String.eqb c "600123" && Nat.eqb (User._id u) 10
  | Some (JsonNumber c) => Z.eqb c 600123 && Nat.eqb (User._id u) 10
  | _ => false
  end.

(** A client with a signing secret and an STK endpoint, and one with
    neither. *)
Definition owner : User.t :=
  User.mk 10%nat "merchant@example.com" (Some "ak"%string) (Some "sk"%string)
    (Some (User.mkWebhookConfig (Some "whsec"%string)
             (Some (User.mkEndpoints (Some "https://client.example/stk"%string)
                      None None None))))
    None None.

Definition bare : User.t :=
  User.mk 11%nat "new@example.com" (Some "ak2"%string) (Some "sk2"%string)
    (Some (User.mkWebhookConfig None None)) None None.

Definition note (id user : ObjectId) (status : string) (attempts : Z)
    (last : option Date) : Webhook.t :=
  Webhook.mk id user None (Some "STK"%string) status
    [("status"%string, JsString "COMPLETED")] "https://client.example/stk"
    attempts last None None.

Definition accepts : Request -> HttpReply := fun _ => Replied 200 "ok".
Definition refuses : Request -> HttpReply := fun _ => Replied 500 "down".

Definition pendingTx : Transaction.t :=
  Transaction.mk 50%nat 10%nat "STK" 100 "254700000000" "PENDING" None
    (Some "ws_CO_1"%string) None None None None None None None.

(** The storage is up, the clock reads 1 000 000 ms. *)
Definition world (ws : list Webhook.t) (txs : list Transaction.t)
    (net : Request -> HttpReply) : World :=
  mkWorld ws [owner; bare] txs 1000000 net [] [] 100%nat [].

Definition sentWorld : World :=
  world [note 1%nat 10%nat "SENT" 1 (Some 1000)] [] accepts.

Definition bareWorld : World :=
  world [note 1%nat 11%nat "FAILED" 1 (Some 1000)] [] accepts.

Definition freshWorld : World :=
  world [note 1%nat 10%nat "PENDING" 0 None] [] refuses.

Definition failingWorld : World :=
  world [note 1%nat 10%nat "FAILED" 1 (Some 1000)] [] refuses.

Definition backlog : World :=
  world [note 1%nat 10%nat "FAILED" 1 (Some 2000);
         note 2%nat 10%nat "FAILED" 1 (Some 1000)] [] refuses.

Definition emptyWorld : World := world [] [] accepts.

Definition stkWorld : World := world [] [pendingTx] accepts.

Definition callback (checkoutRequestId : string) (resultCode : Z)
    (resultDesc : string) : option Callback.t :=
  Some (Callback.mk
          (Some (Callback.mkEnvelope
                   (Some (Callback.mkStkCallback (Some checkoutRequestId)
                            (Some resultCode) (Some resultDesc) None))))).
End Sample.

(* ------------------------------------------------------------------ *)
(** ** Sample inputs for the reset, callback and token scenarios *)

Module Scenario.
Definition hash (password salt : string) : string := (salt ++ "$" ++ password)%string.
Definition base64 (s : string) : string := ("b64:" ++ s)%string.

(** The draws of one forgotPassword: the token, then the two keys of the
    pre-save hook. *)
Definition resetWorld : World :=
  mkWorld [] [Sample.owner; Sample.bare] [] 1000000 Sample.accepts []
          ["t0ken"; "ak9"; "sk9"]%string 100%nat [].

(** The merchant after forgotPassword in [resetWorld]. *)
Definition issued : User.t :=
  User.mk 10%nat "merchant@example.com" (Some "ak9"%string) (Some "sk9"%string)
    (User.webhookConfig Sample.owner) (Some "t0ken"%string) (Some 4600000).

(** A later moment, with the draws of one resetPassword: the salt, then the
    two keys. *)
Definition laterWorld (now : Date) : World :=
  mkWorld [] [issued; Sample.bare] [] now Sample.accepts []
          ["salt"; "ak10"; "sk10"]%string 100%nat [].

(** A completed payment as the network reports it. *)
Definition items : list Callback.NameValue :=
  [ Callback.mkNameValue "Amount" (Some (JsonNumber 100));
    Callback.mkNameValue "MpesaReceiptNumber" (Some (JsonString "QK12345"));
    Callback.mkNameValue "TransactionDate" (Some (JsonNumber 20240105090703)) ]%string.

Definition paid : Callback.StkCallback :=
  Callback.mkStkCallback (Some "ws_CO_1"%string) (Some 0)
    (Some "The service request is processed successfully."%string)
    (Some (Callback.mkMetadata (Some items))).

Definition paidCallback : option Callback.t :=
  Some (Callback.mk (Some (Callback.mkEnvelope (Some paid)))).

(** The same payment reported with month 13 in its TransactionDate. *)
Definition misdated : Callback.StkCallback :=
  Callback.mkStkCallback (Some "ws_CO_1"%string) (Some 0)
    (Some "The service request is processed successfully."%string)
    (Some (Callback.mkMetadata (Some
       [ Callback.mkNameValue "Amount" (Some (JsonNumber 100));
         Callback.mkNameValue "MpesaReceiptNumber" (Some (JsonString "QK12345"));
         Callback.mkNameValue "TransactionDate"
           (Some (JsonNumber 20241305090703)) ]%string))).

Definition misdatedCallback : option Callback.t :=
  Some (Callback.mk (Some (Callback.mkEnvelope (Some misdated)))).

(** A delivered notification, and a storage whose next round trip fails. *)
Definition brokenRead : World :=
  mkWorld [Sample.note 1%nat 10%nat "SENT" 1 (Some 1000)]
          [Sample.owner; Sample.bare] [] 1000000 Sample.accepts
          [Some "connection lost"%string] [] 100%nat [].

(** A storage that goes down while the request is in flight: three round
    trips pass, the next two fail. *)
Definition crashing : World :=
  mkWorld [Sample.note 1%nat 10%nat "FAILED" 1 (Some 1000)]
          [Sample.owner; Sample.bare] [] 1000000 Sample.accepts
          [None; None; None; Some "connection lost"%string;
           Some "connection lost"%string] [] 100%nat [].

(** A storage that answers the query and fails the write after it. *)
Definition brokenSave : World :=
  mkWorld [] [Sample.owner; Sample.bare] [] 1000000 Sample.accepts
          [None; Some "connection lost"%string]
          ["t0ken"; "ak9"; "sk9"]%string 100%nat [].

Definition cancelled : Callback.StkCallback :=
  Callback.mkStkCallback (Some "ws_CO_1"%string) (Some 1032)
    (Some "Request cancelled by user"%string) None.

Definition morning : LocalDate := mkLocalDate 2024 0 5 9 7 3.

Definition auth : MpesaAuth.t :=
  MpesaAuth.mk "key" "secret" "https://api.safaricom.co.ke" None None.

Definition tokenEndpoint : MpesaAuth.TokenRequest -> MpesaAuth.TokenReply :=
  fun _ => MpesaAuth.Answered (Some (Some "tkn"%string)).
End Scenario.

(* ------------------------------------------------------------------ *)
(** ** src/services/webhook-service.js *)

Section Platform.

(** The service is parametric in two library functions:
    [JSON.stringify] on a payload object, and
    [crypto.createHmac('sha256', key).update(msg).digest('hex')]. *)
Variable JSON_stringify : JsObject -> string.
Variable createHmac_sha256_hex : string -> string -> string.

(** The handlers are parametric in
    - [String(n)] for a number beyond the safe integers (the digits are
      those of the nearest double, possibly in exponent form),
    - [new Date(text)], where [None] is an Invalid Date (the language fixes
      the result for the date-time format only, and engines differ on the
      rest),
    - [parseFloat(value)], where [None] is NaN,
    - the setters [trim] and [lowercase] of the [email] path, which Mongoose
      applies to the value of a query on that path as well,
    - the match of [{ 'mpesaConfig.shortCode': value }] against a stored
      user, whose record here does not carry [mpesaConfig]. *)
Variable Number_toString : Z -> string.
Variable Date_parse : string -> option Date.
Variable parseFloat : option Json -> option Z.
Variable normalizeEmail : string -> string.
Variable shortCodeIs : option Json -> User.t -> bool.

(** [String(value)]; on a value that is neither null nor undefined it is
    [value.toString()], and what Mongoose's cast to String stores. *)
Definition toString (v : Json) : string :=
  match v with
  | JsonNull => "null"
  | JsonBool true => "true"
  | JsonBool false => "false"
  | JsonNumber z => if safeInteger z then decimal z else Number_toString z
  | JsonString s => s
  end.

(** The body axios puts on the wire for an object given as [data]: its
    default request transform serializes it with [JSON.stringify]. *)
Definition transmittedBody (req : Request) : string :=
  JSON_stringify (data req).

Definition maxRetries : Z := 5.

Definition sendWebhook (webhookId : ObjectId) : Async unit :=
  tryCatch
    (webhook <- Webhook_findById webhookId ;;
     match webhook with
     | None => logger "error" "Webhook not found"
     | Some webhook =>
       if String.eqb (Webhook.status webhook) "SENT" then ret tt
       else
         user <- User_findById_select_secret (Webhook.userId webhook) ;;
         match webhookSecret user with
         | None =>
           logger "error" "User or webhook secret not found" ;;
           let webhook := Webhook.set_status "FAILED" webhook in
           let webhook :=
             Webhook.set_errorMessage (Some "Invalid webhook configuration"%string) webhook in
           Webhook_save webhook
         | Some secret =>
           let webhook := Webhook.set_attempts (Webhook.attempts webhook + 1) webhook in
           now <- Date_now ;;
           let webhook := Webhook.set_lastAttempt (Some now) webhook in
           let webhook := Webhook.set_status "PENDING" webhook in
           Webhook_save webhook ;;
           let payload := JSON_stringify (Webhook.payload webhook) in
           let signature := createHmac_sha256_hex secret payload in
           stamp <- Date_now ;;
           response <- axios (mkRequest "post" (Webhook.destination webhook)
                                (mkHeaders "application/json" signature stamp
                                           (Webhook._id webhook))
                                (Webhook.payload webhook) 10000) ;;
           let webhook := Webhook.set_status "SENT" webhook in
           let webhook := Webhook.set_response (Some response) webhook in
           Webhook_save webhook ;;
           logger "info" "Webhook sent successfully"
         end
     end)
    (fun error =>
       logger "error" "Error sending webhook" ;;
       tryCatch
         (webhook <- Webhook_findById webhookId ;;
          match webhook with
          | None => ret tt
          | Some webhook =>
            let webhook := Webhook.set_status "FAILED" webhook in
            let webhook := Webhook.set_errorMessage (Some error) webhook in
            webhook <- (if maxRetries <=? Webhook.attempts webhook then
                          let webhook := Webhook.set_status "FAILED_PERMANENT" webhook in
                          logger "warn" "Max retries reached for webhook" ;;
                          ret webhook
                        else ret webhook) ;;
            Webhook_save webhook
          end)
         (fun updateError => logger "error" "Error updating webhook after failure")).

Definition createWebhook (webhookData : WebhookData.t) : Async Webhook.t :=
  tryCatch
    (id <- newObjectId ;;
     let webhook :=
       Webhook.mk id (WebhookData.userId webhookData)
                  (WebhookData.transactionId webhookData) None "PENDING"
                  (WebhookData.payload webhookData)
                  (WebhookData.destination webhookData) 0 None None None in
     Webhook_insert webhook ;;
     logger "info" "Webhook created" ;;
     detach (Webhook._id webhook) ;;
     ret webhook)
    (fun error => logger "error" "Error creating webhook" ;; throw error).

(** The query of retryFailedWebhooks; [$lt] never matches a missing
    [lastAttempt]. *)
Definition retryQuery (now : Date) (d : Webhook.t) : bool :=
  String.eqb (Webhook.status d) "FAILED"
  && (Webhook.attempts d <? 5)
  && match Webhook.lastAttempt d with
     | Some t => t <? now - 5 * 60 * 1000
     | None => false
     end.

(** The calls started by [failedWebhooks.map(...)] work on documents with
    different ids; [Promise.all] is taken in list order. *)
Definition retryFailedWebhooks (batchSize : option nat) : Async nat :=
  let batchSize := match batchSize with Some n => n | None => 50%nat end in
  tryCatch
    (now <- Date_now ;;
     failedWebhooks <- Webhook_find_limit (retryQuery now) batchSize ;;
     logger "info" ("Retrying " ++ decimal (Z.of_nat (List.length failedWebhooks))
                    ++ " failed webhooks")%string ;;
     forEach failedWebhooks
       (fun webhook =>
          tryCatch (sendWebhook (Webhook._id webhook))
                   (fun err => logger "error" "Error in retry process")) ;;
     ret (List.length failedWebhooks))
    (fun error => logger "error" "Error retrying failed webhooks" ;; throw error).


(* ------------------------------------------------------------------ *)
(** ** src/api/v1/stk/handlers.js *)

Definition txHasId (id : ObjectId) (tx : Transaction.t) : bool :=
  Nat.eqb (Transaction._id tx) id.

(** [Transaction.findOne({ checkoutRequestId, type: 'STK' })]; a missing
    identifier in the query matches the documents that have none. *)
Definition Transaction_findOne_stk (checkoutRequestId : option string)
  : Async (option Transaction.t) :=
  storage (fun w =>
    (Normal (option_map Transaction.loaded
               (find (fun tx =>
                        optStringEqb (Transaction.checkoutRequestId tx) checkoutRequestId
                        && String.eqb (Transaction.type tx) "STK")
                     (transactions w))), w)).

(** The validation Mongoose runs inside [save()]: a cast error recorded on
    the document, then the enumerations of [type] and [status].  The
    required paths are present in every stored document. *)
Definition Transaction_validate (tx : Transaction.t) : option string :=
  match Transaction.validationError tx with
  | Some e => Some e
  | None =>
  if negb (Webhook.inEnum Transaction.typeEnum (Transaction.type tx)) then
    Some ("Transaction validation failed: type: `" ++ Transaction.type tx
          ++ "` is not a valid enum value for path `type`.")%string
  else if negb (Webhook.inEnum Transaction.statusEnum (Transaction.status tx)) then
    Some ("Transaction validation failed: status: `" ++ Transaction.status tx
          ++ "` is not a valid enum value for path `status`.")%string
  else None
  end.

(** [transaction.save()] on a loaded document. *)
Definition Transaction_save (tx : Transaction.t) : Async unit :=
  match Transaction_validate tx with
  | Some e => throw e
  | None =>
    storage (fun w =>
      match find (txHasId (Transaction._id tx)) (transactions w) with
      | Some _ =>
        (Normal tt,
         set_transactions
           (map (fun x => if txHasId (Transaction._id tx) x then tx else x)
                (transactions w)) w)
      | None => (Thrown "No document found for query"%string, w)
      end)
  end.

(** The status update of checkStkStatus (the branch on
    [statusResponse.ResultCode]). *)
Definition checkStkStatus_status (ResultCode : Z) : string :=
  if ResultCode =? 0 then "COMPLETED"
  else if existsb (Z.eqb ResultCode) [1; 1032] then "CANCELLED"
  else "FAILED".

Definition typeError {A} (property : string) : Async A :=
  throw ("Cannot read properties of undefined (reading '" ++ property ++ "')")%string.

Definition findItem (name : string) (items : list Callback.NameValue)
  : option Callback.NameValue :=
  find (fun item => String.eqb (Callback.Name item) name) items.

(** The receipt number and the transaction date of a completed payment,
    scanned by name from the callback metadata.  The receipt is cast to
    String by its path; the date text is handed to [new Date] and the
    result assigned to the Date path [mpesaTimestamp]. *)
Definition extractMetadata (stkCallback : Callback.StkCallback)
    (transaction : Transaction.t) : Transaction.t :=
  match Callback.CallbackMetadata stkCallback with
  | None => transaction
  | Some metadata =>
    match Callback.Item metadata with
    | None => transaction
    | Some items =>
      let transaction :=
        match findItem "MpesaReceiptNumber" items with
        | Some receiptItem =>
          match Callback.Value receiptItem with
          | Some value =>
            if truthy value then
              Transaction.set_mpesaReference (Some (toString value)) transaction
            else transaction
          | None => transaction
          end
        | None => transaction
        end in
      match findItem "TransactionDate" items with
      | Some dateItem =>
        match Callback.Value dateItem with
        | Some value =>
          if truthy value then
            let dateStr := toString value in
            let year := substring 0 4 dateStr in
            let month := substring 4 6 dateStr in
            let day := substring 6 8 dateStr in
            let hour := substring 8 10 dateStr in
            let minute := substring 10 12 dateStr in
            let second := substring 12 14 dateStr in
            Transaction.assign_mpesaTimestamp
              (Date_parse (year ++ "-" ++ month ++ "-" ++ day ++ "T" ++ hour ++ ":"
                           ++ minute ++ ":" ++ second)%string) transaction
          else transaction
        | None => transaction
        end
      | None => transaction
      end
    end
  end.

(** The status update of stkCallback (the branch on
    [stkCallback.ResultCode === 0]). *)
Definition applyResultCode (stkCallback : Callback.StkCallback)
    (transaction : Transaction.t) : Transaction.t :=
  match Callback.ResultCode stkCallback with
  | Some 0 =>
    extractMetadata stkCallback (Transaction.set_status "COMPLETED" transaction)
  | _ => Transaction.set_status "FAILED" transaction
  end.

(** [user && user.webhookConfig && user.webhookConfig.endpoints &&
    user.webhookConfig.endpoints.stkCallback]. *)
Definition stkEndpoint (user : option User.t) : option string :=
  match user with
  | None => None
  | Some u =>
    match User.webhookConfig u with
    | None => None
    | Some c =>
      match User.endpoints c with
      | None => None
      | Some e =>
        match User.stkCallback e with
        | Some dest => if nonEmpty dest then Some dest else None
        | None => None
        end
      end
    end
  end.

Definition success : Response := Reply [("success"%string, JsBool true)].

Definition stkPayload (checkoutRequestId : option string)
    (transaction : Transaction.t) : JsObject :=
  [ ("transactionId", JsObjectId (Transaction._id transaction));
    ("checkoutRequestId", optJs JsString checkoutRequestId);
    ("resultCode", optJs JsNumber (Transaction.resultCode transaction));
    ("resultDesc", optJs JsString (Transaction.resultDesc transaction));
    ("mpesaReference", optJs JsString (Transaction.mpesaReference transaction));
    ("amount", JsNumber (Transaction.amount transaction));
    ("phoneNumber", JsString (Transaction.phoneNumber transaction));
    ("status", JsString (Transaction.status transaction));
    ("timestamp", optJs JsDate (Transaction.mpesaTimestamp transaction)) ]%string.

Definition stkCallback (payload : option Callback.t) : Async Response :=
  tryCatch
    (let callbackData := payload in
     logger "info" "STK callback received" ;;
     body <- match callbackData with
             | Some cd => ret (Callback.Body cd)
             | None => typeError "Body"
             end ;;
     stkCallback <- match body with
                    | Some b => ret (Callback.stkCallback b)
                    | None => typeError "stkCallback"
                    end ;;
     stkCallback <- match stkCallback with
                    | Some c => ret c
                    | None => typeError "CheckoutRequestID"
                    end ;;
     let checkoutRequestId := Callback.CheckoutRequestID stkCallback in
     transaction <- Transaction_findOne_stk checkoutRequestId ;;
     match transaction with
     | None =>
       logger "error" "Transaction not found for callback" ;;
       ret success
     | Some transaction =>
       let transaction :=
         Transaction.set_callback callbackData
           (Callback.ResultCode stkCallback) (Callback.ResultDesc stkCallback)
           transaction in
       let transaction := applyResultCode stkCallback transaction in
       Transaction_save transaction ;;
       user <- User_findById (Transaction.userId transaction) ;;
       match stkEndpoint user with
       | Some destination =>
         id <- newObjectId ;;
         let webhook :=
           Webhook.mk id (Transaction.userId transaction)
                      (Some (Transaction._id transaction)) (Some "STK"%string)
                      "PENDING" (stkPayload checkoutRequestId transaction)
                      destination 0 None None None in
         Webhook_insert webhook ;;
         detach (Webhook._id webhook)
       | None => ret tt
       end ;;
       ret success
     end)
    (fun error =>
       logger "error" "Error in stkCallback handler" ;;
       ret success).

(* ------------------------------------------------------------------ *)
(** ** src/api/v1/c2b/handlers.js *)

(** [const { ... } = body]: destructuring null or undefined throws. *)
Definition destructure {A} (property name : string) (body : option A) : Async A :=
  match body with
  | Some b => ret b
  | None =>
    throw ("Cannot destructure property '" ++ property ++ "' of '" ++ name
           ++ "' as it is undefined.")%string
  end.

(** [User.findOne({ 'mpesaConfig.shortCode': BusinessShortCode })]. *)
Definition User_findOne_shortCode (BusinessShortCode : option Json)
  : Async (option User.t) :=
  storage (fun w =>
    (Normal (option_map defaultProjection
               (find (shortCodeIs BusinessShortCode) (users w))), w)).

(** [user.webhookConfig && user.webhookConfig.endpoints &&
    user.webhookConfig.endpoints.<name>]. *)
Definition endpoint (name : User.Endpoints -> option string) (user : User.t)
  : option string :=
  match User.webhookConfig user with
  | None => None
  | Some c =>
    match User.endpoints c with
    | None => None
    | Some e =>
      match name e with
      | Some dest => if nonEmpty dest then Some dest else None
      | None => None
      end
    end
  end.

(** What Mongoose's cast to String makes of a value given to a String path
    or to a query on one. *)
Definition castString (v : option Json) : option string :=
  match v with
  | None | Some JsonNull => None
  | Some v => Some (toString v)
  end.

Definition accepted : Response :=
  Reply [ ("ResultCode", JsNumber 0); ("ResultDesc", JsString "Accepted") ]%string.

Definition unknownRecipient : Response :=
  Reply [ ("ResultCode", JsNumber 1);
          ("ResultDesc", JsString "Rejected: Unknown recipient") ]%string.

(** [sendWebhook] resolves to undefined, so the test [response &&
    response.data] that follows the awaited call is false and the handler
    falls through to the default reply. *)
Definition validation (payload : option C2BBody) : Async Response :=
  tryCatch
    (let validationData := payload in
     logger "info" "C2B validation received" ;;
     body <- destructure "TransID" "validationData" validationData ;;
     let BusinessShortCode := get "BusinessShortCode" body in
     user <- User_findOne_shortCode BusinessShortCode ;;
     match user with
     | None =>
       logger "error" "User not found for C2B validation" ;;
       ret unknownRecipient
     | Some user =>
       match endpoint User.c2bValidation user with
       | Some destination =>
         id <- newObjectId ;;
         let webhook :=
           Webhook.mk id (User._id user) None (Some "C2B_VALIDATION"%string)
                      "PENDING" (ofBody body) destination 0 None None None in
         Webhook_insert webhook ;;
         sendWebhook (Webhook._id webhook) ;;
         ret accepted
       | None => ret accepted
       end
     end)
    (fun error =>
       logger "error" "Error in C2B validation handler" ;;
       ret accepted).

(** [Transaction.findOne({ mpesaReference: TransID, type: 'C2B' })]. *)
Definition Transaction_findOne_c2b (TransID : option Json)
  : Async (option Transaction.t) :=
  storage (fun w =>
    (Normal (option_map Transaction.loaded
               (find (fun tx =>
                        optStringEqb (Transaction.mpesaReference tx) (castString TransID)
                        && String.eqb (Transaction.type tx) "C2B")
                     (transactions w))), w)).

(** [transaction.save()] on a document made by [new Transaction(...)]: the
    validation, with the required [phoneNumber] (an empty string does not
    count), then an insert. *)
Definition Transaction_insert (tx : Transaction.t) : Async unit :=
  match Transaction_validate tx with
  | Some e => throw e
  | None =>
    if nonEmpty (Transaction.phoneNumber tx) then
      storage (fun w =>
        match find (txHasId (Transaction._id tx)) (transactions w) with
        | Some _ => (Thrown "E11000 duplicate key error"%string, w)
        | None => (Normal tt, set_transactions (transactions w ++ [tx]) w)
        end)
    else
      throw "Transaction validation failed: phoneNumber: Path `phoneNumber` is required."
  end.

(** [new Transaction({ ... })] of the confirmation handler.  A NaN amount
    is refused by the cast to Number: the path stays unset (the record
    shows 0) and the error is recorded. *)
Definition newC2BTransaction (id : ObjectId) (user : User.t)
    (formattedPhone : string) (body : C2BBody) : Transaction.t :=
  let amount := parseFloat (get "TransAmount" body) in
  Transaction.mk id (User._id user) "C2B"
    (match amount with Some z => z | None => 0 end)
    formattedPhone "COMPLETED" (castString (get "TransID" body)) None None
    None None (castString (get "BillRefNumber" body)) None
    (Some (Transaction.ofC2B body))
    (match amount with Some _ => None | None => Some Transaction.invalidAmount end).

Definition confirmationPayload (transaction : Transaction.t)
    (formattedPhone : string) (body : C2BBody) : JsObject :=
  [ ("transactionId", JsObjectId (Transaction._id transaction));
    ("mpesaReference", optJs ofJson (get "TransID" body));
    ("amount", match parseFloat (get "TransAmount" body) with
               | Some z => JsNumber z
               | None => JsNaN
               end);
    ("phoneNumber", JsString formattedPhone);
    ("accountReference", optJs ofJson (get "BillRefNumber" body));
    ("status", JsString "COMPLETED");
    ("rawCallback", JsBody body) ]%string.

Definition confirmation (payload : option C2BBody) : Async Response :=
  tryCatch
    (let confirmationData := payload in
     logger "info" "C2B confirmation received" ;;
     body <- destructure "TransID" "confirmationData" confirmationData ;;
     let TransID := get "TransID" body in
     let MSISDN := get "MSISDN" body in
     let BusinessShortCode := get "BusinessShortCode" body in
     user <- User_findOne_shortCode BusinessShortCode ;;
     match user with
     | None =>
       logger "error" "User not found for C2B confirmation" ;;
       ret success
     | Some user =>
       msisdn <- match MSISDN with
                 | None | Some JsonNull => typeError "toString"
                 | Some value => ret (toString value)
                 end ;;
       let formattedPhone := formatPhone msisdn in
       found <- Transaction_findOne_c2b TransID ;;
       transaction <-
         match found with
         | None =>
           id <- newObjectId ;;
           let transaction := newC2BTransaction id user formattedPhone body in
           Transaction_insert transaction ;;
           ret transaction
         | Some transaction =>
           let transaction := Transaction.set_status "COMPLETED" transaction in
           let transaction :=
             Transaction.set_callbackData (Some (Transaction.ofC2B body))
               transaction in
           Transaction_save transaction ;;
           ret transaction
         end ;;
       match endpoint User.c2bConfirmation user with
       | Some destination =>
         id <- newObjectId ;;
         let webhook :=
           Webhook.mk id (User._id user) (Some (Transaction._id transaction))
                      (Some "C2B_CONFIRMATION"%string) "PENDING"
                      (confirmationPayload transaction formattedPhone body)
                      destination 0 None None None in
         Webhook_insert webhook ;;
         detach (Webhook._id webhook)
       | None => ret tt
       end ;;
       ret success
     end)
    (fun error =>
       logger "error" "Error in C2B confirmation handler" ;;
       ret success).

(* ------------------------------------------------------------------ *)
(** ** src/api/v1/b2c/handlers.js *)

(** [Transaction.findOne({ conversationId, type: 'B2C' })]. *)
Definition Transaction_findOne_b2c (conversationId : option string)
  : Async (option Transaction.t) :=
  storage (fun w =>
    (Normal (option_map Transaction.loaded
               (find (fun tx =>
                        optStringEqb (Transaction.conversationId tx) conversationId
                        && String.eqb (Transaction.type tx) "B2C")
                     (transactions w))), w)).

Definition findParameter (key : string) (params : list B2C.KeyValue)
  : option B2C.KeyValue :=
  find (fun param => String.eqb (B2C.Key param) key) params.

(** [new Date(value)]: a text is parsed, a number is the time itself when
    it is within the range of a Date. *)
Definition newDate (value : Json) : option Date :=
  match value with
  | JsonString s => Date_parse s
  | JsonNumber z => if Z.abs z <=? 8640000000000000 then Some z else None
  | JsonBool true => Some 1
  | JsonBool false => Some 0
  | JsonNull => Some 0
  end.

(** The status update of b2cResult (the branch on [resultCode === 0]). *)
Definition applyB2CResult (Result : B2C.ResultBody)
    (transaction : Transaction.t) : Transaction.t :=
  match B2C.ResultCode Result with
  | Some 0 =>
    let transaction := Transaction.set_status "COMPLETED" transaction in
    match B2C.ResultParameters Result with
    | None => transaction
    | Some parameters =>
      match B2C.ResultParameter parameters with
      | None => transaction
      | Some params =>
        let transaction :=
          match findParameter "TransactionID" params with
          | Some transIdParam =>
            match B2C.Value transIdParam with
            | Some value =>
              if truthy value then
                Transaction.set_mpesaReference (Some (toString value)) transaction
              else transaction
            | None => transaction
            end
          | None => transaction
          end in
        match findParameter "TransactionCompletedDateTime" params with
        | Some dateParam =>
          match B2C.Value dateParam with
          | Some value =>
            if truthy value then
              Transaction.assign_mpesaTimestamp (newDate value) transaction
            else transaction
          | None => transaction
          end
        | None => transaction
        end
      end
    end
  | _ => Transaction.set_status "FAILED" transaction
  end.

Definition b2cResultPayload (Result : B2C.ResultBody)
    (transaction : Transaction.t) : JsObject :=
  [ ("transactionId", JsObjectId (Transaction._id transaction));
    ("conversationId", optJs JsString (B2C.ConversationID Result));
    ("originatorConversationId",
     optJs JsString (B2C.OriginatorConversationID Result));
    ("resultCode", optJs JsNumber (Transaction.resultCode transaction));
    ("resultDesc", optJs JsString (Transaction.resultDesc transaction));
    ("mpesaReference", optJs JsString (Transaction.mpesaReference transaction));
    ("amount", JsNumber (Transaction.amount transaction));
    ("phoneNumber", JsString (Transaction.phoneNumber transaction));
    ("status", JsString (Transaction.status transaction));
    ("timestamp", optJs JsDate (Transaction.mpesaTimestamp transaction)) ]%string.

(** The notification is built with [type: 'B2C'], as the source has it. *)
Definition b2cResult (payload : option B2C.t) : Async Response :=
  tryCatch
    (let resultData := payload in
     logger "info" "B2C result callback received" ;;
     body <- destructure "Result" "resultData" resultData ;;
     Result <- match B2C.Result body with
               | Some r => ret r
               | None => typeError "ConversationID"
               end ;;
     let conversationId := B2C.ConversationID Result in
     let resultCode := B2C.ResultCode Result in
     let resultDesc := B2C.ResultDesc Result in
     transaction <- Transaction_findOne_b2c conversationId ;;
     match transaction with
     | None =>
       logger "error" "Transaction not found for B2C result" ;;
       ret success
     | Some transaction =>
       let transaction :=
         Transaction.set_callbackData (Some (Transaction.ofB2C body)) transaction in
       let transaction := Transaction.set_result resultCode resultDesc transaction in
       let transaction := applyB2CResult Result transaction in
       Transaction_save transaction ;;
       user <- User_findById (Transaction.userId transaction) ;;
       match match user with
             | Some u => endpoint User.b2cResult u
             | None => None
             end with
       | Some destination =>
         id <- newObjectId ;;
         let webhook :=
           Webhook.mk id (Transaction.userId transaction)
                      (Some (Transaction._id transaction)) (Some "B2C"%string)
                      "PENDING" (b2cResultPayload Result transaction)
                      destination 0 None None None in
         Webhook_insert webhook ;;
         detach (Webhook._id webhook)
       | None => ret tt
       end ;;
       ret success
     end)
    (fun error =>
       logger "error" "Error in b2cResult handler" ;;
       ret success).

(** [user.webhookConfig.endpoints.b2cTimeout]: the user schema declares no
    such path, so the property is undefined on every loaded user. *)
Definition b2cTimeoutEndpoint (e : User.Endpoints) : option string := None.

Definition b2cTimeoutPayload (Result : B2C.ResultBody)
    (transaction : Transaction.t) (now : Date) : JsObject :=
  [ ("transactionId", JsObjectId (Transaction._id transaction));
    ("conversationId", optJs JsString (B2C.ConversationID Result));
    ("originatorConversationId",
     optJs JsString (B2C.OriginatorConversationID Result));
    ("amount", JsNumber (Transaction.amount transaction));
    ("phoneNumber", JsString (Transaction.phoneNumber transaction));
    ("status", JsString "TIMEOUT");
    ("timestamp", JsDate now) ]%string.

(** The transaction is given [status = 'TIMEOUT'], as the source has it. *)
Definition b2cTimeout (payload : option B2C.t) : Async Response :=
  tryCatch
    (let timeoutData := payload in
     logger "info" "B2C timeout callback received" ;;
     body <- destructure "Result" "timeoutData" timeoutData ;;
     Result <- match B2C.Result body with
               | Some r => ret r
               | None => typeError "ConversationID"
               end ;;
     let conversationId := B2C.ConversationID Result in
     transaction <- Transaction_findOne_b2c conversationId ;;
     match transaction with
     | None =>
       logger "error" "Transaction not found for B2C timeout" ;;
       ret success
     | Some transaction =>
       let transaction :=
         Transaction.set_callbackData (Some (Transaction.ofB2C body)) transaction in
       let transaction := Transaction.set_status "TIMEOUT" transaction in
       Transaction_save transaction ;;
       user <- User_findById (Transaction.userId transaction) ;;
       match match user with
             | Some u => endpoint b2cTimeoutEndpoint u
             | None => None
             end with
       | Some destination =>
         id <- newObjectId ;;
         now <- Date_now ;;
         let webhook :=
           Webhook.mk id (Transaction.userId transaction)
                      (Some (Transaction._id transaction))
                      (Some "B2C_TIMEOUT"%string) "PENDING"
                      (b2cTimeoutPayload Result transaction now)
                      destination 0 None None None in
         Webhook_insert webhook ;;
         detach (Webhook._id webhook)
       | None => ret tt
       end ;;
       ret success
     end)
    (fun error =>
       logger "error" "Error in b2cTimeout handler" ;;
       ret success).

(* ------------------------------------------------------------------ *)
(** ** src/api/v1/auth/handlers.js *)

(** The match of [{ email }] against a stored user: the query value is
    normalised as the schema says, the stored address was normalised when
    it was saved. *)
Definition byEmail (email : string) (u : User.t) : bool :=
  String.eqb (User.email u) (normalizeEmail email).

(** [User.findOne({ email })]. *)
Definition User_findOne_email (email : string) : Async (option User.t) :=
  storage (fun w =>
    (Normal (option_map defaultProjection (find (byEmail email) (users w))), w)).

(** [user.save()] on a loaded user: the pre-save hook of the schema draws
    new keys when [apiKey] is not set on the document, then the modified
    paths are written to the stored document with the same [_id]. *)
Definition User_save (user : User.t) : Async unit :=
  user <- match User.apiKey user with
          | Some k =>
            if nonEmpty k then ret user
            else
              apiKey <- randomHex ;;
              secretKey <- randomHex ;;
              ret (User.mk (User._id user) (User.email user) (Some apiKey)
                           (Some secretKey) (User.webhookConfig user)
                           (User.resetPasswordToken user)
                           (User.resetPasswordExpires user))
          | None =>
            apiKey <- randomHex ;;
            secretKey <- randomHex ;;
            ret (User.mk (User._id user) (User.email user) (Some apiKey)
                         (Some secretKey) (User.webhookConfig user)
                         (User.resetPasswordToken user)
                         (User.resetPasswordExpires user))
          end ;;
  storage (fun w =>
    match find (userHasId (User._id user)) (users w) with
    | Some _ =>
      (Normal tt,
       set_users
         (map (fun u =>
                 if userHasId (User._id user) u then
                   User.mk (User._id u) (User.email u)
                           (match User.apiKey user with
                            | Some k => Some k
                            | None => User.apiKey u
                            end)
                           (match User.secretKey user with
                            | Some k => Some k
                            | None => User.secretKey u
                            end)
                           (User.webhookConfig u)
                           (User.resetPasswordToken user)
                           (User.resetPasswordExpires user)
                 else u)
              (users w)) w)
    | None => (Thrown "No document found for query"%string, w)
    end).

Definition resetNotice : Response :=
  Reply [ ("success", JsBool true);
          ("message",
           JsString "If your email is registered, you will receive a password reset link")
        ]%string.

Definition forgotPassword (email : string) : Async Response :=
  tryCatch
    (user <- User_findOne_email email ;;
     match user with
     | None => ret resetNotice
     | Some user =>
       resetToken <- randomHex ;;
       now <- Date_now ;;
       let user :=
         User.mk (User._id user) (User.email user) (User.apiKey user)
                 (User.secretKey user) (User.webhookConfig user)
                 (Some resetToken) (Some (now + 3600000)) in
       User_save user ;;
       logger "info" "Password reset requested" ;;
       ret resetNotice
     end)
    (fun error =>
       logger "error" "Error in forgotPassword handler" ;;
       ret (Boom 500 "Error processing your request")).

(** [bcrypt.hash(password, salt)]. *)
Variable bcrypt_hash : string -> string -> string.

(** The [password] path of the user documents ([select: false]), kept
    beside the world: the newest entry for an [_id] is its stored hash. *)
Definition Passwords := list (ObjectId * string).

(** The query of resetPassword:
    [{ resetPasswordToken: token, resetPasswordExpires: { $gt: now } }]. *)
Definition resetQuery (token : string) (now : Date) (u : User.t) : bool :=
  optStringEqb (User.resetPasswordToken u) (Some token)
  && match User.resetPasswordExpires u with
     | Some expires => now <? expires
     | None => false
     end.

Definition User_findOne_reset (token : string) (now : Date) : Async (option User.t) :=
  storage (fun w =>
    (Normal (option_map defaultProjection (find (resetQuery token now) (users w))), w)).

Definition resetDone : Response :=
  Reply [ ("success", JsBool true);
          ("message", JsString "Password reset successful") ]%string.

Definition resetPassword (token password : string) (passwords : Passwords)
  : Async (Response * Passwords) :=
  tryCatch
    (now <- Date_now ;;
     user <- User_findOne_reset token now ;;
     match user with
     | None => ret (Boom 400 "Invalid or expired token", passwords)
     | Some user =>
       (* bcrypt.genSalt(10) *)
       salt <- randomHex ;;
       let hashed := bcrypt_hash password salt in
       let user :=
         User.mk (User._id user) (User.email user) (User.apiKey user)
                 (User.secretKey user) (User.webhookConfig user) None None in
       User_save user ;;
       ret (resetDone, (User._id user, hashed) :: passwords)
     end)
    (fun error =>
       logger "error" "Error in resetPassword handler" ;;
       ret (Boom 500 "Error resetting password", passwords)).

(* ------------------------------------------------------------------ *)
(** ** getWebhookStatus (src/services/webhook-service.js) *)

(** The document is loaded with [.select('-payload')]; the returned object
    reads no payload. *)
Definition getWebhookStatus (webhookId : ObjectId) : Async WebhookStatus.t :=
  tryCatch
    (webhook <- Webhook_findById webhookId ;;
     match webhook with
     | None => throw "Webhook not found"
     | Some webhook =>
       ret (WebhookStatus.mk (Webhook._id webhook) (Webhook.status webhook)
              (Webhook.attempts webhook) (Webhook.lastAttempt webhook)
              JsUndefined JsUndefined
              (Webhook.transactionId webhook) (Webhook.errorMessage webhook))
     end)
    (fun error => logger "error" "Error getting webhook status" ;; throw error).

(* ------------------------------------------------------------------ *)
(** * Vocabulary of the properties *)

(** The attempt counter of a stored notification may only grow. *)
Definition grows (a b : Webhook.t) : Prop :=
  Webhook._id a = Webhook._id b /\ Webhook.attempts a <= Webhook.attempts b.

(** [ws'] keeps every document of [ws], in place, each with a counter at
    least as high, and may have new documents at the end. *)
Definition storeGrows (ws ws' : list Webhook.t) : Prop :=
  exists kept added, ws' = kept ++ added /\ Forall2 grows ws kept.

(** A stored notification whose [type] satisfies the schema. *)
Definition wellTyped (d : Webhook.t) : Prop :=
  exists ty, Webhook.type d = Some ty /\ Webhook.inEnum Webhook.typeEnum ty = true.

(** The owner's signing secret as sendWebhook reads it. *)
Definition secretFor (d : Webhook.t) (w : World) : option string :=
  webhookSecret (option_map selectSecret (find (userHasId (Webhook.userId d)) (users w))).

(** The document saved before the transmission. *)
Definition attempted (now : Date) (d : Webhook.t) : Webhook.t :=
  Webhook.set_status "PENDING"
    (Webhook.set_lastAttempt (Some now)
       (Webhook.set_attempts (Webhook.attempts d + 1) d)).

(** The request of one delivery attempt. *)
Definition deliveryRequest (now : Date) (secret : string) (d : Webhook.t) : Request :=
  mkRequest "post" (Webhook.destination d)
    (mkHeaders "application/json"
       (createHmac_sha256_hex secret (JSON_stringify (Webhook.payload d)))
       now (Webhook._id d))
    (Webhook.payload d) 10000.

(** The error axios rejects with, if the reply makes it reject. *)
Definition rejection (r : HttpReply) : option string :=
  match r with
  | Replied st _ =>
    if (200 <=? st) && (st <? 300) then None
    else Some ("Request failed with status code " ++ decimal st)%string
  | TransportFailed msg => Some msg
  end.

(** The world at the moment the request has gone out. *)
Definition inFlight (secret : string) (d : Webhook.t) (w : World) : World :=
  emit (Posted (deliveryRequest (clock w) secret d))
    (emit (SavedWebhook (attempted (clock w) d))
       (set_webhooks (replaceDoc (attempted (clock w) d) (webhooks w)) w)).

(** What the catch block leaves behind after a rejected transmission. *)
Definition failureRecorded (msg : string) (secret : string) (d : Webhook.t)
    (w : World) : World :=
  let w1 := emit (Logged "error" "Error sending webhook") (inFlight secret d w) in
  let d3 := Webhook.set_errorMessage (Some msg)
              (Webhook.set_status "FAILED" (attempted (clock w) d)) in
  if maxRetries <=? Webhook.attempts d + 1 then
    emit (Logged "error" "Error updating webhook after failure")
      (emit (Logged "warn" "Max retries reached for webhook") w1)
  else
    emit (SavedWebhook d3) (set_webhooks (replaceDoc d3 (webhooks w1)) w1).

(** From a world satisfying [P], the step [m] ends in a completion and a
    world satisfying [Q]. *)
Definition triple {A} (P : World -> Prop) (m : Async A)
    (Q : Completion A -> World -> Prop) : Prop :=
  forall w, P w -> Q (fst (m w)) (snd (m w)).

(** A step that keeps an assertion whatever its completion. *)
Definition keeps {A} (P : World -> Prop) (m : Async A) : Prop :=
  triple P m (fun _ w => P w).

(** Steps that do not write the webhook collection. *)
Definition silent {A} (m : Async A) : Prop :=
  forall w, webhooks (snd (m w)) = webhooks w.

(** An assertion about the webhook collection alone. *)
Definition onWebhooks (p : list Webhook.t -> Prop) : World -> Prop :=
  fun w => p (webhooks w).

(** An assertion about the collection that the insert of a document and
    the delivery of one both keep. *)
Definition preserved (p : list Webhook.t -> Prop) : Prop :=
  (forall d, keeps (onWebhooks p) (Webhook_insert d))
  /\ (forall id, keeps (onWebhooks p) (sendWebhook id)).

(** The document [d] in hand is at least as advanced as the stored one. *)
Definition ahead (d : Webhook.t) (ws : list Webhook.t) : Prop :=
  exists d0, find (hasId (Webhook._id d)) ws = Some d0
             /\ Webhook.attempts d0 <= Webhook.attempts d.

(** The operations that write the notification collection: the three of
    the service and the five callback handlers that queue a notification. *)
Inductive Operation :=
| Deliver (webhookId : ObjectId)
| Create (webhookData : WebhookData.t)
| Sweep (batchSize : option nat)
| HandleCallback (payload : option Callback.t)
| ValidateC2B (payload : option C2BBody)
| ConfirmC2B (payload : option C2BBody)
| HandleB2CResult (payload : option B2C.t)
| HandleB2CTimeout (payload : option B2C.t).

(** The world an operation leaves behind. *)
Definition perform (op : Operation) (w : World) : World :=
  match op with
  | Deliver id => snd (sendWebhook id w)
  | Create data => snd (createWebhook data w)
  | Sweep n => snd (retryFailedWebhooks n w)
  | HandleCallback p => snd (stkCallback p w)
  | ValidateC2B p => snd (validation p w)
  | ConfirmC2B p => snd (confirmation p w)
  | HandleB2CResult p => snd (b2cResult p w)
  | HandleB2CTimeout p => snd (b2cTimeout p w)
  end.

(** [m] never throws. *)
Definition total {A} (m : Async A) : Prop :=
  forall w, exists a, fst (m w) = Normal a.

(** One element of the sweep: [this.sendWebhook(webhook._id).catch(...)]. *)
Definition retryOne (webhook : Webhook.t) : Async unit :=
  tryCatch (sendWebhook (Webhook._id webhook))
           (fun err => logger "error" "Error in retry process").

(** The documents a sweep selects. *)
Definition selection (batchSize : option nat) (w : World) : list Webhook.t :=
  limit (match batchSize with Some n => n | None => 50%nat end)
        (filter (retryQuery (clock w)) (webhooks w)).



(** The [Body.stkCallback] object of a callback body, if it has one. *)
Definition callbackOf (payload : option Callback.t) : option Callback.StkCallback :=
  match payload with
  | Some cd =>
    match Callback.Body cd with
    | Some b => Callback.stkCallback b
    | None => None
    end
  | None => None
  end.

(** The stored STK transaction a callback body resolves to, if any. *)
Definition resolve (payload : option Callback.t) (w : World) : option Transaction.t :=
  match callbackOf payload with
  | Some sc =>
    find (fun tx =>
            optStringEqb (Transaction.checkoutRequestId tx) (Callback.CheckoutRequestID sc)
            && String.eqb (Transaction.type tx) "STK")
         (transactions w)
  | None => None
  end.

(** Nothing was written to any collection. *)
Definition sameStores (w w' : World) : Prop :=
  transactions w' = transactions w
  /\ webhooks w' = webhooks w
  /\ users w' = users w.

(** The requests that went out, oldest first. *)
Fixpoint posted (t : list Event) : list Request :=
  match t with
  | [] => []
  | Posted r :: t' => r :: posted t'
  | _ :: t' => posted t'
  end.

(** Steps that post nothing. *)
Definition quiet {A} (m : Async A) : Prop :=
  forall w, exists evs, trace (snd (m w)) = trace w ++ evs /\ posted evs = [].

(** Nothing has been posted since the world [w0]. *)
Definition unposted (w0 w : World) : Prop :=
  exists evs, trace w = trace w0 ++ evs /\ posted evs = [].

(** Since [w0] only the trace and the fault script have moved, and nothing
    has been posted. *)
Definition untouched (w0 w : World) : Prop :=
  webhooks w = webhooks w0 /\ users w = users w0 /\ clock w = clock w0
  /\ unposted w0 w.

(** Since [w0] the attempt on [d] has been saved, as the last event, and
    nothing has been posted. *)
Definition saved (w0 : World) (d : Webhook.t) (w : World) : Prop :=
  clock w = clock w0
  /\ exists pre, trace w = trace w0 ++ pre ++ [SavedWebhook (attempted (clock w0) d)]
                 /\ posted pre = [].

(** Since [w0] exactly one request has been posted: the delivery request of
    the notification stored under [id], right after the save of its
    attempt. *)
Definition postedAfterSave (id : ObjectId) (w0 w : World) : Prop :=
  exists d secret pre post,
    find (hasId id) (webhooks w0) = Some d
    /\ secretFor d w0 = Some secret
    /\ trace w = trace w0 ++ pre
                 ++ SavedWebhook (attempted (clock w0) d)
                 :: Posted (deliveryRequest (clock w0) secret d) :: post
    /\ posted pre = [] /\ posted post = [].

(** [b] is the notification [a] with at most its delivery fields (status,
    attempts, last attempt, response, error message) changed. *)
Definition sameNotification (a b : Webhook.t) : Prop :=
  Webhook._id a = Webhook._id b
  /\ Webhook.userId a = Webhook.userId b
  /\ Webhook.transactionId a = Webhook.transactionId b
  /\ Webhook.type a = Webhook.type b
  /\ Webhook.payload a = Webhook.payload b
  /\ Webhook.destination a = Webhook.destination b.

(** As [sameNotification], and nothing at all changed unless the id is in
    [S]. *)
Definition frame (S : list ObjectId) (a b : Webhook.t) : Prop :=
  sameNotification a b /\ (~ In (Webhook._id a) S -> a = b).

(** The collection [ws'] has the documents of [ws], one for one and in
    place, each changed only as [frame S] allows. *)
Definition framed (S : list ObjectId) (ws ws' : list Webhook.t) : Prop :=
  Forall2 (frame S) ws ws'.

(** The document in hand is a stored notification of [S] with at most its
    delivery fields changed. *)
Definition held (S : list ObjectId) (d : Webhook.t) (ws : list Webhook.t) : Prop :=
  exists d0, find (hasId (Webhook._id d)) ws = Some d0
             /\ sameNotification d0 d /\ In (Webhook._id d) S.

(** Every stored notification satisfies the schema. *)
Definition schemaValid (ws : list Webhook.t) : Prop :=
  Forall (fun d => Webhook.validate d = None) ws.

(** Steps that leave users, transactions, the clock and the id counter as
    they are. *)
Definition inert {A} (m : Async A) : Prop :=
  forall w, users (snd (m w)) = users w
            /\ transactions (snd (m w)) = transactions w
            /\ clock (snd (m w)) = clock w.

(** The transaction as stkCallback saves it. *)
Definition updatedTransaction (payload : option Callback.t)
    (sc : Callback.StkCallback) (tx : Transaction.t) : Transaction.t :=
  applyResultCode sc
    (Transaction.set_callback payload (Callback.ResultCode sc)
       (Callback.ResultDesc sc) (Transaction.loaded tx)).

(** The value of the first item named TransactionDate, when it is truthy. *)
Definition transactionDate (sc : Callback.StkCallback) : option Json :=
  match Callback.CallbackMetadata sc with
  | Some metadata =>
    match Callback.Item metadata with
    | Some items =>
      match findItem "TransactionDate" items with
      | Some dateItem =>
        match Callback.Value dateItem with
        | Some value => if truthy value then Some value else None
        | None => None
        end
      | None => None
      end
    | None => None
    end
  | None => None
  end.

(** The text stkCallback hands to [new Date] for the date value [value]. *)
Definition dateText (value : Json) : string :=
  (substring 0 4 (toString value) ++ "-" ++ substring 4 6 (toString value)
   ++ "-" ++ substring 6 8 (toString value) ++ "T"
   ++ substring 8 10 (toString value) ++ ":"
   ++ substring 10 12 (toString value) ++ ":"
   ++ substring 12 14 (toString value))%string.

(** The callback reports success and carries a date that [new Date] turns
    into an Invalid Date: the assignment to [mpesaTimestamp] is refused. *)
Definition refused (sc : Callback.StkCallback) : bool :=
  match Callback.ResultCode sc with
  | Some 0 =>
    match transactionDate sc with
    | Some value =>
      match Date_parse (dateText value) with
      | Some _ => false
      | None => true
      end
    | None => false
    end
  | _ => false
  end.

(** The collection after [tx'] has been saved. *)
Definition storeTransaction (tx' : Transaction.t) (ts : list Transaction.t)
  : list Transaction.t :=
  map (fun x => if txHasId (Transaction._id tx') x then tx' else x) ts.

(** The notification stkCallback builds for the saved transaction [tx']. *)
Definition stkNotification (id : ObjectId) (destination : string)
    (sc : Callback.StkCallback) (tx' : Transaction.t) : Webhook.t :=
  Webhook.mk id (Transaction.userId tx') (Some (Transaction._id tx'))
    (Some "STK"%string) "PENDING"
    (stkPayload (Callback.CheckoutRequestID sc) tx') destination 0 None None None.

(** The STK endpoint of the owner of [tx], as stkCallback reads it. *)
Definition endpointFor (tx : Transaction.t) (w : World) : option string :=
  stkEndpoint (option_map defaultProjection
                 (find (userHasId (Transaction.userId tx)) (users w))).

(** [tx'] is [tx] with at most the receipt number, the payment time and the
    recorded cast error changed. *)
Definition sameButReceipt (tx tx' : Transaction.t) : Prop :=
  Transaction._id tx' = Transaction._id tx
  /\ Transaction.userId tx' = Transaction.userId tx
  /\ Transaction.type tx' = Transaction.type tx
  /\ Transaction.amount tx' = Transaction.amount tx
  /\ Transaction.phoneNumber tx' = Transaction.phoneNumber tx
  /\ Transaction.status tx' = Transaction.status tx
  /\ Transaction.checkoutRequestId tx' = Transaction.checkoutRequestId tx
  /\ Transaction.resultCode tx' = Transaction.resultCode tx
  /\ Transaction.resultDesc tx' = Transaction.resultDesc tx
  /\ Transaction.callbackData tx' = Transaction.callbackData tx
  /\ Transaction.conversationId tx' = Transaction.conversationId tx
  /\ Transaction.accountReference tx' = Transaction.accountReference tx.

(** [ts'] is [ts] with at most the transaction of id [id] changed. *)
Definition onlyTransaction (id : ObjectId) (ts ts' : list Transaction.t) : Prop :=
  Forall2 (fun a b => Transaction._id b = Transaction._id a
                      /\ (Transaction._id a <> id -> b = a)) ts ts'.

(** The status a callback with result code [code] leaves. *)
Definition callbackStatus (code : option Z) : string :=
  match code with
  | Some 0 => "COMPLETED"
  | _ => "FAILED"
  end.

(** The world a resolved callback leaves behind, with the storage up. *)
Definition afterCallback (payload : option Callback.t)
    (sc : Callback.StkCallback) (tx : Transaction.t) (w : World) : World :=
  let tx' := updatedTransaction payload sc tx in
  let w1 := set_transactions (storeTransaction tx' (transactions w))
              (emit (Logged "info" "STK callback received") w) in
  let id := nextObjectId w in
  match endpointFor tx w with
  | None => w1
  | Some destination =>
    match find (hasId id) (webhooks w) with
    | None =>
      emit (Detached id)
        (emit (SavedWebhook (stkNotification id destination sc tx'))
           (set_webhooks (webhooks w ++ [stkNotification id destination sc tx'])
              (set_nextObjectId (S id) w1)))
    | Some _ =>
      emit (Logged "error" "Error in stkCallback handler")
           (set_nextObjectId (S id) w1)
    end
  end.

(** The user collection after a loaded document of identifier [id] has been
    saved with a reset token and expiry: the save writes those two paths and
    the keys its pre-save hook drew. *)
Definition rewritten (id : ObjectId) (apiKey secretKey : string)
    (token : option string) (expires : option Date) (us : list User.t)
  : list User.t :=
  map (fun u =>
         if userHasId id u then
           User.mk (User._id u) (User.email u) (Some apiKey) (Some secretKey)
                   (User.webhookConfig u) token expires
         else u) us.

(** [us'] is [us] with at most the users of identifier [id] changed. *)
Definition onlyUser (id : ObjectId) (us us' : list User.t) : Prop :=
  Forall2 (fun a b => User._id a <> id -> b = a) us us'.

Definition invalidToken : Response := Boom 400 "Invalid or expired token".

(** No stored user holds the reset token [t]. *)
Definition unissued (t : string) (us : list User.t) : Prop :=
  Forall (fun x => User.resetPasswordToken x <> Some t) us.

(** The getters of a date whose year has four digits. *)
Definition calendar (d : LocalDate) : Prop :=
  1000 <= getFullYear d <= 9999
  /\ 0 <= getMonth d <= 11
  /\ 1 <= getDate d <= 31
  /\ 0 <= getHours d <= 23
  /\ 0 <= getMinutes d <= 59
  /\ 0 <= getSeconds d <= 59.

Definition allDigits (s : string) : bool :=
  forallb isDigit (list_ascii_of_string s).

(** What a status report says of the stored notification [d]. *)
Definition reports (v : WebhookStatus.t) (d : Webhook.t) : Prop :=
  WebhookStatus.id v = Webhook._id d
  /\ WebhookStatus.status v = Webhook.status d
  /\ WebhookStatus.attempts v = Webhook.attempts d
  /\ WebhookStatus.lastAttempt v = Webhook.lastAttempt d
  /\ WebhookStatus.transactionId v = Webhook.transactionId d
  /\ WebhookStatus.errorMessage v = Webhook.errorMessage d
  /\ WebhookStatus.created v = JsUndefined
  /\ WebhookStatus.eventType v = JsUndefined.

(** The token requests among the effects of a call. *)
Definition requests (effects : list MpesaAuth.Effect) : list MpesaAuth.TokenRequest :=
  flat_map (fun e => match e with
                     | MpesaAuth.Get req => [req]
                     | MpesaAuth.Log _ _ => []
                     end) effects.

(** The token request an object sends. *)
Definition tokenRequest (base64 : string -> string) (this : MpesaAuth.t)
  : MpesaAuth.TokenRequest :=
  MpesaAuth.mkTokenRequest
    (MpesaAuth.baseUrl this ++ "/oauth/v1/generate?grant_type=client_credentials")%string
    ("Basic " ++ MpesaAuth.generateAuthString base64 this)%string.

(** Rewrite with [lem] wherever its side condition is the hypothesis [H]
    up to computation. *)
Ltac rewrite_up lem H :=
  repeat (rewrite lem by (cbn; exact H)).

(** Case analysis on whatever the goal branches on. *)
Ltac branch :=
  match goal with
  | |- context [match ?x with _ => _ end] => destruct x eqn:?
  end.

(* ------------------------------------------------------------------ *)
(** * Properties *)

(** ** Documents in a collection *)

Lemma find_hasId_id (id : ObjectId) (ws : list Webhook.t) (d : Webhook.t) :
  find (hasId id) ws = Some d -> Webhook._id d = id.
Proof.
  intros H. apply find_some in H. destruct H as [_ H].
  unfold hasId in H. now apply Nat.eqb_eq in H.
Qed.

Lemma find_hasId_self (id : ObjectId) (ws : list Webhook.t) (d : Webhook.t) :
  find (hasId id) ws = Some d -> find (hasId (Webhook._id d)) ws = Some d.
Proof.
  intros H. now rewrite (find_hasId_id _ _ _ H).
Qed.

Lemma find_replaceDoc (d d0 : Webhook.t) (ws : list Webhook.t) :
  find (hasId (Webhook._id d)) ws = Some d0 ->
  find (hasId (Webhook._id d)) (replaceDoc d ws) = Some d.
Proof.
  induction ws as [|x rest IH]; simpl; [discriminate|].
  destruct (hasId (Webhook._id d) x) eqn:E; intros H.
  - simpl. unfold hasId at 1. now rewrite Nat.eqb_refl.
  - simpl. rewrite E. auto.
Qed.

Lemma Forall2_grows_refl (ws : list Webhook.t) : Forall2 grows ws ws.
Proof.
  induction ws; constructor; auto. split; [reflexivity | lia].
Qed.

Lemma Forall2_grows_trans (a b c : list Webhook.t) :
  Forall2 grows a b -> Forall2 grows b c -> Forall2 grows a c.
Proof.
  intros Hab. revert c. induction Hab as [|x y a b [Hi Hn] _ IH]; intros c Hbc.
  - inversion Hbc. constructor.
  - inversion Hbc as [|y' z b' c' [Hi' Hn'] Hrest]; subst.
    constructor; [split; [congruence | lia] | auto].
Qed.

Lemma storeGrows_refl (ws : list Webhook.t) : storeGrows ws ws.
Proof.
  exists ws, []. rewrite app_nil_r. split; [reflexivity | apply Forall2_grows_refl].
Qed.

Lemma storeGrows_trans (a b c : list Webhook.t) :
  storeGrows a b -> storeGrows b c -> storeGrows a c.
Proof.
  intros (k1 & a1 & -> & H1) (k2 & a2 & -> & H2).
  apply Forall2_app_inv_l in H2. destruct H2 as (k2a & k2b & Ha & Hb & ->).
  exists k2a, (k2b ++ a2). rewrite app_assoc. split; [reflexivity|].
  eapply Forall2_grows_trans; eauto.
Qed.

Lemma storeGrows_insert (ws : list Webhook.t) (d : Webhook.t) :
  storeGrows ws (ws ++ [d]).
Proof.
  exists ws, [d]. split; [reflexivity | apply Forall2_grows_refl].
Qed.

Lemma storeGrows_replaceDoc (d : Webhook.t) (ws : list Webhook.t) :
  (forall d0, find (hasId (Webhook._id d)) ws = Some d0 ->
              Webhook.attempts d0 <= Webhook.attempts d) ->
  storeGrows ws (replaceDoc d ws).
Proof.
  intros H. exists (replaceDoc d ws), []. rewrite app_nil_r. split; [reflexivity|].
  induction ws as [|x rest IH]; simpl in *; [constructor|].
  destruct (hasId (Webhook._id d) x) eqn:E.
  - constructor; [|apply Forall2_grows_refl].
    split; [|now apply H].
    unfold hasId in E. now apply Nat.eqb_eq in E.
  - constructor; [split; [reflexivity | lia] | now apply IH].
Qed.

Lemma storeGrows_find (ws ws' : list Webhook.t) (id : ObjectId) (a : Webhook.t) :
  storeGrows ws ws' ->
  find (hasId id) ws = Some a ->
  exists b, find (hasId id) ws' = Some b /\ Webhook.attempts a <= Webhook.attempts b.
Proof.
  intros (kept & added & -> & HF). revert a.
  induction HF as [|x y l l' [Hi Hn] _ IH]; simpl; intros a Hf; [discriminate|].
  unfold hasId in *. rewrite <- Hi.
  destruct (Nat.eqb (Webhook._id x) id).
  - inversion Hf; subst. eauto.
  - auto.
Qed.

(** ** Running the model when the storage is up *)

Lemma storage_up {A} (op : Async A) (w : World) :
  faults w = [] -> storage op w = op w.
Proof. intros H. unfold storage. now rewrite H. Qed.

Lemma validate_ok (d d' : Webhook.t) :
  wellTyped d ->
  Webhook.type d' = Webhook.type d ->
  Webhook.inEnum Webhook.statusEnum (Webhook.status d') = true ->
  Webhook.validate d' = None.
Proof.
  intros (ty & Hty & Hin) Ht Hs. unfold Webhook.validate.
  now rewrite Ht, Hty, Hin, Hs.
Qed.

Lemma sendWebhook_sent (id : ObjectId) (w : World) (d : Webhook.t) :
  faults w = [] ->
  find (hasId id) (webhooks w) = Some d ->
  Webhook.status d = "SENT"%string ->
  sendWebhook id w = (Normal tt, w).
Proof.
  intros Hf Hd Hs. unfold sendWebhook, tryCatch, bind, Webhook_findById.
  rewrite storage_up by assumption. rewrite Hd, Hs. reflexivity.
Qed.

Lemma sendWebhook_missing (id : ObjectId) (w : World) :
  faults w = [] ->
  find (hasId id) (webhooks w) = None ->
  sendWebhook id w = (Normal tt, emit (Logged "error" "Webhook not found") w).
Proof.
  intros Hf Hd. unfold sendWebhook, tryCatch, bind, Webhook_findById.
  rewrite storage_up by assumption. rewrite Hd. reflexivity.
Qed.

Lemma sendWebhook_no_secret (id : ObjectId) (w : World) (d : Webhook.t) :
  faults w = [] ->
  find (hasId id) (webhooks w) = Some d ->
  wellTyped d ->
  String.eqb (Webhook.status d) "SENT" = false ->
  secretFor d w = None ->
  let d' := Webhook.set_errorMessage (Some "Invalid webhook configuration"%string)
              (Webhook.set_status "FAILED" d) in
  sendWebhook id w =
  (Normal tt,
   emit (SavedWebhook d')
     (set_webhooks (replaceDoc d' (webhooks w))
        (emit (Logged "error" "User or webhook secret not found") w))).
Proof.
  intros Hf Hd Hty Hs Hsec d'. unfold sendWebhook, tryCatch, bind, Webhook_findById.
  rewrite storage_up by assumption. rewrite Hd, Hs.
  unfold User_findById_select_secret. rewrite storage_up by assumption.
  unfold secretFor in Hsec. rewrite Hsec.
  unfold logger, Webhook_save. fold d'.
  rewrite (validate_ok d d' Hty eq_refl eq_refl).
  rewrite storage_up by assumption.
  cbn [webhooks emit]. 
  rewrite (find_hasId_self _ _ _ Hd : find (hasId (Webhook._id d')) (webhooks w) = Some d).
  reflexivity.
Qed.

Lemma validate_rejects (d d' : Webhook.t) :
  wellTyped d ->
  Webhook.type d' = Webhook.type d ->
  Webhook.inEnum Webhook.statusEnum (Webhook.status d') = false ->
  Webhook.validate d' =
  Some ("Webhook validation failed: status: `" ++ Webhook.status d'
        ++ "` is not a valid enum value for path `status`.")%string.
Proof.
  intros (ty & Hty & Hin) Ht Hs. unfold Webhook.validate.
  now rewrite Ht, Hty, Hin, Hs.
Qed.

Lemma sendWebhook_delivered (id : ObjectId) (w : World) (d : Webhook.t)
    (secret : string) (st : Z) (body : string) :
  faults w = [] ->
  find (hasId id) (webhooks w) = Some d ->
  wellTyped d ->
  String.eqb (Webhook.status d) "SENT" = false ->
  secretFor d w = Some secret ->
  network w (deliveryRequest (clock w) secret d) = Replied st body ->
  (200 <=? st) && (st <? 300) = true ->
  let w1 := inFlight secret d w in
  let d2 := Webhook.set_response (Some (st, body))
              (Webhook.set_status "SENT" (attempted (clock w) d)) in
  sendWebhook id w =
  (Normal tt,
   emit (Logged "info" "Webhook sent successfully")
     (emit (SavedWebhook d2) (set_webhooks (replaceDoc d2 (webhooks w1)) w1))).
Proof.
  intros Hf Hd Hty Hs Hsec Hnet Hok w1 d2.
  pose proof (find_hasId_self _ _ _ Hd) as Hself.
  unfold sendWebhook, tryCatch, bind, Webhook_findById.
  rewrite_up @storage_up Hf. rewrite Hd, Hs.
  unfold User_findById_select_secret. rewrite_up @storage_up Hf.
  unfold secretFor in Hsec. rewrite Hsec.
  unfold Date_now, Webhook_save. fold (attempted (clock w) d).
  rewrite (validate_ok d (attempted (clock w) d) Hty eq_refl eq_refl).
  rewrite_up @storage_up Hf.
  rewrite (Hself : find (hasId (Webhook._id (attempted (clock w) d))) (webhooks w) = Some d).
  unfold axios. cbn [network emit set_webhooks clock].
  change (mkRequest _ _ _ _ _) with (deliveryRequest (clock w) secret d).
  rewrite Hnet, Hok. fold d2.
  rewrite (validate_ok d d2 Hty eq_refl eq_refl).
  rewrite_up @storage_up Hf. cbn [webhooks emit set_webhooks].
  rewrite (find_replaceDoc (attempted (clock w) d) d (webhooks w) Hself
           : find (hasId (Webhook._id d2)) _ = _).
  reflexivity.
Qed.

Lemma sendWebhook_rejected (id : ObjectId) (w : World) (d : Webhook.t)
    (secret msg : string) :
  faults w = [] ->
  find (hasId id) (webhooks w) = Some d ->
  wellTyped d ->
  String.eqb (Webhook.status d) "SENT" = false ->
  secretFor d w = Some secret ->
  rejection (network w (deliveryRequest (clock w) secret d)) = Some msg ->
  sendWebhook id w = (Normal tt, failureRecorded msg secret d w).
Proof.
  intros Hf Hd Hty Hs Hsec Hnet.
  pose proof (find_hasId_self _ _ _ Hd) as Hself.
  pose proof (find_hasId_id _ _ _ Hd) as Hid.
  unfold sendWebhook, tryCatch, bind, Webhook_findById.
  rewrite_up @storage_up Hf. rewrite Hd, Hs.
  unfold User_findById_select_secret. rewrite_up @storage_up Hf.
  unfold secretFor in Hsec. rewrite Hsec.
  unfold Date_now, Webhook_save at 1. fold (attempted (clock w) d).
  rewrite (validate_ok d (attempted (clock w) d) Hty eq_refl eq_refl).
  rewrite_up @storage_up Hf.
  rewrite (Hself : find (hasId (Webhook._id (attempted (clock w) d))) (webhooks w) = Some d).
  unfold axios. cbn [network emit set_webhooks clock].
  change (mkRequest _ _ _ _ _) with (deliveryRequest (clock w) secret d).
  assert (Hcatch :
    forall w1, faults w1 = [] ->
      find (hasId id) (webhooks w1) = Some (attempted (clock w) d) ->
      (let d3 := Webhook.set_errorMessage (Some msg)
                   (Webhook.set_status "FAILED" (attempted (clock w) d)) in
       (let (c, w') := logger "error" "Error sending webhook" w1 in
        match c with
        | Normal _ =>
          tryCatch
            (webhook <- Webhook_findById id ;;
             match webhook with
             | None => ret tt
             | Some webhook =>
               let webhook := Webhook.set_status "FAILED" webhook in
               let webhook := Webhook.set_errorMessage (Some msg) webhook in
               webhook <- (if maxRetries <=? Webhook.attempts webhook then
                             let webhook := Webhook.set_status "FAILED_PERMANENT" webhook in
                             logger "warn" "Max retries reached for webhook" ;;
                             ret webhook
                           else ret webhook) ;;
               Webhook_save webhook
             end)
            (fun updateError => logger "error" "Error updating webhook after failure") w'
        | Thrown e => (Thrown e, w')
        end) =
       (Normal tt,
        let w2 := emit (Logged "error" "Error sending webhook") w1 in
        if maxRetries <=? Webhook.attempts d + 1 then
          emit (Logged "error" "Error updating webhook after failure")
            (emit (Logged "warn" "Max retries reached for webhook") w2)
        else emit (SavedWebhook d3) (set_webhooks (replaceDoc d3 (webhooks w2)) w2)))).
  { intros w1 Hf1 Hd1 d3. unfold logger at 1, tryCatch, bind, Webhook_findById.
    rewrite_up @storage_up Hf1. cbn [webhooks emit]. rewrite Hd1.
    cbn [Webhook.attempts Webhook.set_errorMessage Webhook.set_status attempted
         Webhook.set_lastAttempt Webhook.set_attempts].
    destruct (maxRetries <=? Webhook.attempts d + 1) eqn:E.
    - unfold logger, ret, Webhook_save.
      erewrite (validate_rejects d); [reflexivity | exact Hty | reflexivity | reflexivity].
    - unfold ret. fold (attempted (clock w) d). fold d3.
      unfold Webhook_save. rewrite (validate_ok d d3 Hty eq_refl eq_refl).
      rewrite_up @storage_up Hf1. cbn [webhooks emit].
      rewrite (eq_trans (f_equal (fun i => find (hasId i) (webhooks w1))
                 (eq_trans (eq_refl : Webhook._id d3 = Webhook._id d) Hid)) Hd1).
      reflexivity. }
  unfold failureRecorded, inFlight.
  destruct (network w (deliveryRequest (clock w) secret d)) as [st body|m];
    cbn [rejection] in Hnet.
  - destruct ((200 <=? st) && (st <? 300)); [discriminate|].
    inversion Hnet; subst msg.
    rewrite Hcatch; [reflexivity | exact Hf |].
    cbn [webhooks emit set_webhooks]. rewrite <- Hid at 1.
    apply (find_replaceDoc (attempted (clock w) d) d (webhooks w) Hself).
  - inversion Hnet; subst msg.
    rewrite Hcatch; [reflexivity | exact Hf |].
    cbn [webhooks emit set_webhooks]. rewrite <- Hid at 1.
    apply (find_replaceDoc (attempted (clock w) d) d (webhooks w) Hself).
Qed.

(** When the rejected attempt is the one that reaches the ceiling, the catch
    block's update is refused by the schema and the stored record stays as
    the attempt marked it. *)
Lemma sendWebhook_rejected_at_ceiling (id : ObjectId) (w : World) (d : Webhook.t)
    (secret msg : string) :
  faults w = [] ->
  find (hasId id) (webhooks w) = Some d ->
  wellTyped d ->
  String.eqb (Webhook.status d) "SENT" = false ->
  secretFor d w = Some secret ->
  rejection (network w (deliveryRequest (clock w) secret d)) = Some msg ->
  maxRetries <= Webhook.attempts d + 1 ->
  find (hasId id) (webhooks (snd (sendWebhook id w))) = Some (attempted (clock w) d)
  /\ Webhook.inEnum Webhook.statusEnum "FAILED_PERMANENT" = false.
Proof.
  intros Hf Hd Hty Hs Hsec Hrej Hle. split; [|reflexivity].
  rewrite (sendWebhook_rejected id w d secret msg Hf Hd Hty Hs Hsec Hrej).
  unfold failureRecorded.
  destruct (maxRetries <=? Webhook.attempts d + 1) eqn:E;
    [|apply Z.leb_gt in E; lia].
  cbn [snd webhooks emit set_webhooks inFlight].
  rewrite <- (find_hasId_id _ _ _ Hd).
  apply (find_replaceDoc (attempted (clock w) d) d).
  exact (find_hasId_self _ _ _ Hd).
Qed.

(** ** A program logic for [Async] *)

Lemma triple_ret {A} (P : World -> Prop) (a : A) (Q : Completion A -> World -> Prop) :
  (forall w, P w -> Q (Normal a) w) -> triple P (ret a) Q.
Proof. intros H w Hw. now apply H. Qed.

Lemma triple_bind {A B} (P : World -> Prop) (m : Async A) (k : A -> Async B)
    (R : A -> World -> Prop) (Q : Completion B -> World -> Prop) :
  triple P m (fun c w => match c with
                         | Normal a => R a w
                         | Thrown e => Q (Thrown e) w
                         end) ->
  (forall a, triple (R a) (k a) Q) ->
  triple P (bind m k) Q.
Proof.
  intros Hm Hk w Hw. specialize (Hm w Hw). unfold bind.
  destruct (m w) as [[a|e] w']; simpl in *; [now apply Hk | exact Hm].
Qed.

Lemma triple_tryCatch {A} (P : World -> Prop) (m : Async A)
    (handler : string -> Async A) (R : string -> World -> Prop)
    (Q : Completion A -> World -> Prop) :
  triple P m (fun c w => match c with
                         | Normal a => Q (Normal a) w
                         | Thrown e => R e w
                         end) ->
  (forall e, triple (R e) (handler e) Q) ->
  triple P (tryCatch m handler) Q.
Proof.
  intros Hm Hh w Hw. specialize (Hm w Hw). unfold tryCatch.
  destruct (m w) as [[a|e] w']; simpl in *; [exact Hm | now apply Hh].
Qed.

Lemma triple_weaken {A} (P P' : World -> Prop) (m : Async A)
    (Q Q' : Completion A -> World -> Prop) :
  triple P' m Q' ->
  (forall w, P w -> P' w) ->
  (forall c w, Q' c w -> Q c w) ->
  triple P m Q.
Proof. intros H HP HQ w Hw. apply HQ, H, HP, Hw. Qed.

Lemma keeps_ret {A} (P : World -> Prop) (a : A) : keeps P (ret a).
Proof. intros w Hw. exact Hw. Qed.

Lemma keeps_throw {A} (P : World -> Prop) (e : string) : keeps P (@throw A e).
Proof. intros w Hw. exact Hw. Qed.

Lemma keeps_bind {A B} (P : World -> Prop) (m : Async A) (k : A -> Async B) :
  keeps P m -> (forall a, keeps P (k a)) -> keeps P (bind m k).
Proof.
  intros Hm Hk. apply triple_bind with (R := fun _ => P).
  - intros w Hw. specialize (Hm w Hw). now destruct (fst (m w)).
  - exact Hk.
Qed.

Lemma keeps_tryCatch {A} (P : World -> Prop) (m : Async A) (h : string -> Async A) :
  keeps P m -> (forall e, keeps P (h e)) -> keeps P (tryCatch m h).
Proof.
  intros Hm Hh. apply triple_tryCatch with (R := fun _ => P).
  - intros w Hw. specialize (Hm w Hw). now destruct (fst (m w)).
  - exact Hh.
Qed.

Lemma keeps_forEach {A} (P : World -> Prop) (l : list A) (f : A -> Async unit) :
  (forall a, keeps P (f a)) -> keeps P (forEach l f).
Proof.
  intros Hf. induction l as [|a l IH]; simpl.
  - apply keeps_ret.
  - apply keeps_bind; auto.
Qed.

Lemma silent_storage {A} (op : Async A) : silent op -> silent (storage op).
Proof.
  intros H w. unfold storage. destruct (faults w) as [|[e|] rest].
  - apply H.
  - reflexivity.
  - now rewrite H.
Qed.

Lemma silent_logger (level msg : string) : silent (logger level msg).
Proof. intros w. reflexivity. Qed.

Lemma silent_Date_now : silent Date_now.
Proof. intros w. reflexivity. Qed.

Lemma silent_detach (id : ObjectId) : silent (detach id).
Proof. intros w. reflexivity. Qed.

Lemma silent_newObjectId : silent newObjectId.
Proof. intros w. reflexivity. Qed.

Lemma silent_axios (req : Request) : silent (axios req).
Proof.
  intros w. unfold axios.
  destruct (network w req) as [st body|msg]; [destruct (_ && _)|]; reflexivity.
Qed.

Lemma silent_Webhook_findById (id : ObjectId) : silent (Webhook_findById id).
Proof. apply silent_storage. intros w. reflexivity. Qed.

Lemma silent_Webhook_find_limit (q : Webhook.t -> bool) (n : nat) :
  silent (Webhook_find_limit q n).
Proof. apply silent_storage. intros w. reflexivity. Qed.

Lemma silent_User_findById (id : ObjectId) : silent (User_findById id).
Proof. apply silent_storage. intros w. reflexivity. Qed.

Lemma silent_User_findById_select_secret (id : ObjectId) :
  silent (User_findById_select_secret id).
Proof. apply silent_storage. intros w. reflexivity. Qed.

Lemma silent_Transaction_findOne_stk (c : option string) :
  silent (Transaction_findOne_stk c).
Proof. apply silent_storage. intros w. reflexivity. Qed.

Lemma silent_Transaction_save (tx : Transaction.t) : silent (Transaction_save tx).
Proof.
  unfold Transaction_save. destruct (Transaction_validate tx).
  - intros w. reflexivity.
  - apply silent_storage. intros w. now destruct (find _ _).
Qed.

Lemma silent_User_findOne_shortCode (code : option Json) :
  silent (User_findOne_shortCode code).
Proof. apply silent_storage. intros w. reflexivity. Qed.

Lemma silent_Transaction_findOne_c2b (TransID : option Json) :
  silent (Transaction_findOne_c2b TransID).
Proof. apply silent_storage. intros w. reflexivity. Qed.

Lemma silent_Transaction_findOne_b2c (c : option string) :
  silent (Transaction_findOne_b2c c).
Proof. apply silent_storage. intros w. reflexivity. Qed.

Lemma silent_Transaction_insert (tx : Transaction.t) :
  silent (Transaction_insert tx).
Proof.
  unfold Transaction_insert. destruct (Transaction_validate tx).
  - intros w. reflexivity.
  - destruct (nonEmpty _).
    + apply silent_storage. intros w. now destruct (find _ _).
    + intros w. reflexivity.
Qed.

Lemma keeps_destructure {A} (P : World -> Prop) (property name : string)
    (body : option A) : keeps P (destructure property name body).
Proof. destruct body; [apply keeps_ret | apply keeps_throw]. Qed.

Lemma keeps_silent {A} (p : list Webhook.t -> Prop) (m : Async A) :
  silent m -> keeps (onWebhooks p) m.
Proof. intros H w Hw. unfold onWebhooks in *. simpl. now rewrite H. Qed.

Lemma keeps_Webhook_save (ws0 : list Webhook.t) (d : Webhook.t) :
  keeps (onWebhooks (fun ws => storeGrows ws0 ws /\ ahead d ws)) (Webhook_save d).
Proof.
  intros w [Hg Ha]. unfold onWebhooks, Webhook_save in *.
  destruct (Webhook.validate d); [split; assumption|].
  unfold storage.
  assert (Hop : forall w', webhooks w' = webhooks w ->
    let r := match find (hasId (Webhook._id d)) (webhooks w') with
             | Some _ =>
               (Normal tt,
                emit (SavedWebhook d) (set_webhooks (replaceDoc d (webhooks w')) w'))
             | None => (@Thrown unit "No document found for query"%string, w')
             end in
    storeGrows ws0 (webhooks (snd r)) /\ ahead d (webhooks (snd r))).
  { intros w' Hw'. rewrite Hw'. destruct Ha as (d0 & Hfind & Hle). rewrite Hfind.
    cbn. split.
    - eapply storeGrows_trans; [exact Hg|].
      apply storeGrows_replaceDoc. intros d1 H1. rewrite Hfind in H1.
      now inversion H1; subst.
    - exists d. split; [eapply find_replaceDoc; eauto | lia]. }
  destruct (faults w) as [|[e|] rest].
  - now apply Hop.
  - split; [exact Hg | exact Ha].
  - now apply Hop.
Qed.

Lemma keeps_Webhook_insert (ws0 : list Webhook.t) (d : Webhook.t) :
  keeps (onWebhooks (storeGrows ws0)) (Webhook_insert d).
Proof.
  intros w Hg. unfold onWebhooks, Webhook_insert in *.
  destruct (Webhook.validate d); [assumption|].
  unfold storage.
  destruct (faults w) as [|[e|] rest]; cbn [webhooks set_faults];
    try assumption;
    (destruct (find _ _); cbn; [assumption|];
     eapply storeGrows_trans; [exact Hg | apply storeGrows_insert]).
Qed.

Lemma load_Webhook_findById (ws0 : list Webhook.t) (id : ObjectId) :
  triple (onWebhooks (storeGrows ws0)) (Webhook_findById id)
    (fun c w => match c with
                | Normal (Some d) =>
                  onWebhooks (fun ws => storeGrows ws0 ws /\ ahead d ws) w
                | _ => onWebhooks (storeGrows ws0) w
                end).
Proof.
  intros w Hg. unfold onWebhooks, Webhook_findById, storage in *.
  destruct (faults w) as [|[e|] rest]; cbn; try assumption;
    (destruct (find (hasId id) (webhooks w)) as [d|] eqn:E; [|assumption];
     split; [assumption|]; exists d; split; [now apply (find_hasId_self id) | lia]).
Qed.

Lemma triple_bind_keeps {A B} (P Q : World -> Prop) (m : Async A) (k : A -> Async B) :
  keeps P m ->
  (forall w, P w -> Q w) ->
  (forall a, triple P (k a) (fun _ w => Q w)) ->
  triple P (bind m k) (fun _ w => Q w).
Proof.
  intros Hm HPQ Hk. apply triple_bind with (R := fun _ => P); [|exact Hk].
  intros w Hw. specialize (Hm w Hw). destruct (fst (m w)); auto.
Qed.

Lemma keeps_relax {A} (P P' Q : World -> Prop) (m : Async A) :
  keeps P' m ->
  (forall w, P w -> P' w) ->
  (forall w, P' w -> Q w) ->
  triple P m (fun _ w => Q w).
Proof. intros H HP HQ w Hw. apply HQ, H, HP, Hw. Qed.

(** ** No operation lowers an attempt counter *)

Lemma sendWebhook_grows (ws0 : list Webhook.t) (id : ObjectId) :
  keeps (onWebhooks (storeGrows ws0)) (sendWebhook id).
Proof.
  set (I0 := onWebhooks (storeGrows ws0)).
  set (I := fun d => onWebhooks (fun ws => storeGrows ws0 ws /\ ahead d ws)).
  assert (HI0 : forall d w, I d w -> I0 w) by (intros d w [H _]; exact H).
  assert (Hsave : forall d, keeps (I d) (Webhook_save d))
    by (intros d; apply keeps_Webhook_save).
  assert (Hsil : forall d A (m : Async A), silent m -> keeps (I d) m)
    by (intros d A m Hm; apply keeps_silent; exact Hm).
  assert (Hload : triple I0 (Webhook_findById id)
            (fun c w => match c with
                        | Normal a => match a with Some d => I d w | None => I0 w end
                        | Thrown _ => I0 w
                        end)).
  { intros w Hw. pose proof (load_Webhook_findById ws0 id w Hw) as H.
    destruct (fst (Webhook_findById id w)) as [[d|]|]; exact H. }
  unfold sendWebhook. apply keeps_tryCatch.
  - eapply triple_bind; [exact Hload|].
    intros [d|]; [|apply keeps_silent, silent_logger].
    destruct (String.eqb (Webhook.status d) "SENT").
    { apply keeps_relax with (P' := I d); [apply keeps_ret | auto | apply HI0]. }
    apply triple_bind_keeps;
      [apply Hsil, silent_User_findById_select_secret | apply HI0 |].
    intros user. destruct (webhookSecret user) as [secret|].
    + apply triple_bind_keeps; [apply Hsil, silent_Date_now | apply HI0 |].
      intros now.
      apply keeps_relax with (P' := I (attempted now d)); [| | apply HI0].
      * apply keeps_bind; [apply Hsave|]. intros _.
        apply keeps_bind; [apply Hsil, silent_Date_now|]. intros stamp.
        apply keeps_bind; [apply Hsil, silent_axios|]. intros response.
        apply keeps_bind; [|intros _; apply Hsil, silent_logger].
        exact (Hsave (Webhook.set_response (Some response)
                        (Webhook.set_status "SENT" (attempted now d)))).
      * intros w [Hg (d0 & Hf & Hle)]. split; [exact Hg|].
        exists d0. split; [exact Hf | cbn; lia].
    + apply keeps_relax with (P' := I d); [| auto | apply HI0].
      apply keeps_bind; [apply Hsil, silent_logger|]. intros _.
      exact (Hsave (Webhook.set_errorMessage (Some "Invalid webhook configuration"%string)
                      (Webhook.set_status "FAILED" d))).
  - intros error. apply keeps_bind; [apply keeps_silent, silent_logger|]. intros _.
    apply keeps_tryCatch; [|intros e; apply keeps_silent, silent_logger].
    eapply triple_bind; [exact Hload|].
    intros [d|]; [|apply keeps_ret].
    apply triple_bind with (R := fun a w => I a w).
    + intros w Hw.
      destruct (maxRetries <=? _); cbn; exact Hw.
    + intros d'. apply keeps_relax with (P' := I d'); [apply Hsave | auto | apply HI0].
Qed.

Lemma createWebhook_grows (ws0 : list Webhook.t) (webhookData : WebhookData.t) :
  keeps (onWebhooks (storeGrows ws0)) (createWebhook webhookData).
Proof.
  unfold createWebhook. apply keeps_tryCatch.
  - apply keeps_bind; [apply keeps_silent, silent_newObjectId|]. intros id.
    apply keeps_bind; [apply keeps_Webhook_insert|]. intros _.
    apply keeps_bind; [apply keeps_silent, silent_logger|]. intros _.
    apply keeps_bind; [apply keeps_silent, silent_detach|]. intros _.
    apply keeps_ret.
  - intros e. apply keeps_bind; [apply keeps_silent, silent_logger|]. intros _.
    apply keeps_throw.
Qed.

Lemma retryFailedWebhooks_grows (ws0 : list Webhook.t) (batchSize : option nat) :
  keeps (onWebhooks (storeGrows ws0)) (retryFailedWebhooks batchSize).
Proof.
  unfold retryFailedWebhooks. apply keeps_tryCatch.
  - apply keeps_bind; [apply keeps_silent, silent_Date_now|]. intros now.
    apply keeps_bind; [apply keeps_silent, silent_Webhook_find_limit|]. intros sel.
    apply keeps_bind; [apply keeps_silent, silent_logger|]. intros _.
    apply keeps_bind; [|intros _; apply keeps_ret].
    apply keeps_forEach. intros d.
    apply keeps_tryCatch; [apply sendWebhook_grows|].
    intros e. apply keeps_silent, silent_logger.
  - intros e. apply keeps_bind; [apply keeps_silent, silent_logger|]. intros _.
    apply keeps_throw.
Qed.

Lemma stkCallback_grows (ws0 : list Webhook.t) (payload : option Callback.t) :
  keeps (onWebhooks (storeGrows ws0)) (stkCallback payload).
Proof.
  unfold stkCallback. apply keeps_tryCatch.
  - apply keeps_bind; [apply keeps_silent, silent_logger|]. intros _.
    apply keeps_bind.
    { destruct payload; [apply keeps_ret | apply keeps_throw]. }
    intros body. apply keeps_bind.
    { destruct body; [apply keeps_ret | apply keeps_throw]. }
    intros sc. apply keeps_bind.
    { destruct sc; [apply keeps_ret | apply keeps_throw]. }
    intros sc'. apply keeps_bind;
      [apply keeps_silent, silent_Transaction_findOne_stk|].
    intros [tx|].
    + apply keeps_bind; [apply keeps_silent, silent_Transaction_save|]. intros _.
      apply keeps_bind; [apply keeps_silent, silent_User_findById|]. intros user.
      apply keeps_bind; [|intros _; apply keeps_ret].
      destruct (stkEndpoint user); [|apply keeps_ret].
      apply keeps_bind; [apply keeps_silent, silent_newObjectId|]. intros id.
      apply keeps_bind; [apply keeps_Webhook_insert|]. intros _.
      apply keeps_silent, silent_detach.
    + apply keeps_bind; [apply keeps_silent, silent_logger|]. intros _.
      apply keeps_ret.
  - intros e. apply keeps_bind; [apply keeps_silent, silent_logger|]. intros _.
    apply keeps_ret.
Qed.

(** The four other callback handlers keep whatever assertion about the
    notification collection the insert and the delivery keep. *)
Lemma validation_keeps (p : list Webhook.t -> Prop) (payload : option C2BBody) :
  preserved p -> keeps (onWebhooks p) (validation payload).
Proof.
  intros [Hins Hsend]. unfold validation. apply keeps_tryCatch.
  - apply keeps_bind; [apply keeps_silent, silent_logger|]. intros _.
    apply keeps_bind; [apply keeps_destructure|]. intros body.
    apply keeps_bind; [apply keeps_silent, silent_User_findOne_shortCode|].
    intros [user|].
    + destruct (endpoint User.c2bValidation user); [|apply keeps_ret].
      apply keeps_bind; [apply keeps_silent, silent_newObjectId|]. intros id.
      apply keeps_bind; [apply Hins|]. intros _.
      apply keeps_bind; [apply Hsend|]. intros _. apply keeps_ret.
    + apply keeps_bind; [apply keeps_silent, silent_logger|]. intros _.
      apply keeps_ret.
  - intros e. apply keeps_bind; [apply keeps_silent, silent_logger|]. intros _.
    apply keeps_ret.
Qed.

Lemma confirmation_keeps (p : list Webhook.t -> Prop) (payload : option C2BBody) :
  preserved p -> keeps (onWebhooks p) (confirmation payload).
Proof.
  intros [Hins Hsend]. unfold confirmation. apply keeps_tryCatch.
  - apply keeps_bind; [apply keeps_silent, silent_logger|]. intros _.
    apply keeps_bind; [apply keeps_destructure|]. intros body.
    apply keeps_bind; [apply keeps_silent, silent_User_findOne_shortCode|].
    intros [user|].
    + apply keeps_bind.
      { destruct (get "MSISDN" body) as [[]|];
          first [apply keeps_ret | apply keeps_throw]. }
      intros msisdn.
      apply keeps_bind; [apply keeps_silent, silent_Transaction_findOne_c2b|].
      intros found. apply keeps_bind.
      { destruct found.
        - apply keeps_bind; [apply keeps_silent, silent_Transaction_save|].
          intros _. apply keeps_ret.
        - apply keeps_bind; [apply keeps_silent, silent_newObjectId|]. intros id.
          apply keeps_bind; [apply keeps_silent, silent_Transaction_insert|].
          intros _. apply keeps_ret. }
      intros transaction.
      apply keeps_bind; [|intros _; apply keeps_ret].
      destruct (endpoint User.c2bConfirmation user); [|apply keeps_ret].
      apply keeps_bind; [apply keeps_silent, silent_newObjectId|]. intros id.
      apply keeps_bind; [apply Hins|]. intros _.
      apply keeps_silent, silent_detach.
    + apply keeps_bind; [apply keeps_silent, silent_logger|]. intros _.
      apply keeps_ret.
  - intros e. apply keeps_bind; [apply keeps_silent, silent_logger|]. intros _.
    apply keeps_ret.
Qed.

Lemma b2cResult_keeps (p : list Webhook.t -> Prop) (payload : option B2C.t) :
  preserved p -> keeps (onWebhooks p) (b2cResult payload).
Proof.
  intros [Hins Hsend]. unfold b2cResult. apply keeps_tryCatch.
  - apply keeps_bind; [apply keeps_silent, silent_logger|]. intros _.
    apply keeps_bind; [apply keeps_destructure|]. intros body.
    apply keeps_bind.
    { destruct (B2C.Result body); [apply keeps_ret | apply keeps_throw]. }
    intros Result.
    apply keeps_bind; [apply keeps_silent, silent_Transaction_findOne_b2c|].
    intros [transaction|].
    + apply keeps_bind; [apply keeps_silent, silent_Transaction_save|]. intros _.
      apply keeps_bind; [apply keeps_silent, silent_User_findById|]. intros user.
      apply keeps_bind; [|intros _; apply keeps_ret].
      destruct (match user with Some u => endpoint User.b2cResult u | None => None end);
        [|apply keeps_ret].
      apply keeps_bind; [apply keeps_silent, silent_newObjectId|]. intros id.
      apply keeps_bind; [apply Hins|]. intros _.
      apply keeps_silent, silent_detach.
    + apply keeps_bind; [apply keeps_silent, silent_logger|]. intros _.
      apply keeps_ret.
  - intros e. apply keeps_bind; [apply keeps_silent, silent_logger|]. intros _.
    apply keeps_ret.
Qed.

Lemma b2cTimeout_keeps (p : list Webhook.t -> Prop) (payload : option B2C.t) :
  preserved p -> keeps (onWebhooks p) (b2cTimeout payload).
Proof.
  intros [Hins Hsend]. unfold b2cTimeout. apply keeps_tryCatch.
  - apply keeps_bind; [apply keeps_silent, silent_logger|]. intros _.
    apply keeps_bind; [apply keeps_destructure|]. intros body.
    apply keeps_bind.
    { destruct (B2C.Result body); [apply keeps_ret | apply keeps_throw]. }
    intros Result.
    apply keeps_bind; [apply keeps_silent, silent_Transaction_findOne_b2c|].
    intros [transaction|].
    + apply keeps_bind; [apply keeps_silent, silent_Transaction_save|]. intros _.
      apply keeps_bind; [apply keeps_silent, silent_User_findById|]. intros user.
      apply keeps_bind; [|intros _; apply keeps_ret].
      destruct (match user with Some u => endpoint b2cTimeoutEndpoint u | None => None end);
        [|apply keeps_ret].
      apply keeps_bind; [apply keeps_silent, silent_newObjectId|]. intros id.
      apply keeps_bind; [apply keeps_silent, silent_Date_now|]. intros now.
      apply keeps_bind; [apply Hins|]. intros _.
      apply keeps_silent, silent_detach.
    + apply keeps_bind; [apply keeps_silent, silent_logger|]. intros _.
      apply keeps_ret.
  - intros e. apply keeps_bind; [apply keeps_silent, silent_logger|]. intros _.
    apply keeps_ret.
Qed.

Lemma preserved_storeGrows (ws0 : list Webhook.t) : preserved (storeGrows ws0).
Proof.
  split; intros; [apply keeps_Webhook_insert | apply sendWebhook_grows].
Qed.

Lemma perform_grows (op : Operation) (w : World) :
  storeGrows (webhooks w) (webhooks (perform op w)).
Proof.
  destruct op; simpl.
  - apply (sendWebhook_grows (webhooks w) webhookId w), storeGrows_refl.
  - apply (createWebhook_grows (webhooks w) webhookData w), storeGrows_refl.
  - apply (retryFailedWebhooks_grows (webhooks w) batchSize w), storeGrows_refl.
  - apply (stkCallback_grows (webhooks w) payload w), storeGrows_refl.
  - apply (validation_keeps _ payload (preserved_storeGrows (webhooks w)) w),
      storeGrows_refl.
  - apply (confirmation_keeps _ payload (preserved_storeGrows (webhooks w)) w),
      storeGrows_refl.
  - apply (b2cResult_keeps _ payload (preserved_storeGrows (webhooks w)) w),
      storeGrows_refl.
  - apply (b2cTimeout_keeps _ payload (preserved_storeGrows (webhooks w)) w),
      storeGrows_refl.
Qed.

(** ** Completions *)

Lemma total_ret {A} (a : A) : total (ret a).
Proof. intros w. now exists a. Qed.

Lemma total_logger (level msg : string) : total (logger level msg).
Proof. intros w. now exists tt. Qed.

Lemma total_bind {A B} (m : Async A) (k : A -> Async B) :
  total m -> (forall a, total (k a)) -> total (bind m k).
Proof.
  intros Hm Hk w. destruct (Hm w) as [a Ha]. unfold bind.
  destruct (m w) as [c w']. simpl in Ha. subst c. apply Hk.
Qed.

Lemma total_tryCatch {A} (m : Async A) (h : string -> Async A) :
  (forall e, total (h e)) -> total (tryCatch m h).
Proof.
  intros Hh w. unfold tryCatch. destruct (m w) as [[a|e] w']; [now exists a | apply Hh].
Qed.

Lemma total_forEach {A} (l : list A) (f : A -> Async unit) :
  (forall a, total (f a)) -> total (forEach l f).
Proof.
  intros Hf. induction l; simpl; [apply total_ret | apply total_bind; auto].
Qed.

Lemma sendWebhook_total (id : ObjectId) : total (sendWebhook id).
Proof.
  unfold sendWebhook. apply total_tryCatch. intros e.
  apply total_bind; [apply total_logger|]. intros _.
  apply total_tryCatch. intros e'. apply total_logger.
Qed.

Lemma sendWebhook_returns (id : ObjectId) (w : World) :
  fst (sendWebhook id w) = Normal tt.
Proof. destruct (sendWebhook_total id w) as [[] H]. exact H. Qed.

Lemma forEach_returns {A} (l : list A) (f : A -> Async unit) (w : World) :
  (forall a, total (f a)) -> forEach l f w = (Normal tt, snd (forEach l f w)).
Proof.
  intros Hf. destruct (total_forEach l f Hf w) as [[] H].
  destruct (forEach l f w) as [c w']. simpl in *. now subst.
Qed.

Lemma retryOne_total (d : Webhook.t) : total (retryOne d).
Proof. apply total_tryCatch. intros e. apply total_logger. Qed.

Lemma retryFailedWebhooks_run (batchSize : option nat) (w : World) :
  retryFailedWebhooks batchSize w =
  match faults w with
  | Some e :: rest =>
    (Thrown e, emit (Logged "error" "Error retrying failed webhooks") (set_faults rest w))
  | fs =>
    let sel := selection batchSize w in
    (Normal (List.length sel),
     snd (forEach sel retryOne
            (emit (Logged "info" ("Retrying " ++ decimal (Z.of_nat (List.length sel))
                                  ++ " failed webhooks")%string)
                  (set_faults (tl fs) w))))
  end.
Proof.
  unfold retryFailedWebhooks, tryCatch, bind, Date_now, Webhook_find_limit, storage.
  fold retryOne. unfold selection.
  destruct (faults w) as [|[e|] rest] eqn:E; cbn [tl]; unfold logger at 1.
  - rewrite forEach_returns by (apply retryOne_total).
    replace (set_faults [] w) with w; [reflexivity|].
    destruct w; unfold set_faults; simpl in *; now subst.
  - reflexivity.
  - rewrite forEach_returns by (apply retryOne_total). reflexivity.
Qed.






Lemma extractMetadata_status (sc : Callback.StkCallback) (tx : Transaction.t) :
  Transaction.status (extractMetadata sc tx) = Transaction.status tx.
Proof.
  unfold extractMetadata, Transaction.assign_mpesaTimestamp.
  repeat branch; reflexivity.
Qed.

Lemma applyResultCode_status (sc : Callback.StkCallback) (tx : Transaction.t) :
  Transaction.status (applyResultCode sc tx) =
  match Callback.ResultCode sc with
  | Some 0 => "COMPLETED"
  | _ => "FAILED"
  end%string.
Proof.
  unfold applyResultCode.
  destruct (Callback.ResultCode sc) as [[| |]|]; try reflexivity.
  now rewrite extractMetadata_status.
Qed.

Lemma find_some_other {A} (p q : A -> bool) (l : list A) (a : A) :
  find p l = Some a -> q a = true -> exists b, find q l = Some b.
Proof.
  intros Hp Hq. apply find_some in Hp. destruct Hp as [Hin _].
  destruct (find q l) as [b|] eqn:E; [now exists b|].
  pose proof (find_none _ _ E _ Hin) as Hn. congruence.
Qed.

Lemma forgotPassword_unregistered (email : string) (w : World) :
  faults w = [] ->
  find (byEmail email) (users w) = None ->
  forgotPassword email w = (Normal resetNotice, w).
Proof.
  intros Hf Hu. unfold forgotPassword, tryCatch, bind, User_findOne_email.
  rewrite storage_up by assumption. now rewrite Hu.
Qed.

Lemma randomHex_draws (w : World) :
  exists r w', randomHex w = (Normal r, w')
               /\ faults w' = faults w /\ users w' = users w.
Proof.
  unfold randomHex. destruct (entropy w) as [|r rest]; eexists _, _; repeat split.
Qed.

Lemma User_save_up (user : User.t) (w : World) :
  faults w = [] ->
  (exists u', find (userHasId (User._id user)) (users w) = Some u') ->
  fst (User_save user w) = Normal tt.
Proof.
  intros Hf [u' Hu']. unfold User_save. unfold bind at 1.
  assert (Hdraw : forall w1, faults w1 = [] -> users w1 = users w ->
            exists a b w2, faults w2 = [] /\ users w2 = users w /\
              (apiKey <- randomHex ;; secretKey <- randomHex ;;
               ret (User.mk (User._id user) (User.email user) (Some apiKey)
                            (Some secretKey) (User.webhookConfig user)
                            (User.resetPasswordToken user)
                            (User.resetPasswordExpires user))) w1
              = (Normal (User.mk (User._id user) (User.email user) (Some a)
                                 (Some b) (User.webhookConfig user)
                                 (User.resetPasswordToken user)
                                 (User.resetPasswordExpires user)), w2)).
  { intros w1 Hf1 Hus. unfold bind, ret.
    destruct (randomHex_draws w1) as (a & w2 & -> & Hf2 & Hu2).
    destruct (randomHex_draws w2) as (b & w3 & -> & Hf3 & Hu3).
    exists a, b, w3. repeat split; congruence. }
  assert (Hstore : forall doc w2, faults w2 = [] -> users w2 = users w ->
            User._id doc = User._id user ->
            fst (storage (fun w =>
                   match find (userHasId (User._id doc)) (users w) with
                   | Some _ =>
                     (Normal tt,
                      set_users
                        (map (fun u =>
                           if userHasId (User._id doc) u then
                             User.mk (User._id u) (User.email u)
                               (match User.apiKey doc with
                                | Some k => Some k | None => User.apiKey u end)
                               (match User.secretKey doc with
                                | Some k => Some k | None => User.secretKey u end)
                               (User.webhookConfig u)
                               (User.resetPasswordToken doc)
                               (User.resetPasswordExpires doc)
                           else u) (users w)) w)
                   | None => (Thrown "No document found for query"%string, w)
                   end) w2) = Normal tt).
  { intros doc w2 Hf2 Hus Hid. rewrite storage_up by assumption.
    rewrite Hid, Hus, Hu'. reflexivity. }
  destruct (User.apiKey user) as [k|] eqn:Ek; [destruct (nonEmpty k)|].
  - unfold ret. now apply Hstore.
  - destruct (Hdraw w Hf eq_refl) as (a & b & w2 & Hf2 & Hus & ->).
    now apply Hstore.
  - destruct (Hdraw w Hf eq_refl) as (a & b & w2 & Hf2 & Hus & ->).
    now apply Hstore.
Qed.

Lemma User_save_down (user : User.t) (w : World) (e : string)
    (rest : list (option string)) :
  faults w = Some e :: rest ->
  fst (User_save user w) = Thrown e.
Proof.
  intros Hf. unfold User_save. unfold bind at 1.
  assert (Hstore : forall (doc : User.t) w2, faults w2 = Some e :: rest ->
            fst (storage (fun w =>
                   match find (userHasId (User._id doc)) (users w) with
                   | Some _ =>
                     (Normal tt,
                      set_users
                        (map (fun u =>
                           if userHasId (User._id doc) u then
                             User.mk (User._id u) (User.email u)
                               (match User.apiKey doc with
                                | Some k => Some k | None => User.apiKey u end)
                               (match User.secretKey doc with
                                | Some k => Some k | None => User.secretKey u end)
                               (User.webhookConfig u)
                               (User.resetPasswordToken doc)
                               (User.resetPasswordExpires doc)
                           else u) (users w)) w)
                   | None => (Thrown "No document found for query"%string, w)
                   end) w2) = Thrown e).
  { intros doc w2 Hf2. unfold storage. now rewrite Hf2. }
  assert (Hdraw : forall w1, faults w1 = Some e :: rest ->
            exists doc w2, faults w2 = Some e :: rest /\
              (apiKey <- randomHex ;; secretKey <- randomHex ;;
               ret (User.mk (User._id user) (User.email user) (Some apiKey)
                            (Some secretKey) (User.webhookConfig user)
                            (User.resetPasswordToken user)
                            (User.resetPasswordExpires user))) w1
              = (Normal doc, w2)).
  { intros w1 Hf1. unfold bind, ret.
    destruct (randomHex_draws w1) as (a & w2 & -> & Hf2 & _).
    destruct (randomHex_draws w2) as (b & w3 & -> & Hf3 & _).
    eexists _, w3. split; [congruence|reflexivity]. }
  destruct (User.apiKey user) as [k|] eqn:Ek; [destruct (nonEmpty k)|].
  - unfold ret. now apply Hstore.
  - destruct (Hdraw w Hf) as (doc & w2 & Hf2 & ->). now apply Hstore.
  - destruct (Hdraw w Hf) as (doc & w2 & Hf2 & ->). now apply Hstore.
Qed.

(** The lookup is answered and finds nobody: nothing else touches the
    storage. *)
Lemma forgotPassword_lookup_only (email : string) (w : World)
    (rest : list (option string)) :
  faults w = None :: rest ->
  find (byEmail email) (users w) = None ->
  fst (forgotPassword email w) = Normal resetNotice.
Proof.
  intros Hf Hu. unfold forgotPassword, tryCatch, bind, User_findOne_email, storage.
  rewrite Hf. cbn [users set_faults]. now rewrite Hu.
Qed.

(** The lookup is answered, the save is not. *)
Lemma forgotPassword_save_fails (email : string) (w : World) (u : User.t)
    (e : string) (rest : list (option string)) :
  faults w = None :: Some e :: rest ->
  find (byEmail email) (users w) = Some u ->
  fst (forgotPassword email w) = Normal (Boom 500 "Error processing your request").
Proof.
  intros Hf Hu.
  unfold forgotPassword, tryCatch, bind at 1, User_findOne_email.
  unfold storage at 1. rewrite Hf. cbn [users set_faults]. rewrite Hu.
  cbn [option_map]. unfold bind at 1.
  destruct (randomHex_draws (set_faults (Some e :: rest) w))
    as (tok & w1 & -> & Hf1 & _).
  cbn [faults set_faults] in Hf1.
  unfold bind at 1, Date_now. unfold bind at 1.
  match goal with |- context [User_save ?doc w1] =>
    pose proof (User_save_down doc w1 e rest Hf1) as Hs;
    destruct (User_save doc w1) as [c w2]
  end.
  cbn [fst] in Hs. subst c. reflexivity.
Qed.

Lemma forgotPassword_registered (email : string) (w : World) (u : User.t) :
  faults w = [] ->
  find (byEmail email) (users w) = Some u ->
  fst (forgotPassword email w) = Normal resetNotice.
Proof.
  intros Hf Hu.
  destruct (find_some_other _ (userHasId (User._id u)) _ _ Hu) as [u' Hu'].
  { unfold userHasId. apply Nat.eqb_refl. }
  unfold forgotPassword, tryCatch, bind at 1, User_findOne_email.
  rewrite storage_up by assumption. rewrite Hu. cbn [option_map].
  unfold bind at 1.
  assert (Hrest : forall w1 tok, faults w1 = [] -> users w1 = users w ->
    fst (let (c, w') :=
           (now <- Date_now ;;
            let user := User.mk (User._id (defaultProjection u))
                          (User.email (defaultProjection u))
                          (User.apiKey (defaultProjection u))
                          (User.secretKey (defaultProjection u))
                          (User.webhookConfig (defaultProjection u))
                          (Some tok) (Some (now + 3600000)) in
            User_save user ;;
            logger "info" "Password reset requested" ;;
            ret resetNotice) w1 in
         match c with
         | Normal a => (Normal a, w')
         | Thrown e =>
           (logger "error" "Error in forgotPassword handler" ;;
            ret (Boom 500 "Error processing your request")) w'
         end) = Normal resetNotice).
  { intros w1 tok Hf1 Hus. unfold bind at 1, Date_now. unfold bind at 1.
    match goal with |- context [User_save ?doc w1] =>
      pose proof (User_save_up doc w1 Hf1) as Hs;
      destruct (User_save doc w1) as [c w2]
    end.
    simpl in Hs. rewrite Hs; [reflexivity|].
    exists u'. cbn [User._id defaultProjection]. now rewrite Hus. }
  unfold randomHex. destruct (entropy w) as [|tok rest].
  - now apply Hrest.
  - now apply Hrest.
Qed.

Lemma posted_app (a b : list Event) : posted (a ++ b) = posted a ++ posted b.
Proof.
  induction a as [|e a IH]; simpl; [reflexivity|].
  destruct e; simpl; now rewrite IH.
Qed.

Lemma trace_emit (e : Event) (w : World) : trace (emit e w) = trace w ++ [e].
Proof. reflexivity. Qed.

Lemma sendWebhook_attempt_trace (id : ObjectId) (w : World) (d : Webhook.t)
    (secret : string) :
  faults w = [] ->
  find (hasId id) (webhooks w) = Some d ->
  wellTyped d ->
  String.eqb (Webhook.status d) "SENT" = false ->
  secretFor d w = Some secret ->
  exists later,
    trace (snd (sendWebhook id w)) =
      trace w ++ SavedWebhook (attempted (clock w) d)
              :: Posted (deliveryRequest (clock w) secret d) :: later
    /\ posted later = [].
Proof.
  intros Hf Hd Hty Hs Hsec.
  destruct (rejection (network w (deliveryRequest (clock w) secret d))) as [msg|] eqn:R.
  - rewrite (sendWebhook_rejected id w d secret msg Hf Hd Hty Hs Hsec R).
    unfold failureRecorded, inFlight. cbn [snd].
    destruct (maxRetries <=? Webhook.attempts d + 1);
      cbn [trace emit set_webhooks]; repeat rewrite <- app_assoc;
      eexists; (split; [reflexivity | reflexivity]).
  - unfold rejection in R.
    destruct (network w (deliveryRequest (clock w) secret d)) as [st body|m] eqn:N;
      [|discriminate].
    destruct ((200 <=? st) && (st <? 300)) eqn:Ok; [|discriminate].
    rewrite (sendWebhook_delivered id w d secret st body Hf Hd Hty Hs Hsec N Ok).
    unfold inFlight. cbn [snd trace emit set_webhooks]. repeat rewrite <- app_assoc.
    eexists; (split; [reflexivity | reflexivity]).
Qed.

Lemma limit_incl {A} (n : nat) (l : list A) (a : A) : In a (limit n l) -> In a l.
Proof.
  destruct n; [auto|]. unfold limit. intros H.
  rewrite <- (firstn_skipn (S n) l). apply in_or_app. now left.
Qed.

Lemma limit_length {A} (n : nat) (l : list A) :
  (0 < n)%nat -> (List.length (limit n l) <= n)%nat.
Proof.
  destruct n; [lia|]. intros _. unfold limit. rewrite length_firstn. lia.
Qed.

Lemma limit_prefix {A} (n : nat) (l : list A) : exists k, limit n l = firstn k l.
Proof.
  destruct n; [|now exists (S n)].
  exists (List.length l). simpl. now rewrite firstn_all.
Qed.

Lemma retryQuery_true (now : Date) (d : Webhook.t) :
  retryQuery now d = true ->
  Webhook.status d = "FAILED"%string
  /\ Webhook.attempts d < 5
  /\ exists t, Webhook.lastAttempt d = Some t /\ 5 * 60 * 1000 < now - t.
Proof.
  unfold retryQuery. intros H.
  apply andb_prop in H. destruct H as [H Hl].
  apply andb_prop in H. destruct H as [Hs Ha].
  apply String.eqb_eq in Hs. apply Z.ltb_lt in Ha.
  destruct (Webhook.lastAttempt d) as [t|]; [|discriminate].
  apply Z.ltb_lt in Hl. repeat split; auto. exists t. split; [reflexivity | lia].
Qed.

(** ** A request is posted only after the attempt is saved *)

Lemma quiet_ret {A} (a : A) : quiet (ret a).
Proof. intros w. exists []. now rewrite app_nil_r. Qed.

Lemma quiet_throw {A} (e : string) : quiet (@throw A e).
Proof. intros w. exists []. now rewrite app_nil_r. Qed.

Lemma quiet_bind {A B} (m : Async A) (k : A -> Async B) :
  quiet m -> (forall a, quiet (k a)) -> quiet (bind m k).
Proof.
  intros Hm Hk w. unfold bind. destruct (Hm w) as (e1 & H1 & P1).
  destruct (m w) as [[a|e] w1]; simpl in *.
  - destruct (Hk a w1) as (e2 & H2 & P2). exists (e1 ++ e2).
    rewrite H2, H1, app_assoc, posted_app, P1, P2. auto.
  - eauto.
Qed.

Lemma quiet_tryCatch {A} (m : Async A) (h : string -> Async A) :
  quiet m -> (forall e, quiet (h e)) -> quiet (tryCatch m h).
Proof.
  intros Hm Hh w. unfold tryCatch. destruct (Hm w) as (e1 & H1 & P1).
  destruct (m w) as [[a|e] w1]; simpl in *.
  - eauto.
  - destruct (Hh e w1) as (e2 & H2 & P2). exists (e1 ++ e2).
    rewrite H2, H1, app_assoc, posted_app, P1, P2. auto.
Qed.

Lemma quiet_storage {A} (op : Async A) : quiet op -> quiet (storage op).
Proof.
  intros H w. unfold storage. destruct (faults w) as [|[e|] rest].
  - apply H.
  - exists []. now rewrite app_nil_r.
  - apply (H (set_faults rest w)).
Qed.

Lemma quiet_logger (level msg : string) : quiet (logger level msg).
Proof. intros w. now exists [Logged level msg]. Qed.

Lemma quiet_Date_now : quiet Date_now.
Proof. intros w. exists []. now rewrite app_nil_r. Qed.

Lemma quiet_Webhook_findById (id : ObjectId) : quiet (Webhook_findById id).
Proof. apply quiet_storage. intros w. exists []. now rewrite app_nil_r. Qed.

Lemma quiet_User_findById_select_secret (id : ObjectId) :
  quiet (User_findById_select_secret id).
Proof. apply quiet_storage. intros w. exists []. now rewrite app_nil_r. Qed.

Lemma quiet_Webhook_save (d : Webhook.t) : quiet (Webhook_save d).
Proof.
  unfold Webhook_save. destruct (Webhook.validate d); [apply quiet_throw|].
  apply quiet_storage. intros w. destruct (find _ _).
  - now exists [SavedWebhook d].
  - exists []. now rewrite app_nil_r.
Qed.

Lemma keeps_unposted {A} (w0 : World) (m : Async A) :
  quiet m -> keeps (unposted w0) m.
Proof.
  intros Hm w (evs & Ht & Hp). destruct (Hm w) as (e1 & H1 & P1).
  exists (evs ++ e1). rewrite H1, Ht, app_assoc, posted_app, Hp, P1. auto.
Qed.

Lemma keeps_postedAfterSave {A} (id : ObjectId) (w0 : World) (m : Async A) :
  quiet m -> keeps (postedAfterSave id w0) m.
Proof.
  intros Hm w (d & secret & pre & post & Hd & Hs & Ht & Hp & Hq).
  destruct (Hm w) as (e1 & H1 & P1).
  exists d, secret, pre, (post ++ e1). repeat split; auto.
  - rewrite H1, Ht. now rewrite <- !app_assoc.
  - now rewrite posted_app, Hq, P1.
Qed.

Lemma keeps_or {A} (P Q : World -> Prop) (m : Async A) :
  keeps P m -> keeps Q m -> keeps (fun w => P w \/ Q w) m.
Proof. intros HP HQ w [H|H]; [left; now apply HP | right; now apply HQ]. Qed.

Lemma triple_flat {A} (P Q : World -> Prop) (m : Async A) :
  triple P m (fun _ w => Q w) ->
  triple P m (fun c w => match c with Normal _ => Q w | Thrown _ => Q w end).
Proof. intros H w Hw. specialize (H w Hw). now destruct (fst (m w)). Qed.

(** The catch block of sendWebhook posts nothing. *)
Lemma sendWebhook_catch_quiet (webhookId : ObjectId) (error : string) :
  quiet
    (logger "error" "Error sending webhook" ;;
     tryCatch
       (webhook <- Webhook_findById webhookId ;;
        match webhook with
        | None => ret tt
        | Some webhook =>
          let webhook := Webhook.set_status "FAILED" webhook in
          let webhook := Webhook.set_errorMessage (Some error) webhook in
          webhook <- (if maxRetries <=? Webhook.attempts webhook then
                        let webhook := Webhook.set_status "FAILED_PERMANENT" webhook in
                        logger "warn" "Max retries reached for webhook" ;;
                        ret webhook
                      else ret webhook) ;;
          Webhook_save webhook
        end)
       (fun updateError => logger "error" "Error updating webhook after failure")).
Proof.
  apply quiet_bind; [apply quiet_logger|]. intros _.
  apply quiet_tryCatch; [|intros e; apply quiet_logger].
  apply quiet_bind; [apply quiet_Webhook_findById|].
  intros [d|]; [|apply quiet_ret].
  apply quiet_bind; [|intros d'; apply quiet_Webhook_save].
  destruct (maxRetries <=? _); [|apply quiet_ret].
  apply quiet_bind; [apply quiet_logger | intros _; apply quiet_ret].
Qed.

(** Under every fault script: whatever [sendWebhook] adds to the trace
    either contains no request, or contains exactly one, placed right after
    the save of the record with the counter one higher, the last-attempt
    time set and status PENDING. *)
Lemma sendWebhook_saves_before_posting (id : ObjectId) (w0 : World) :
  unposted w0 (snd (sendWebhook id w0))
  \/ postedAfterSave id w0 (snd (sendWebhook id w0)).
Proof.
  set (Q := fun w => unposted w0 w \/ postedAfterSave id w0 w).
  assert (HB : forall w, untouched w0 w -> Q w)
    by (intros w (_ & _ & _ & H); left; exact H).
  assert (Hq : forall A (m : Async A), quiet m -> keeps Q m).
  { intros A m Hm. apply keeps_or;
      [now apply keeps_unposted | now apply keeps_postedAfterSave]. }
  assert (Hu : forall A (m : Async A),
             quiet m ->
             (forall w, webhooks (snd (m w)) = webhooks w
                        /\ users (snd (m w)) = users w
                        /\ clock (snd (m w)) = clock w) ->
             keeps (untouched w0) m).
  { intros A m Hm Hs w (H1 & H2 & H3 & H4). destruct (Hs w) as (S1 & S2 & S3).
    repeat split; try congruence. now apply (keeps_unposted w0 m Hm w). }
  assert (Hstore : forall A (f : World -> A) w,
             webhooks (snd (storage (fun w => (Normal (f w), w)) w)) = webhooks w
             /\ users (snd (storage (fun w => (Normal (f w), w)) w)) = users w
             /\ clock (snd (storage (fun w => (Normal (f w), w)) w)) = clock w).
  { intros A f w. unfold storage. destruct (faults w) as [|[e|] rest]; auto. }
  assert (Hval : forall A (f : World -> A) w a,
             fst (storage (fun w => (Normal (f w), w)) w) = Normal a ->
             a = f (snd (storage (fun w => (Normal (f w), w)) w))).
  { intros A f w a. unfold storage.
    destruct (faults w) as [|[e|] rest]; cbn; intros H; now inversion H. }
  cut (triple (untouched w0) (sendWebhook id) (fun _ w => Q w)).
  { intros H. apply (H w0). repeat split. exists []. now rewrite app_nil_r. }
  unfold sendWebhook. apply triple_tryCatch with (R := fun _ => Q).
  2:{ intros e. apply Hq, sendWebhook_catch_quiet. }
  apply triple_flat.
  apply triple_bind with
    (R := fun a w => untouched w0 w /\ a = find (hasId id) (webhooks w0)).
  { intros w Hw.
    pose proof (Hu _ _ (quiet_Webhook_findById id) (Hstore _ _) w Hw) as Hw'.
    destruct (fst (Webhook_findById id w)) as [a|e] eqn:E; [|now apply HB].
    split; [exact Hw'|]. destruct Hw' as (Hw1 & _). rewrite <- Hw1.
    apply Hval in E. exact E. }
  intros [d|]; [|intros w [Hw _]; apply (Hq _ _ (quiet_logger _ _)), HB, Hw].
  destruct (String.eqb (Webhook.status d) "SENT") eqn:Hsent;
    [intros w [Hw _]; apply HB, Hw|].
  apply triple_bind with
    (R := fun user w =>
            (untouched w0 w /\ Some d = find (hasId id) (webhooks w0))
            /\ webhookSecret user = secretFor d w0).
  { intros w [Hw Hd].
    pose proof (Hu _ _ (quiet_User_findById_select_secret (Webhook.userId d))
                  (Hstore _ _) w Hw) as Hw'.
    destruct (fst (User_findById_select_secret (Webhook.userId d) w)) as [a|e] eqn:E;
      [|now apply HB].
    split; [split; assumption|]. unfold secretFor.
    destruct Hw' as (_ & Hw2 & _). rewrite <- Hw2.
    apply Hval in E. rewrite E. reflexivity. }
  intros user. destruct (webhookSecret user) as [secret|] eqn:Hsec.
  2:{ intros w [[Hw _] _].
      refine (Hq _ _ _ w (HB w Hw)).
      apply quiet_bind; [apply quiet_logger | intros _; apply quiet_Webhook_save]. }
  apply triple_bind with
    (R := fun now w =>
            (untouched w0 w /\ Some d = find (hasId id) (webhooks w0))
            /\ Some secret = secretFor d w0 /\ now = clock w0).
  { intros w [[Hw Hd] Hs]. cbn. repeat split; try apply Hw; auto. }
  intros now.
  apply triple_bind with
    (R := fun _ w => saved w0 d w /\ Some d = find (hasId id) (webhooks w0)
                     /\ Some secret = secretFor d w0).
  { intros w [[Hw Hd] [Hs ->]]. fold (attempted (clock w0) d).
    destruct Hw as (W1 & W2 & W3 & evs & Ht & Hp).
    unfold Webhook_save. destruct (Webhook.validate _).
    { left. exists evs. auto. }
    unfold storage.
    destruct (faults w) as [|[e|] rest]; cbn [webhooks set_faults];
      try (left; exists evs; now auto);
      (destruct (find _ (webhooks w)); cbn [fst snd];
       [ split; [split; [exact W3|] | split; assumption];
         exists evs; split; [cbn; rewrite Ht, <- app_assoc; reflexivity | exact Hp]
       | left; exists evs; auto ]). }
  intros _.
  apply triple_bind with
    (R := fun stamp w => (saved w0 d w /\ Some d = find (hasId id) (webhooks w0)
                          /\ Some secret = secretFor d w0) /\ stamp = clock w0).
  { intros w (Hs & Hd & Hk). cbn. repeat split; auto; apply Hs. }
  intros stamp.
  apply triple_bind with (R := fun _ => postedAfterSave id w0).
  { intros w (((Hc & pre & Ht & Hp) & Hd & Hk) & ->).
    assert (HD : postedAfterSave id w0 (snd (axios
               (mkRequest "post" (Webhook.destination (attempted (clock w0) d))
                  (mkHeaders "application/json"
                     (createHmac_sha256_hex secret
                        (JSON_stringify (Webhook.payload (attempted (clock w0) d))))
                     (clock w0) (Webhook._id (attempted (clock w0) d)))
                  (Webhook.payload (attempted (clock w0) d)) 10000) w))).
    { exists d, secret, pre, []. repeat split; auto.
      unfold axios.
      destruct (network w _) as [st body|msg]; [destruct (_ && _)|];
        cbn [snd trace emit]; rewrite Ht, <- !app_assoc; reflexivity. }
    destruct (fst (axios _ w)); [exact HD | right; exact HD]. }
  intros response.
  apply keeps_relax with (P' := postedAfterSave id w0);
    [| auto | intros w H; right; exact H].
  apply keeps_postedAfterSave.
  apply quiet_bind; [apply quiet_Webhook_save | intros _; apply quiet_logger].
Qed.

(** The first read fails and the storage is up again for the catch block:
    the record is read there and rewritten, whatever its status was. *)
Lemma sendWebhook_read_fails (id : ObjectId) (w : World) (d : Webhook.t)
    (e : string) :
  faults w = [Some e] ->
  find (hasId id) (webhooks w) = Some d ->
  wellTyped d ->
  Webhook.attempts d < maxRetries ->
  let d' := Webhook.set_errorMessage (Some e) (Webhook.set_status "FAILED" d) in
  let w1 := emit (Logged "error" "Error sending webhook") (set_faults [] w) in
  sendWebhook id w
  = (Normal tt, emit (SavedWebhook d') (set_webhooks (replaceDoc d' (webhooks w1)) w1)).
Proof.
  intros Hf Hd Hty Hlt d' w1.
  pose proof (find_hasId_self _ _ _ Hd) as Hself.
  unfold sendWebhook, tryCatch. unfold bind at 1. unfold Webhook_findById at 1.
  unfold storage at 1. rewrite Hf.
  unfold bind at 1. unfold logger at 1. fold w1.
  unfold bind at 1. unfold Webhook_findById.
  rewrite storage_up by reflexivity.
  change (webhooks w1) with (webhooks w). rewrite Hd.
  cbn [Webhook.attempts Webhook.set_errorMessage Webhook.set_status].
  replace (maxRetries <=? Webhook.attempts d) with false
    by (symmetry; apply Z.leb_gt; exact Hlt).
  unfold bind at 1. cbn [ret]. fold d'.
  unfold Webhook_save. rewrite (validate_ok d d' Hty eq_refl eq_refl).
  rewrite storage_up by reflexivity.
  change (webhooks w1) with (webhooks w).
  rewrite (Hself : find (hasId (Webhook._id d')) (webhooks w) = Some d).
  reflexivity.
Qed.

(* ------------------------------------------------------------------ *)
(** * The properties of the specification *)

Lemma sendWebhook_stored_attempt (id : ObjectId) (w : World) (d : Webhook.t)
    (secret : string) :
  faults w = [] ->
  find (hasId id) (webhooks w) = Some d ->
  wellTyped d ->
  String.eqb (Webhook.status d) "SENT" = false ->
  secretFor d w = Some secret ->
  exists d', find (hasId id) (webhooks (snd (sendWebhook id w))) = Some d'
             /\ Webhook.attempts d' = Webhook.attempts d + 1
             /\ Webhook.lastAttempt d' = Some (clock w).
Proof.
  intros Hf Hd Hty Hs Hsec.
  pose proof (find_hasId_self _ _ _ Hd) as Hself.
  pose proof (find_hasId_id _ _ _ Hd) as Hid.
  pose proof (find_replaceDoc (attempted (clock w) d) d (webhooks w) Hself) as H1.
  destruct (rejection (network w (deliveryRequest (clock w) secret d))) as [msg|] eqn:R.
  - rewrite (sendWebhook_rejected id w d secret msg Hf Hd Hty Hs Hsec R).
    unfold failureRecorded.
    destruct (maxRetries <=? Webhook.attempts d + 1).
    + exists (attempted (clock w) d).
      cbn [snd webhooks emit set_webhooks inFlight]. rewrite <- Hid.
      split; [exact H1 | split; reflexivity].
    + exists (Webhook.set_errorMessage (Some msg)
                (Webhook.set_status "FAILED" (attempted (clock w) d))).
      cbn [snd webhooks emit set_webhooks inFlight]. rewrite <- Hid.
      split; [|split; reflexivity].
      exact (find_replaceDoc
               (Webhook.set_errorMessage (Some msg)
                  (Webhook.set_status "FAILED" (attempted (clock w) d)))
               (attempted (clock w) d) _ H1).
  - unfold rejection in R.
    destruct (network w (deliveryRequest (clock w) secret d)) as [st body|m] eqn:N;
      [|discriminate].
    destruct ((200 <=? st) && (st <? 300)) eqn:Ok; [|discriminate].
    rewrite (sendWebhook_delivered id w d secret st body Hf Hd Hty Hs Hsec N Ok).
    exists (Webhook.set_response (Some (st, body))
              (Webhook.set_status "SENT" (attempted (clock w) d))).
    cbn [snd webhooks emit set_webhooks inFlight]. rewrite <- Hid.
    split; [|split; reflexivity].
    exact (find_replaceDoc
             (Webhook.set_response (Some (st, body))
                (Webhook.set_status "SENT" (attempted (clock w) d)))
             (attempted (clock w) d) _ H1).
Qed.

(** The storage goes down while the request is in flight: the write of the
    outcome and the read of the catch block both fail. *)
Lemma sendWebhook_crash (id : ObjectId) (w : World) (d : Webhook.t)
    (secret e e' : string) (rest : list (option string)) :
  faults w = None :: None :: None :: Some e :: Some e' :: rest ->
  find (hasId id) (webhooks w) = Some d ->
  wellTyped d ->
  String.eqb (Webhook.status d) "SENT" = false ->
  secretFor d w = Some secret ->
  exists w',
    sendWebhook id w = (Normal tt, w')
    /\ webhooks w' = replaceDoc (attempted (clock w) d) (webhooks w)
    /\ exists later,
         trace w' =
           trace w ++ SavedWebhook (attempted (clock w) d)
                   :: Posted (deliveryRequest (clock w) secret d) :: later
         /\ posted later = [].
Proof.
  intros Hf Hd Hty Hs Hsec.
  pose proof (find_hasId_self _ _ _ Hd) as Hself.
  unfold sendWebhook, tryCatch. unfold bind at 1. unfold Webhook_findById at 1.
  unfold storage at 1. rewrite Hf. cbn [fst snd webhooks set_faults].
  rewrite Hd, Hs.
  unfold bind at 1. unfold User_findById_select_secret.
  unfold storage at 1. cbn [faults set_faults fst snd users].
  unfold secretFor in Hsec. rewrite Hsec.
  unfold bind at 1. unfold Date_now at 1. cbn [clock set_faults].
  unfold bind at 1. unfold Webhook_save at 1. fold (attempted (clock w) d).
  rewrite (validate_ok d (attempted (clock w) d) Hty eq_refl eq_refl).
  unfold storage at 1. cbn [faults set_faults webhooks].
  rewrite (Hself : find (hasId (Webhook._id (attempted (clock w) d))) (webhooks w) = Some d).
  unfold bind at 1. unfold Date_now at 1. cbn [clock emit set_webhooks set_faults].
  unfold bind at 1. unfold axios.
  cbn [network emit set_webhooks set_faults].
  match goal with
  | |- context [network w ?r] =>
    change r with (deliveryRequest (clock w) secret d)
  end.
  destruct (network w (deliveryRequest (clock w) secret d)) as [st body|m] eqn:N.
  - destruct ((200 <=? st) && (st <? 300)) eqn:Ok.
    + unfold bind at 1. unfold Webhook_save at 1.
      rewrite (validate_ok d
                 (Webhook.set_response (Some (st, body))
                    (Webhook.set_status "SENT" (attempted (clock w) d)))
                 Hty eq_refl eq_refl).
      unfold storage at 1. cbn [faults emit set_webhooks set_faults].
      unfold bind at 1. unfold logger at 1.
      unfold bind at 1. unfold Webhook_findById at 1.
      unfold storage at 1. cbn [faults emit set_webhooks set_faults].
      unfold logger.
      eexists. split; [reflexivity|].
      cbn [webhooks trace emit set_webhooks set_faults].
      repeat rewrite <- app_assoc.
      split; [reflexivity|]. eexists; split; reflexivity.
    + unfold bind at 1. unfold logger at 1.
      unfold bind at 1. unfold Webhook_findById at 1.
      unfold storage at 1. cbn [faults emit set_webhooks set_faults].
      unfold logger.
      eexists. split; [reflexivity|].
      cbn [webhooks trace emit set_webhooks set_faults].
      repeat rewrite <- app_assoc.
      split; [reflexivity|]. eexists; split; reflexivity.
  - unfold bind at 1. unfold logger at 1.
    unfold bind at 1. unfold Webhook_findById at 1.
    unfold storage at 1. cbn [faults emit set_webhooks set_faults].
    unfold logger.
    eexists. split; [reflexivity|].
    cbn [webhooks trace emit set_webhooks set_faults].
    repeat rewrite <- app_assoc.
    split; [reflexivity|]. eexists; split; reflexivity.
Qed.

(** C1.  The guard 'Check if already sent' holds only while the first read
    succeeds.  With the storage up, [sendWebhook] on a notification whose
    status is SENT returns at once and leaves the world as it is.  When that
    first read fails and the storage answers again in the catch block, the
    catch block reads the record and, without looking at its status,
    rewrites it to FAILED with the error message.  A sent notification has
    become a failed one: the query of the sweep matches it once its last
    attempt is five minutes old, and the next delivery posts it again and
    counts one more attempt. *)
Theorem failed_read_reopens_a_sent_notification (id : ObjectId) (w : World)
    (d : Webhook.t) :
  find (hasId id) (webhooks w) = Some d ->
  wellTyped d ->
  Webhook.status d = "SENT"%string ->
  Webhook.attempts d < maxRetries ->
  (faults w = [] -> sendWebhook id w = (Normal tt, w))
  /\ (forall e : string,
        faults w = [Some e] ->
        let w' := snd (sendWebhook id w) in
        let d' := Webhook.set_errorMessage (Some e) (Webhook.set_status "FAILED" d) in
        fst (sendWebhook id w) = Normal tt
        /\ find (hasId id) (webhooks w') = Some d'
        /\ posted (trace w') = posted (trace w)
        /\ faults w' = []
        /\ (forall (later t : Date),
              Webhook.lastAttempt d = Some t ->
              t < later - 5 * 60 * 1000 ->
              retryQuery later d' = true)
        /\ (forall (w2 : World) (secret : string),
              faults w2 = [] ->
              webhooks w2 = webhooks w' ->
              secretFor d w2 = Some secret ->
              exists later,
                trace (snd (sendWebhook id w2))
                = trace w2 ++ SavedWebhook (attempted (clock w2) d')
                           :: Posted (deliveryRequest (clock w2) secret d') :: later
                /\ posted later = []
                /\ Webhook.attempts (attempted (clock w2) d')
                   = Webhook.attempts d + 1)).
Proof.
  intros Hd Hty Hs Hlt. split.
  - intros Hf. exact (sendWebhook_sent id w d Hf Hd Hs).
  - intros e Hf w' d'. subst w'.
    pose proof (find_hasId_id _ _ _ Hd) as Hid.
    pose proof (find_hasId_self _ _ _ Hd) as Hself.
    rewrite (sendWebhook_read_fails id w d e Hf Hd Hty Hlt). cbn [fst snd].
    fold d'.
    assert (Hfound : find (hasId id)
                       (webhooks
                          (emit (SavedWebhook d')
                             (set_webhooks
                                (replaceDoc d'
                                   (webhooks
                                      (emit (Logged "error" "Error sending webhook")
                                         (set_faults [] w))))
                                (emit (Logged "error" "Error sending webhook")
                                   (set_faults [] w))))) = Some d').
    { cbn [webhooks emit set_webhooks set_faults]. rewrite <- Hid.
      apply (find_replaceDoc d' d). exact Hself. }
    split; [reflexivity|]. split; [exact Hfound|]. split.
    { cbn [trace emit set_webhooks set_faults]. rewrite !posted_app.
      cbn [posted]. now rewrite !app_nil_r. }
    split; [reflexivity|]. split.
    { intros later t Ht Hold. unfold retryQuery, d'.
      cbn [Webhook.status Webhook.attempts Webhook.lastAttempt
           Webhook.set_errorMessage Webhook.set_status].
      rewrite Ht. cbn [String.eqb].
      replace (Webhook.attempts d <? 5) with true
        by (symmetry; apply Z.ltb_lt; exact Hlt).
      replace (t <? later - 5 * 60 * 1000) with true
        by (symmetry; apply Z.ltb_lt; exact Hold).
      reflexivity. }
    intros w2 secret Hf2 Hws Hsec.
    assert (Hd2 : find (hasId id) (webhooks w2) = Some d')
      by (rewrite Hws; exact Hfound).
    assert (Hty2 : wellTyped d') by exact Hty.
    destruct (sendWebhook_attempt_trace id w2 d' secret Hf2 Hd2 Hty2 eq_refl Hsec)
      as (later & Ht & Hp).
    exists later. split; [exact Ht|]. split; [exact Hp|reflexivity].
Qed.

(** C2, as amended.  When the owner has no signing secret, [sendWebhook]
    returns normally; the record is saved with status FAILED and the error
    message 'Invalid webhook configuration', attempt counter and last-attempt
    time untouched; no request goes out; and the retry query keeps matching
    the record whenever its attempts are below 5 and its last attempt is more
    than five minutes old. *)
Theorem missing_secret_recorded_as_failed (id : ObjectId) (w : World) (d : Webhook.t) :
  faults w = [] ->
  find (hasId id) (webhooks w) = Some d ->
  wellTyped d ->
  String.eqb (Webhook.status d) "SENT" = false ->
  secretFor d w = None ->
  let d' := Webhook.set_errorMessage (Some "Invalid webhook configuration"%string)
              (Webhook.set_status "FAILED" d) in
  let w' := snd (sendWebhook id w) in
  fst (sendWebhook id w) = Normal tt
  /\ webhooks w' = replaceDoc d' (webhooks w)
  /\ find (hasId id) (webhooks w') = Some d'
  /\ Webhook.attempts d' = Webhook.attempts d
  /\ Webhook.lastAttempt d' = Webhook.lastAttempt d
  /\ posted (trace w') = posted (trace w)
  /\ forall now,
       retryQuery now d' =
       (Webhook.attempts d <? 5)
       && match Webhook.lastAttempt d with
          | Some t => t <? now - 5 * 60 * 1000
          | None => false
          end.
Proof.
  intros Hf Hd Hty Hs Hsec d' w'. subst w'.
  rewrite (sendWebhook_no_secret id w d Hf Hd Hty Hs Hsec). fold d'.
  cbn [fst snd webhooks emit set_webhooks trace].
  repeat split.
  - rewrite <- (find_hasId_id _ _ _ Hd).
    apply (find_replaceDoc d' d). exact (find_hasId_self _ _ _ Hd).
  - rewrite !posted_app. simpl. now rewrite !app_nil_r.
Qed.

(** C4, as amended.  With the storage up the sweep returns the number of
    documents it selected and hands each of them to [sendWebhook].  Every
    selected document is stored with status FAILED, fewer than 5 attempts and
    a last attempt more than five minutes before now; a positive batch size
    bounds their number; and they are the first matching documents in the
    natural order of the collection (no ordering by last attempt). *)
Theorem sweep_selection (batchSize : option nat) (w : World) :
  faults w = [] ->
  let n := match batchSize with Some n => n | None => 50%nat end in
  let sel := selection batchSize w in
  fst (retryFailedWebhooks batchSize w) = Normal (List.length sel)
  /\ snd (retryFailedWebhooks batchSize w) =
     snd (forEach sel retryOne
            (emit (Logged "info" ("Retrying " ++ decimal (Z.of_nat (List.length sel))
                                  ++ " failed webhooks")%string) w))
  /\ (forall d, In d sel ->
        In d (webhooks w)
        /\ Webhook.status d = "FAILED"%string
        /\ Webhook.attempts d < 5
        /\ exists t, Webhook.lastAttempt d = Some t /\ 5 * 60 * 1000 < clock w - t)
  /\ ((0 < n)%nat -> (List.length sel <= n)%nat)
  /\ exists k, sel = firstn k (filter (retryQuery (clock w)) (webhooks w)).
Proof.
  intros Hf n sel. rewrite retryFailedWebhooks_run, Hf. cbn [fst snd tl].
  replace (set_faults [] w) with w
    by (destruct w; unfold set_faults; simpl in *; now subst).
  split; [reflexivity|]. split; [reflexivity|]. split.
  { intros d H. apply limit_incl in H. apply filter_In in H.
    destruct H as [Hin Hq]. split; [exact Hin | now apply retryQuery_true in Hq]. }
  split; [apply limit_length | apply limit_prefix].
Qed.


(** What [webhook.save()] leaves in the collection: either nothing moved
    (the validation refused the document, the round trip failed, or the
    document is gone), or the save event was emitted and the collection
    then holds the saved document under its id. *)
Lemma Webhook_save_writes (doc : Webhook.t) (w : World) :
  let w' := snd (Webhook_save doc w) in
  (webhooks w' = webhooks w /\ trace w' = trace w
   /\ fst (Webhook_save doc w) <> Normal tt)
  \/ (webhooks w' = replaceDoc doc (webhooks w)
      /\ trace w' = trace w ++ [SavedWebhook doc]
      /\ find (hasId (Webhook._id doc)) (webhooks w') = Some doc
      /\ fst (Webhook_save doc w) = Normal tt).
Proof.
  unfold Webhook_save. destruct (Webhook.validate doc).
  { left. repeat split. discriminate. }
  unfold storage. destruct (faults w) as [|[e|] rest].
  - destruct (find (hasId (Webhook._id doc)) (webhooks w)) as [d0|] eqn:F.
    + right. cbn [snd fst webhooks trace emit set_webhooks].
      repeat split. exact (find_replaceDoc doc d0 _ F).
    + left. repeat split. discriminate.
  - left. repeat split. discriminate.
  - cbn [webhooks set_faults].
    destruct (find (hasId (Webhook._id doc)) (webhooks w)) as [d0|] eqn:F.
    + right. cbn [snd fst webhooks trace emit set_webhooks set_faults].
      repeat split. exact (find_replaceDoc doc d0 _ F).
    + left. repeat split. discriminate.
Qed.

(** C7.  A delivery attempt that passes the guards writes the notification
    with its counter raised by exactly one, the time of the attempt and
    the status PENDING into the collection, and only then posts the
    request: with the storage up the write and the request follow each
    other in the trace and the record stored at the end of the call still
    has the raised counter and the time, whatever the endpoint answered;
    when the storage goes down while the request is in flight, the call
    returns and the stored record is exactly that attempted document.  The
    save event of the trace stands for a write: whenever it is emitted the
    collection holds the saved document.  Under every fault script a call
    posts nothing or posts once right after the save of the attempt, and
    no operation that writes the collection (the three of the service and
    the five callback handlers) lowers the counter of a stored
    notification. *)
Theorem attempt_accounting :
  (forall (id : ObjectId) (w : World) (d : Webhook.t) (secret : string),
     faults w = [] ->
     find (hasId id) (webhooks w) = Some d ->
     wellTyped d ->
     String.eqb (Webhook.status d) "SENT" = false ->
     secretFor d w = Some secret ->
     (exists later,
        trace (snd (sendWebhook id w)) =
          trace w ++ SavedWebhook (attempted (clock w) d)
                  :: Posted (deliveryRequest (clock w) secret d) :: later
        /\ posted later = [])
     /\ exists d',
          find (hasId id) (webhooks (snd (sendWebhook id w))) = Some d'
          /\ Webhook.attempts d' = Webhook.attempts d + 1
          /\ Webhook.lastAttempt d' = Some (clock w))
  /\ (forall (id : ObjectId) (w : World) (d : Webhook.t) (secret e e' : string)
             (rest : list (option string)),
        faults w = None :: None :: None :: Some e :: Some e' :: rest ->
        find (hasId id) (webhooks w) = Some d ->
        wellTyped d ->
        String.eqb (Webhook.status d) "SENT" = false ->
        secretFor d w = Some secret ->
        fst (sendWebhook id w) = Normal tt
        /\ (exists d',
              find (hasId id) (webhooks (snd (sendWebhook id w))) = Some d'
              /\ d' = attempted (clock w) d
              /\ Webhook.attempts d' = Webhook.attempts d + 1
              /\ Webhook.lastAttempt d' = Some (clock w)
              /\ Webhook.status d' = "PENDING"%string)
        /\ exists later,
             trace (snd (sendWebhook id w)) =
               trace w ++ SavedWebhook (attempted (clock w) d)
                       :: Posted (deliveryRequest (clock w) secret d) :: later
             /\ posted later = [])
  /\ (forall (doc : Webhook.t) (w : World) (later : list Event),
        trace (snd (Webhook_save doc w)) = trace w ++ SavedWebhook doc :: later ->
        find (hasId (Webhook._id doc)) (webhooks (snd (Webhook_save doc w)))
        = Some doc)
  /\ (forall (id : ObjectId) (w : World),
        unposted w (snd (sendWebhook id w))
        \/ postedAfterSave id w (snd (sendWebhook id w)))
  /\ (forall (op : Operation) (w : World) (id : ObjectId) (a : Webhook.t),
        find (hasId id) (webhooks w) = Some a ->
        exists b, find (hasId id) (webhooks (perform op w)) = Some b
                  /\ Webhook.attempts a <= Webhook.attempts b).
Proof.
  split; [|split; [|split; [|split]]].
  - intros id w d secret Hf Hd Hty Hs Hsec. split.
    + now apply sendWebhook_attempt_trace.
    + now apply sendWebhook_stored_attempt with (secret := secret).
  - intros id w d secret e e' rest Hf Hd Hty Hs Hsec.
    destruct (sendWebhook_crash id w d secret e e' rest Hf Hd Hty Hs Hsec)
      as (w' & E & Hws & Htr).
    rewrite E. cbn [fst snd]. split; [reflexivity|]. split; [|exact Htr].
    exists (attempted (clock w) d). rewrite Hws.
    rewrite <- (find_hasId_id _ _ _ Hd).
    split; [|repeat split].
    exact (find_replaceDoc (attempted (clock w) d) d _ (find_hasId_self _ _ _ Hd)).
  - intros doc w later Htr.
    destruct (Webhook_save_writes doc w) as [(_ & Ht & _)|(_ & _ & Hfind & _)].
    + rewrite Ht in Htr.
      apply (f_equal (@List.length Event)) in Htr.
      rewrite length_app in Htr. cbn in Htr. lia.
    + exact Hfind.
  - apply sendWebhook_saves_before_posting.
  - intros op w id a Ha. eapply storeGrows_find; [apply perform_grows | exact Ha].
Qed.

(** C8, as amended.  [sendWebhook] returns normally on every input and
    under every fault script.  With the storage up: a rejected transmission
    that leaves the attempt counter below 5 is saved on the record as status
    FAILED with the error message; a missing secret is saved as FAILED with
    'Invalid webhook configuration'; a missing record is only logged.  The
    sweep throws exactly when its query meets a storage fault, with that
    fault's message; otherwise it runs the delivery of every selected
    document, none of which raises, and returns their number. *)
Theorem delivery_errors_are_not_raised :
  (forall (id : ObjectId) (w : World), fst (sendWebhook id w) = Normal tt)
  /\ (forall (id : ObjectId) (w : World) (d : Webhook.t) (secret msg : string),
        faults w = [] ->
        find (hasId id) (webhooks w) = Some d ->
        wellTyped d ->
        String.eqb (Webhook.status d) "SENT" = false ->
        secretFor d w = Some secret ->
        rejection (network w (deliveryRequest (clock w) secret d)) = Some msg ->
        Webhook.attempts d + 1 < maxRetries ->
        find (hasId id) (webhooks (snd (sendWebhook id w))) =
        Some (Webhook.set_errorMessage (Some msg)
                (Webhook.set_status "FAILED" (attempted (clock w) d))))
  /\ (forall (id : ObjectId) (w : World) (d : Webhook.t),
        faults w = [] ->
        find (hasId id) (webhooks w) = Some d ->
        wellTyped d ->
        String.eqb (Webhook.status d) "SENT" = false ->
        secretFor d w = None ->
        find (hasId id) (webhooks (snd (sendWebhook id w))) =
        Some (Webhook.set_errorMessage (Some "Invalid webhook configuration"%string)
                (Webhook.set_status "FAILED" d)))
  /\ (forall (id : ObjectId) (w : World),
        faults w = [] ->
        find (hasId id) (webhooks w) = None ->
        sendWebhook id w = (Normal tt, emit (Logged "error" "Webhook not found") w))
  /\ (forall (batchSize : option nat) (w : World) (e : string),
        fst (retryFailedWebhooks batchSize w) = Thrown e <->
        exists rest, faults w = Some e :: rest)
  /\ (forall (batchSize : option nat) (w : World) (n : nat),
        fst (retryFailedWebhooks batchSize w) = Normal n ->
        n = List.length (selection batchSize w)
        /\ snd (retryFailedWebhooks batchSize w) =
           snd (forEach (selection batchSize w) retryOne
                  (emit (Logged "info"
                           ("Retrying "
                            ++ decimal (Z.of_nat (List.length (selection batchSize w)))
                            ++ " failed webhooks")%string)
                        (set_faults (tl (faults w)) w))))
  /\ (forall (d : Webhook.t) (w : World), fst (retryOne d w) = Normal tt).
Proof.
  repeat apply conj.
  - apply sendWebhook_returns.
  - intros id w d secret msg Hf Hd Hty Hs Hsec Hrej Hlt.
    rewrite (sendWebhook_rejected id w d secret msg Hf Hd Hty Hs Hsec Hrej).
    unfold failureRecorded.
    destruct (maxRetries <=? Webhook.attempts d + 1) eqn:E;
      [apply Z.leb_le in E; lia|].
    cbn [snd webhooks emit set_webhooks inFlight].
    pose proof (find_hasId_id _ _ _ Hd) as Hid.
    pose proof (find_hasId_self _ _ _ Hd) as Hself.
    rewrite <- Hid.
    apply (find_replaceDoc
             (Webhook.set_errorMessage (Some msg)
                (Webhook.set_status "FAILED" (attempted (clock w) d)))
             (attempted (clock w) d)).
    apply (find_replaceDoc (attempted (clock w) d) d). exact Hself.
  - intros id w d Hf Hd Hty Hs Hsec.
    rewrite (sendWebhook_no_secret id w d Hf Hd Hty Hs Hsec).
    cbn [snd webhooks emit set_webhooks].
    rewrite <- (find_hasId_id _ _ _ Hd).
    apply (find_replaceDoc
             (Webhook.set_errorMessage (Some "Invalid webhook configuration"%string)
                (Webhook.set_status "FAILED" d)) d).
    exact (find_hasId_self _ _ _ Hd).
  - apply sendWebhook_missing.
  - intros batchSize w e. rewrite retryFailedWebhooks_run. split.
    + destruct (faults w) as [|[e'|] rest]; cbn [fst]; try discriminate.
      intros H. inversion H. now exists rest.
    + intros [rest ->]. reflexivity.
  - intros batchSize w n. rewrite retryFailedWebhooks_run.
    destruct (faults w) as [|[e'|] rest]; cbn [fst snd tl]; try discriminate;
      intros H; inversion H; split; reflexivity.
  - intros d w. destruct (retryOne_total d w) as [[] H]. exact H.
Qed.

(** C9.  Two delivery attempts made with the same secret for notifications
    with the same payload, in any two worlds, each post one request, and
    the signature headers of the two requests are equal; in each request the
    signature is the hex HMAC, under the secret, of the body that is
    transmitted. *)
Theorem signature_over_transmitted_body
    (id1 id2 : ObjectId) (w1 w2 : World) (d1 d2 : Webhook.t) (secret : string) :
  faults w1 = [] -> faults w2 = [] ->
  find (hasId id1) (webhooks w1) = Some d1 ->
  find (hasId id2) (webhooks w2) = Some d2 ->
  wellTyped d1 -> wellTyped d2 ->
  String.eqb (Webhook.status d1) "SENT" = false ->
  String.eqb (Webhook.status d2) "SENT" = false ->
  secretFor d1 w1 = Some secret ->
  secretFor d2 w2 = Some secret ->
  Webhook.payload d1 = Webhook.payload d2 ->
  exists r1 r2,
    posted (trace (snd (sendWebhook id1 w1))) = posted (trace w1) ++ [r1]
    /\ posted (trace (snd (sendWebhook id2 w2))) = posted (trace w2) ++ [r2]
    /\ X_MPESA_Connect_Signature (headers r1) = X_MPESA_Connect_Signature (headers r2)
    /\ X_MPESA_Connect_Signature (headers r1)
       = createHmac_sha256_hex secret (transmittedBody r1)
    /\ X_MPESA_Connect_Signature (headers r2)
       = createHmac_sha256_hex secret (transmittedBody r2).
Proof.
  intros Hf1 Hf2 Hd1 Hd2 Ht1 Ht2 Hs1 Hs2 Hk1 Hk2 Hp.
  destruct (sendWebhook_attempt_trace id1 w1 d1 secret Hf1 Hd1 Ht1 Hs1 Hk1)
    as (l1 & E1 & P1).
  destruct (sendWebhook_attempt_trace id2 w2 d2 secret Hf2 Hd2 Ht2 Hs2 Hk2)
    as (l2 & E2 & P2).
  exists (deliveryRequest (clock w1) secret d1), (deliveryRequest (clock w2) secret d2).
  rewrite E1, E2, !posted_app. cbn [posted]. rewrite P1, P2.
  repeat split. unfold deliveryRequest. cbn. now rewrite Hp.
Qed.

(** C10.  The reply of forgotPassword tells a registered address from an
    unregistered one when the save of the reset token fails.  In one and the
    same world, with the lookup answered and the next storage round trip
    failing: the request for the registered address, which alone reaches
    [user.save()], is answered with the error 500 'Error processing your
    request', and the request for the unregistered address with the success
    notice.  Only while the storage is up do both get the notice. *)
Theorem forgotPassword_reply_reveals_registration (w : World)
    (registered other : string) (u : User.t) :
  find (byEmail registered) (users w) = Some u ->
  find (byEmail other) (users w) = None ->
  (faults w = [] ->
   fst (forgotPassword registered w) = Normal resetNotice
   /\ fst (forgotPassword other w) = Normal resetNotice)
  /\ (forall (e : string) (rest : list (option string)),
        faults w = None :: Some e :: rest ->
        fst (forgotPassword registered w)
        = Normal (Boom 500 "Error processing your request")
        /\ fst (forgotPassword other w) = Normal resetNotice
        /\ fst (forgotPassword registered w) <> fst (forgotPassword other w)).
Proof.
  intros Hr Ho. split.
  - intros Hf. split.
    + eapply forgotPassword_registered; eauto.
    + now rewrite forgotPassword_unregistered.
  - intros e rest Hf.
    rewrite (forgotPassword_save_fails registered w u e rest Hf Hr).
    rewrite (forgotPassword_lookup_only other w (Some e :: rest) Hf Ho).
    repeat split. discriminate.
Qed.

(* ------------------------------------------------------------------ *)
(** * Further properties of the service *)

(** ** What a delivery may write *)

Lemma sameNotification_refl (a : Webhook.t) : sameNotification a a.
Proof. repeat split. Qed.

Lemma sameNotification_trans (a b c : Webhook.t) :
  sameNotification a b -> sameNotification b c -> sameNotification a c.
Proof.
  intros (A1 & A2 & A3 & A4 & A5 & A6) (B1 & B2 & B3 & B4 & B5 & B6).
  repeat split; congruence.
Qed.

Lemma frame_refl (S : list ObjectId) (a : Webhook.t) : frame S a a.
Proof. split; [apply sameNotification_refl | reflexivity]. Qed.

Lemma frame_trans (S : list ObjectId) (a b c : Webhook.t) :
  frame S a b -> frame S b c -> frame S a c.
Proof.
  intros [Hab Ha] [Hbc Hb]. split; [eapply sameNotification_trans; eauto|].
  intros Hn. pose proof (Ha Hn) as E. subst b. apply Hb. exact Hn.
Qed.

Lemma framed_refl (S : list ObjectId) (ws : list Webhook.t) : framed S ws ws.
Proof. induction ws; constructor; auto using frame_refl. Qed.

Lemma framed_trans (S : list ObjectId) (a b c : list Webhook.t) :
  framed S a b -> framed S b c -> framed S a c.
Proof.
  intros Hab. revert c. induction Hab as [|x y a b Hxy _ IH]; intros c Hbc.
  - inversion Hbc. constructor.
  - inversion Hbc as [|y' z b' c' Hyz Hrest]; subst.
    constructor; [eapply frame_trans; eauto | apply IH; assumption].
Qed.

Lemma framed_replaceDoc (S : list ObjectId) (d : Webhook.t) (ws : list Webhook.t) :
  held S d ws -> framed S ws (replaceDoc d ws).
Proof.
  intros (d0 & Hf & Hs & Hin).
  induction ws as [|x rest IH]; simpl in *; [constructor|].
  destruct (hasId (Webhook._id d) x) eqn:E.
  - inversion Hf; subst x. constructor; [|apply framed_refl].
    split; [exact Hs|]. intros Hn. exfalso. apply Hn.
    destruct Hs as (Hid & _). now rewrite Hid.
  - constructor; [apply frame_refl | now apply IH].
Qed.

Lemma held_replaceDoc (S : list ObjectId) (d : Webhook.t) (ws : list Webhook.t) :
  held S d ws -> held S d (replaceDoc d ws).
Proof.
  intros (d0 & Hf & Hs & Hin). exists d. repeat split; auto.
  eapply find_replaceDoc; eauto.
Qed.

Lemma schemaValid_replaceDoc (d : Webhook.t) (ws : list Webhook.t) :
  Webhook.validate d = None -> schemaValid ws -> schemaValid (replaceDoc d ws).
Proof.
  intros Hd H. induction H as [|x rest Hx Hrest IH]; simpl; [constructor|].
  destruct (hasId (Webhook._id d) x); constructor; auto.
Qed.

(** A save keeps an assertion [J] on the collection whenever replacing a
    stored document by a valid document in hand does. *)
Lemma keeps_Webhook_save_when (J : list Webhook.t -> Prop)
    (H : Webhook.t -> list Webhook.t -> Prop) (d : Webhook.t) :
  (forall ws, Webhook.validate d = None -> J ws -> H d ws ->
              J (replaceDoc d ws) /\ H d (replaceDoc d ws)) ->
  keeps (onWebhooks (fun ws => J ws /\ H d ws)) (Webhook_save d).
Proof.
  intros Hrep w [HJ HH]. unfold onWebhooks, Webhook_save in *.
  destruct (Webhook.validate d) eqn:V; [split; assumption|].
  unfold storage.
  destruct (faults w) as [|[e|] rest]; cbn [webhooks set_faults];
    try (split; assumption);
    (destruct (find _ (webhooks w)); cbn; [now apply Hrep | split; assumption]).
Qed.

(** [sendWebhook] keeps an assertion [J] on the collection whenever
    replacing a stored document by a valid variant of it does; [H] is what
    is known of the document in hand. *)
Lemma sendWebhook_keeps (J : list Webhook.t -> Prop)
    (H : Webhook.t -> list Webhook.t -> Prop) (id : ObjectId) :
  (forall ws d, J ws -> find (hasId id) ws = Some d -> H d ws) ->
  (forall d ws, Webhook.validate d = None -> J ws -> H d ws ->
                J (replaceDoc d ws) /\ H d (replaceDoc d ws)) ->
  (forall d d' ws, H d ws -> sameNotification d d' -> H d' ws) ->
  keeps (onWebhooks J) (sendWebhook id).
Proof.
  intros Hload Hrep Hvar.
  set (I0 := onWebhooks J).
  set (I := fun d => onWebhooks (fun ws => J ws /\ H d ws)).
  assert (HI0 : forall d w, I d w -> I0 w) by (intros d w [HJ _]; exact HJ).
  assert (Hsave : forall d, keeps (I d) (Webhook_save d))
    by (intros d; apply keeps_Webhook_save_when, Hrep).
  assert (Hsil : forall d A (m : Async A), silent m -> keeps (I d) m)
    by (intros d A m Hm; apply keeps_silent; exact Hm).
  assert (Hmove : forall d d' w, sameNotification d d' -> I d w -> I d' w).
  { intros d d' w Hs [HJ HH]. split; [exact HJ | eapply Hvar; eauto]. }
  assert (Hfind : triple I0 (Webhook_findById id)
            (fun c w => match c with
                        | Normal a => match a with Some d => I d w | None => I0 w end
                        | Thrown _ => I0 w
                        end)).
  { intros w Hw. unfold I0, I, onWebhooks, Webhook_findById, storage in *.
    destruct (faults w) as [|[e|] rest]; cbn; try assumption;
      (destruct (find (hasId id) (webhooks w)) as [d|] eqn:E; [|assumption];
       split; [assumption | eapply Hload; eauto]). }
  unfold sendWebhook. apply keeps_tryCatch.
  - eapply triple_bind; [exact Hfind|].
    intros [d|]; [|apply keeps_silent, silent_logger].
    destruct (String.eqb (Webhook.status d) "SENT").
    { apply keeps_relax with (P' := I d); [apply keeps_ret | auto | apply HI0]. }
    apply triple_bind_keeps;
      [apply Hsil, silent_User_findById_select_secret | apply HI0 |].
    intros user. destruct (webhookSecret user) as [secret|].
    + apply triple_bind_keeps; [apply Hsil, silent_Date_now | apply HI0 |].
      intros now.
      apply keeps_relax with (P' := I (attempted now d)); [| | apply HI0].
      * apply keeps_bind; [apply Hsave|]. intros _.
        apply keeps_bind; [apply Hsil, silent_Date_now|]. intros stamp.
        apply keeps_bind; [apply Hsil, silent_axios|]. intros response.
        apply keeps_bind; [|intros _; apply Hsil, silent_logger].
        intros w Hw.
        apply (Hmove (Webhook.set_response (Some response)
                        (Webhook.set_status "SENT" (attempted now d)))
                     (attempted now d)); [repeat split|].
        apply (Hsave (Webhook.set_response (Some response)
                        (Webhook.set_status "SENT" (attempted now d)))).
        revert Hw. apply Hmove. repeat split.
      * intros w. apply Hmove. repeat split.
    + apply keeps_relax with (P' := I d); [| auto | apply HI0].
      apply keeps_bind; [apply Hsil, silent_logger|]. intros _.
      intros w Hw.
      apply (Hmove (Webhook.set_errorMessage (Some "Invalid webhook configuration"%string)
                      (Webhook.set_status "FAILED" d)) d); [repeat split|].
      apply Hsave. revert Hw. apply Hmove. repeat split.
  - intros error. apply keeps_bind; [apply keeps_silent, silent_logger|]. intros _.
    apply keeps_tryCatch; [|intros e; apply keeps_silent, silent_logger].
    eapply triple_bind; [exact Hfind|].
    intros [d|]; [|apply keeps_ret].
    apply triple_bind with (R := fun a w => I a w).
    + intros w Hw.
      destruct (maxRetries <=? _); cbn [fst snd bind logger ret];
        refine (Hmove d _ w _ Hw); repeat split.
    + intros d'. apply keeps_relax with (P' := I d'); [apply Hsave | auto | apply HI0].
Qed.

Lemma sendWebhook_framed (S : list ObjectId) (ws0 : list Webhook.t) (id : ObjectId) :
  In id S -> keeps (onWebhooks (framed S ws0)) (sendWebhook id).
Proof.
  intros Hin. apply sendWebhook_keeps with (H := held S).
  - intros ws d _ Hf. exists d.
    rewrite (find_hasId_id _ _ _ Hf). repeat split; assumption.
  - intros d ws _ HJ HH. split.
    + eapply framed_trans; [exact HJ | now apply framed_replaceDoc].
    + now apply held_replaceDoc.
  - intros d d' ws (d0 & Hf & Hs & Hi) Hdd'.
    pose proof Hdd' as (Hid & _). exists d0. rewrite <- Hid.
    split; [exact Hf | split; [eapply sameNotification_trans; eauto | exact Hi]].
Qed.

Lemma sendWebhook_schemaValid (id : ObjectId) :
  keeps (onWebhooks schemaValid) (sendWebhook id).
Proof.
  apply sendWebhook_keeps with (H := fun _ _ => True); auto.
  intros d ws V HJ _. split; [now apply schemaValid_replaceDoc | exact I].
Qed.

Lemma keeps_Webhook_insert_schemaValid (d : Webhook.t) :
  keeps (onWebhooks schemaValid) (Webhook_insert d).
Proof.
  intros w Hw. unfold onWebhooks, schemaValid, Webhook_insert in *.
  destruct (Webhook.validate d) eqn:V; [assumption|].
  unfold storage.
  destruct (faults w) as [|[e|] rest]; cbn [webhooks set_faults]; try assumption;
    (destruct (find _ (webhooks w)); cbn; [assumption|];
     apply Forall_app; split; [assumption | now constructor]).
Qed.

Lemma preserved_schemaValid : preserved schemaValid.
Proof.
  split; intros;
    [apply keeps_Webhook_insert_schemaValid | apply sendWebhook_schemaValid].
Qed.

Lemma perform_schemaValid (op : Operation) (w : World) :
  schemaValid (webhooks w) -> schemaValid (webhooks (perform op w)).
Proof.
  intros Hw. destruct op; simpl.
  - now apply (sendWebhook_schemaValid webhookId w).
  - cut (keeps (onWebhooks schemaValid) (createWebhook webhookData));
      [intros K; exact (K w Hw)|].
    unfold createWebhook. apply keeps_tryCatch.
    + apply keeps_bind; [apply keeps_silent, silent_newObjectId|]. intros id.
      apply keeps_bind; [apply keeps_Webhook_insert_schemaValid|]. intros _.
      apply keeps_bind; [apply keeps_silent, silent_logger|]. intros _.
      apply keeps_bind; [apply keeps_silent, silent_detach|]. intros _.
      apply keeps_ret.
    + intros e. apply keeps_bind; [apply keeps_silent, silent_logger|]. intros _.
      apply keeps_throw.
  - cut (keeps (onWebhooks schemaValid) (retryFailedWebhooks batchSize));
      [intros K; exact (K w Hw)|].
    unfold retryFailedWebhooks. apply keeps_tryCatch.
    + apply keeps_bind; [apply keeps_silent, silent_Date_now|]. intros now.
      apply keeps_bind; [apply keeps_silent, silent_Webhook_find_limit|]. intros sel.
      apply keeps_bind; [apply keeps_silent, silent_logger|]. intros _.
      apply keeps_bind; [|intros _; apply keeps_ret].
      apply keeps_forEach. intros d.
      apply keeps_tryCatch; [apply sendWebhook_schemaValid|].
      intros e. apply keeps_silent, silent_logger.
    + intros e. apply keeps_bind; [apply keeps_silent, silent_logger|]. intros _.
      apply keeps_throw.
  - cut (keeps (onWebhooks schemaValid) (stkCallback payload));
      [intros K; exact (K w Hw)|].
    unfold stkCallback. apply keeps_tryCatch.
    + apply keeps_bind; [apply keeps_silent, silent_logger|]. intros _.
      apply keeps_bind.
      { destruct payload; [apply keeps_ret | apply keeps_throw]. }
      intros body. apply keeps_bind.
      { destruct body; [apply keeps_ret | apply keeps_throw]. }
      intros sc. apply keeps_bind.
      { destruct sc; [apply keeps_ret | apply keeps_throw]. }
      intros sc'. apply keeps_bind;
        [apply keeps_silent, silent_Transaction_findOne_stk|].
      intros [tx|].
      * apply keeps_bind; [apply keeps_silent, silent_Transaction_save|]. intros _.
        apply keeps_bind; [apply keeps_silent, silent_User_findById|]. intros user.
        apply keeps_bind; [|intros _; apply keeps_ret].
        destruct (stkEndpoint user); [|apply keeps_ret].
        apply keeps_bind; [apply keeps_silent, silent_newObjectId|]. intros id.
        apply keeps_bind; [apply keeps_Webhook_insert_schemaValid|]. intros _.
        apply keeps_silent, silent_detach.
      * apply keeps_bind; [apply keeps_silent, silent_logger|]. intros _.
        apply keeps_ret.
    + intros e. apply keeps_bind; [apply keeps_silent, silent_logger|]. intros _.
      apply keeps_ret.
  - exact (validation_keeps _ payload preserved_schemaValid w Hw).
  - exact (confirmation_keeps _ payload preserved_schemaValid w Hw).
  - exact (b2cResult_keeps _ payload preserved_schemaValid w Hw).
  - exact (b2cTimeout_keeps _ payload preserved_schemaValid w Hw).
Qed.

Lemma schemaValid_status (ws : list Webhook.t) (d : Webhook.t) :
  schemaValid ws -> In d ws ->
  In (Webhook.status d) Webhook.statusEnum
  /\ exists ty, Webhook.type d = Some ty /\ In ty Webhook.typeEnum.
Proof.
  intros H Hin. unfold schemaValid in H. rewrite Forall_forall in H.
  specialize (H d Hin). unfold Webhook.validate in H.
  destruct (Webhook.type d) as [ty|]; [|discriminate].
  destruct (Webhook.inEnum Webhook.typeEnum ty) eqn:T; [|discriminate].
  destruct (Webhook.inEnum Webhook.statusEnum (Webhook.status d)) eqn:E;
    [|discriminate].
  unfold Webhook.inEnum in *. apply existsb_exists in E, T.
  destruct E as (s & Hs & Es). destruct T as (t & Ht & Et).
  apply String.eqb_eq in Es, Et. subst. eauto.
Qed.

(** ** Steps that leave users, transactions and the clock alone *)

Lemma inert_ret {A} (a : A) : inert (ret a).
Proof. intros w. auto. Qed.

Lemma inert_throw {A} (e : string) : inert (@throw A e).
Proof. intros w. auto. Qed.

Lemma inert_bind {A B} (m : Async A) (k : A -> Async B) :
  inert m -> (forall a, inert (k a)) -> inert (bind m k).
Proof.
  intros Hm Hk w. unfold bind. destruct (Hm w) as (U & T & C).
  destruct (m w) as [[a|e] w1]; simpl in *; [|auto].
  destruct (Hk a w1) as (U1 & T1 & C1). repeat split; congruence.
Qed.

Lemma inert_tryCatch {A} (m : Async A) (h : string -> Async A) :
  inert m -> (forall e, inert (h e)) -> inert (tryCatch m h).
Proof.
  intros Hm Hh w. unfold tryCatch. destruct (Hm w) as (U & T & C).
  destruct (m w) as [[a|e] w1]; simpl in *; [auto|].
  destruct (Hh e w1) as (U1 & T1 & C1). repeat split; congruence.
Qed.

Lemma inert_forEach {A} (l : list A) (f : A -> Async unit) :
  (forall a, inert (f a)) -> inert (forEach l f).
Proof.
  intros Hf. induction l; simpl; [apply inert_ret | apply inert_bind; auto].
Qed.

Lemma inert_storage {A} (op : Async A) : inert op -> inert (storage op).
Proof.
  intros H w. unfold storage. destruct (faults w) as [|[e|] rest];
    [apply H | auto | apply (H (set_faults rest w))].
Qed.

Lemma inert_logger (level msg : string) : inert (logger level msg).
Proof. intros w. auto. Qed.

Lemma inert_Date_now : inert Date_now.
Proof. intros w. auto. Qed.

Lemma inert_axios (req : Request) : inert (axios req).
Proof.
  intros w. unfold axios.
  destruct (network w req) as [st body|msg]; [destruct (_ && _)|]; auto.
Qed.

Lemma inert_Webhook_findById (id : ObjectId) : inert (Webhook_findById id).
Proof. apply inert_storage. intros w. auto. Qed.

Lemma inert_Webhook_find_limit (q : Webhook.t -> bool) (n : nat) :
  inert (Webhook_find_limit q n).
Proof. apply inert_storage. intros w. auto. Qed.

Lemma inert_User_findById_select_secret (id : ObjectId) :
  inert (User_findById_select_secret id).
Proof. apply inert_storage. intros w. auto. Qed.

Lemma inert_Webhook_save (d : Webhook.t) : inert (Webhook_save d).
Proof.
  unfold Webhook_save. destruct (Webhook.validate d); [apply inert_throw|].
  apply inert_storage. intros w. destruct (find _ _); auto.
Qed.

Lemma sendWebhook_inert (id : ObjectId) : inert (sendWebhook id).
Proof.
  unfold sendWebhook. apply inert_tryCatch.
  - apply inert_bind; [apply inert_Webhook_findById|].
    intros [d|]; [|apply inert_logger].
    destruct (String.eqb _ _); [apply inert_ret|].
    apply inert_bind; [apply inert_User_findById_select_secret|]. intros user.
    destruct (webhookSecret user).
    + apply inert_bind; [apply inert_Date_now|]. intros now.
      apply inert_bind; [apply inert_Webhook_save|]. intros _.
      apply inert_bind; [apply inert_Date_now|]. intros stamp.
      apply inert_bind; [apply inert_axios|]. intros response.
      apply inert_bind; [apply inert_Webhook_save | intros _; apply inert_logger].
    + apply inert_bind; [apply inert_logger | intros _; apply inert_Webhook_save].
  - intros e. apply inert_bind; [apply inert_logger|]. intros _.
    apply inert_tryCatch; [|intros e'; apply inert_logger].
    apply inert_bind; [apply inert_Webhook_findById|].
    intros [d|]; [|apply inert_ret].
    apply inert_bind; [|intros d'; apply inert_Webhook_save].
    destruct (maxRetries <=? _); [|apply inert_ret].
    apply inert_bind; [apply inert_logger | intros _; apply inert_ret].
Qed.

Lemma retryFailedWebhooks_inert (batchSize : option nat) :
  inert (retryFailedWebhooks batchSize).
Proof.
  unfold retryFailedWebhooks. apply inert_tryCatch.
  - apply inert_bind; [apply inert_Date_now|]. intros now.
    apply inert_bind; [apply inert_Webhook_find_limit|]. intros sel.
    apply inert_bind; [apply inert_logger|]. intros _.
    apply inert_bind; [|intros _; apply inert_ret].
    apply inert_forEach. intros d.
    apply inert_tryCatch; [apply sendWebhook_inert | intros e; apply inert_logger].
  - intros e. apply inert_bind; [apply inert_logger | intros _; apply inert_throw].
Qed.

Lemma forEach_retryOne_framed (S : list ObjectId) (ws0 : list Webhook.t)
    (sel : list Webhook.t) :
  (forall d, In d sel -> In (Webhook._id d) S) ->
  keeps (onWebhooks (framed S ws0)) (forEach sel retryOne).
Proof.
  induction sel as [|d sel IH]; intros Hin; simpl; [apply keeps_ret|].
  apply keeps_bind.
  - apply keeps_tryCatch;
      [apply sendWebhook_framed, Hin; now left
      | intros e; apply keeps_silent, silent_logger].
  - intros _. apply IH. intros x Hx. apply Hin. now right.
Qed.

(* ------------------------------------------------------------------ *)
(** * Further properties: delivery and sweep *)

(** X1.  [createWebhook] never stores anything: the document it builds has
    no [type], which the schema requires, so whatever the input and the
    fault script the save is refused, the error is logged and rethrown, the
    collections are as before and no delivery is scheduled. *)
Theorem createWebhook_always_refused (webhookData : WebhookData.t) (w : World) :
  createWebhook webhookData w =
  (Thrown "Webhook validation failed: type: Path `type` is required."%string,
   emit (Logged "error" "Error creating webhook")
        (set_nextObjectId (S (nextObjectId w)) w))
  /\ sameStores w (snd (createWebhook webhookData w))
  /\ trace (snd (createWebhook webhookData w))
     = trace w ++ [Logged "error" "Error creating webhook"].
Proof. repeat split. Qed.

(** X2.  Under every fault script [sendWebhook] writes at most the
    notification it is called for, and of that one only the delivery fields:
    no notification is added or removed, every other notification is left
    exactly as it was, the id, owner, transaction, type, payload and
    destination of the addressed one are unchanged, and users and
    transactions are not written. *)
Theorem delivery_writes_one_notification (id : ObjectId) (w : World) :
  framed [id] (webhooks w) (webhooks (snd (sendWebhook id w)))
  /\ users (snd (sendWebhook id w)) = users w
  /\ transactions (snd (sendWebhook id w)) = transactions w.
Proof.
  split.
  - apply (sendWebhook_framed [id] (webhooks w) id); [now left | apply framed_refl].
  - destruct (sendWebhook_inert id w) as (U & T & _). auto.
Qed.

(** X3.  Under every fault script a sweep writes only notifications it
    selected, and of those only the delivery fields: the collection keeps
    its documents one for one, every notification outside the selection is
    left exactly as it was, and users and transactions are not written. *)
Theorem sweep_writes_only_its_selection (batchSize : option nat) (w : World) :
  framed (map Webhook._id (selection batchSize w))
         (webhooks w) (webhooks (snd (retryFailedWebhooks batchSize w)))
  /\ users (snd (retryFailedWebhooks batchSize w)) = users w
  /\ transactions (snd (retryFailedWebhooks batchSize w)) = transactions w.
Proof.
  split.
  - rewrite retryFailedWebhooks_run.
    destruct (faults w) as [|[e|] rest]; cbn [snd tl];
      try apply framed_refl;
      (apply (forEach_retryOne_framed (map Webhook._id (selection batchSize w))
                (webhooks w) (selection batchSize w));
       [intros d Hd; now apply in_map | apply framed_refl]).
  - destruct (retryFailedWebhooks_inert batchSize w) as (U & T & _). auto.
Qed.

(** X4.  No operation of the subsystem, under any fault script, stores a
    notification that violates the schema: if every stored notification has
    a declared type and status before, so it is after; in particular no
    operation ever stores the status FAILED_PERMANENT. *)
Theorem operations_keep_the_schema (op : Operation) (w : World) :
  schemaValid (webhooks w) ->
  schemaValid (webhooks (perform op w))
  /\ forall d, In d (webhooks (perform op w)) ->
       In (Webhook.status d) Webhook.statusEnum
       /\ Webhook.status d <> "FAILED_PERMANENT"%string.
Proof.
  intros Hw. pose proof (perform_schemaValid op w Hw) as Hv. split; [exact Hv|].
  intros d Hd. destruct (schemaValid_status _ d Hv Hd) as [Hs _].
  split; [exact Hs|]. intros E. rewrite E in Hs. simpl in Hs.
  repeat (destruct Hs as [Hs|Hs]; [discriminate|]). exact Hs.
Qed.

(** X5.  With the storage up, an attempt the endpoint answers with a 2xx
    status leaves the notification SENT with the counter one higher, the
    last-attempt time set and the response stored; exactly one request went
    out; and delivering the same notification again changes nothing. *)
Theorem accepted_delivery_is_final (id : ObjectId) (w : World) (d : Webhook.t)
    (secret : string) (st : Z) (body : string) :
  faults w = [] ->
  find (hasId id) (webhooks w) = Some d ->
  wellTyped d ->
  String.eqb (Webhook.status d) "SENT" = false ->
  secretFor d w = Some secret ->
  network w (deliveryRequest (clock w) secret d) = Replied st body ->
  (200 <=? st) && (st <? 300) = true ->
  let w' := snd (sendWebhook id w) in
  find (hasId id) (webhooks w')
  = Some (Webhook.mk (Webhook._id d) (Webhook.userId d) (Webhook.transactionId d)
            (Webhook.type d) "SENT" (Webhook.payload d) (Webhook.destination d)
            (Webhook.attempts d + 1) (Some (clock w)) (Some (st, body))
            (Webhook.errorMessage d))
  /\ posted (trace w') = posted (trace w) ++ [deliveryRequest (clock w) secret d]
  /\ sendWebhook id w' = (Normal tt, w').
Proof.
  intros Hf Hd Hty Hs Hsec Hnet Hok w'. subst w'.
  pose proof (find_hasId_id _ _ _ Hd) as Hid.
  pose proof (find_hasId_self _ _ _ Hd) as Hself.
  rewrite (sendWebhook_delivered id w d secret st body Hf Hd Hty Hs Hsec Hnet Hok).
  cbn [snd].
  set (d2 := Webhook.set_response (Some (st, body))
               (Webhook.set_status "SENT" (attempted (clock w) d))).
  assert (Hfound :
    find (hasId id)
         (replaceDoc d2 (replaceDoc (attempted (clock w) d) (webhooks w))) = Some d2).
  { rewrite <- Hid. apply (find_replaceDoc d2 (attempted (clock w) d)).
    apply (find_replaceDoc (attempted (clock w) d) d). exact Hself. }
  split; [exact Hfound|]. split.
  - unfold inFlight. cbn [trace emit set_webhooks].
    rewrite !posted_app. cbn [posted]. now rewrite !app_nil_r.
  - apply (sendWebhook_sent id _ d2); [exact Hf | exact Hfound | reflexivity].
Qed.

(** X6.  With the storage up, after a rejected attempt that leaves the
    counter below 5 the notification is FAILED with its last attempt stamped
    now, and a sweep running at time [later] matches it exactly when more
    than five minutes have passed since the attempt. *)
Theorem failed_attempt_cools_down (id : ObjectId) (w : World) (d : Webhook.t)
    (secret msg : string) :
  faults w = [] ->
  find (hasId id) (webhooks w) = Some d ->
  wellTyped d ->
  String.eqb (Webhook.status d) "SENT" = false ->
  secretFor d w = Some secret ->
  rejection (network w (deliveryRequest (clock w) secret d)) = Some msg ->
  Webhook.attempts d + 1 < maxRetries ->
  exists d',
    find (hasId id) (webhooks (snd (sendWebhook id w))) = Some d'
    /\ Webhook.status d' = "FAILED"%string
    /\ Webhook.lastAttempt d' = Some (clock w)
    /\ Webhook.attempts d' = Webhook.attempts d + 1
    /\ forall later, retryQuery later d' = true <-> 5 * 60 * 1000 < later - clock w.
Proof.
  intros Hf Hd Hty Hs Hsec Hrej Hlt.
  exists (Webhook.set_errorMessage (Some msg)
            (Webhook.set_status "FAILED" (attempted (clock w) d))).
  split.
  - rewrite (sendWebhook_rejected id w d secret msg Hf Hd Hty Hs Hsec Hrej).
    unfold failureRecorded.
    destruct (maxRetries <=? Webhook.attempts d + 1) eqn:E;
      [apply Z.leb_le in E; lia|].
    cbn [snd webhooks emit set_webhooks inFlight].
    rewrite <- (find_hasId_id _ _ _ Hd).
    apply (find_replaceDoc
             (Webhook.set_errorMessage (Some msg)
                (Webhook.set_status "FAILED" (attempted (clock w) d)))
             (attempted (clock w) d)).
    apply (find_replaceDoc (attempted (clock w) d) d).
    exact (find_hasId_self _ _ _ Hd).
  - repeat split.
    + unfold retryQuery. cbn. intros H. apply andb_prop in H. destruct H as [_ H].
      apply Z.ltb_lt in H. lia.
    + intros H. unfold retryQuery. cbn. unfold maxRetries in Hlt.
      apply andb_true_intro. split; [apply Z.ltb_lt | apply Z.ltb_lt]; lia.
Qed.

(* ------------------------------------------------------------------ *)
(** * Further properties: the STK callback *)

Lemma extractMetadata_sameButReceipt (sc : Callback.StkCallback) (tx : Transaction.t) :
  sameButReceipt tx (extractMetadata sc tx).
Proof.
  unfold extractMetadata, Transaction.assign_mpesaTimestamp.
  repeat branch; repeat split.
Qed.

Lemma extractMetadata_validationError (sc : Callback.StkCallback)
    (tx : Transaction.t) :
  Transaction.validationError (extractMetadata sc tx)
  = match transactionDate sc with
    | Some value =>
      match Date_parse (dateText value) with
      | Some _ => Transaction.validationError tx
      | None => Some Transaction.invalidDate
      end
    | None => Transaction.validationError tx
    end.
Proof.
  unfold extractMetadata, transactionDate, Transaction.assign_mpesaTimestamp,
    dateText.
  cbv zeta. repeat branch; reflexivity.
Qed.

Lemma updatedTransaction_validationError (payload : option Callback.t)
    (sc : Callback.StkCallback) (tx : Transaction.t) :
  Transaction.validationError (updatedTransaction payload sc tx)
  = if refused sc then Some Transaction.invalidDate else None.
Proof.
  unfold updatedTransaction, applyResultCode, refused.
  destruct (Callback.ResultCode sc) as [[| |]|]; try reflexivity.
  rewrite extractMetadata_validationError.
  destruct (transactionDate sc) as [value|]; [|reflexivity].
  destruct (Date_parse (dateText value)); reflexivity.
Qed.

Lemma updatedTransaction_fields (payload : option Callback.t)
    (sc : Callback.StkCallback) (tx : Transaction.t) :
  let tx' := updatedTransaction payload sc tx in
  Transaction._id tx' = Transaction._id tx
  /\ Transaction.userId tx' = Transaction.userId tx
  /\ Transaction.type tx' = Transaction.type tx
  /\ Transaction.amount tx' = Transaction.amount tx
  /\ Transaction.phoneNumber tx' = Transaction.phoneNumber tx
  /\ Transaction.checkoutRequestId tx' = Transaction.checkoutRequestId tx
  /\ Transaction.resultCode tx' = Callback.ResultCode sc
  /\ Transaction.resultDesc tx' = Callback.ResultDesc sc
  /\ Transaction.callbackData tx' = option_map Transaction.ofStk payload
  /\ Transaction.status tx' =
     match Callback.ResultCode sc with
     | Some 0 => "COMPLETED"
     | _ => "FAILED"
     end%string.
Proof.
  unfold updatedTransaction, applyResultCode.
  destruct (Callback.ResultCode sc) as [[| |]|] eqn:E; try (cbn; repeat split; fail).
  match goal with |- context [extractMetadata sc ?t] =>
    destruct (extractMetadata_sameButReceipt sc t)
      as (H1 & H2 & H3 & H4 & H5 & H6 & H7 & H8 & H9 & H10 & _)
  end.
  cbn. rewrite H1, H2, H3, H4, H5, H6, H7, H8, H9, H10. cbn. repeat split.
Qed.

Lemma updatedTransaction_valid (payload : option Callback.t)
    (sc : Callback.StkCallback) (tx : Transaction.t) :
  Transaction.type tx = "STK"%string ->
  Transaction_validate (updatedTransaction payload sc tx)
  = if refused sc then Some Transaction.invalidDate else None.
Proof.
  intros Hty.
  destruct (updatedTransaction_fields payload sc tx)
    as (_ & _ & H3 & _ & _ & _ & _ & _ & _ & H10).
  unfold Transaction_validate.
  rewrite updatedTransaction_validationError, H3, Hty, H10.
  destruct (refused sc); [reflexivity|].
  destruct (Callback.ResultCode sc) as [[| |]|]; reflexivity.
Qed.

Lemma resolve_inv (payload : option Callback.t) (w : World) (tx : Transaction.t) :
  resolve payload w = Some tx ->
  exists sc, callbackOf payload = Some sc
             /\ In tx (transactions w)
             /\ Transaction.checkoutRequestId tx = Callback.CheckoutRequestID sc
             /\ Transaction.type tx = "STK"%string.
Proof.
  unfold resolve. destruct (callbackOf payload) as [sc|]; [|discriminate].
  intros H. apply find_some in H. destruct H as [Hin H].
  apply andb_prop in H. destruct H as [Hc Ht]. apply String.eqb_eq in Ht.
  exists sc. repeat split; auto.
  unfold optStringEqb in Hc.
  destruct (Transaction.checkoutRequestId tx) as [a|],
           (Callback.CheckoutRequestID sc) as [b|]; try discriminate; auto.
  apply String.eqb_eq in Hc. now subst.
Qed.

(** The run of stkCallback up to [transaction.save()], for a callback that
    resolves, with the storage up. *)
Lemma stkCallback_to_save (payload : option Callback.t) (w : World)
    (sc : Callback.StkCallback) (tx : Transaction.t) :
  faults w = [] ->
  callbackOf payload = Some sc ->
  resolve payload w = Some tx ->
  stkCallback payload w
  = tryCatch
      (let transaction := updatedTransaction payload sc tx in
       Transaction_save transaction ;;
       user <- User_findById (Transaction.userId transaction) ;;
       match stkEndpoint user with
       | Some destination =>
         id <- newObjectId ;;
         let webhook :=
           Webhook.mk id (Transaction.userId transaction)
                      (Some (Transaction._id transaction)) (Some "STK"%string)
                      "PENDING"
                      (stkPayload (Callback.CheckoutRequestID sc) transaction)
                      destination 0 None None None in
         Webhook_insert webhook ;;
         detach (Webhook._id webhook)
       | None => ret tt
       end ;;
       ret success)
      (fun error =>
         logger "error" "Error in stkCallback handler" ;;
         ret success)
      (emit (Logged "info" "STK callback received") w).
Proof.
  intros Hf Hc Hr.
  unfold resolve in Hr. rewrite Hc in Hr.
  destruct payload as [[[[[sc0|]]|]]|]; try discriminate.
  cbn in Hc. inversion Hc; subst sc0.
  unfold stkCallback, tryCatch. unfold bind at 1. unfold logger at 1.
  unfold bind at 1. cbn [ret Callback.Body Callback.stkCallback].
  unfold bind at 1. cbn [ret]. unfold bind at 1. cbn [ret].
  unfold bind at 1. unfold Transaction_findOne_stk.
  rewrite storage_up by (cbn; exact Hf). cbn [transactions emit]. rewrite Hr.
  reflexivity.
Qed.

(** What stkCallback does for a callback that resolves and is not refused,
    with the storage up. *)
Lemma stkCallback_resolved (payload : option Callback.t) (w : World)
    (sc : Callback.StkCallback) (tx : Transaction.t) :
  faults w = [] ->
  callbackOf payload = Some sc ->
  resolve payload w = Some tx ->
  refused sc = false ->
  stkCallback payload w = (Normal success, afterCallback payload sc tx w).
Proof.
  intros Hf Hc Hr Hok.
  rewrite (stkCallback_to_save payload w sc tx Hf Hc Hr). unfold afterCallback.
  set (tx' := updatedTransaction payload sc tx).
  set (w1 := set_transactions (storeTransaction tx' (transactions w))
               (emit (Logged "info" "STK callback received") w)).
  set (id := nextObjectId w).
  destruct (resolve_inv payload w tx Hr) as (sc' & Hc' & Hin & Hcid & Hty).
  rewrite Hc in Hc'. inversion Hc'; subst sc'. clear Hc'.
  pose proof (updatedTransaction_valid payload sc tx Hty) as Hval.
  rewrite Hok in Hval.
  destruct (updatedTransaction_fields payload sc tx)
    as (Hid & Huid & _).
  fold tx' in Hval, Hid, Huid.
  assert (Hstored : exists t0, find (txHasId (Transaction._id tx')) (transactions w) = Some t0).
  { destruct (find (txHasId (Transaction._id tx')) (transactions w)) as [t0|] eqn:E;
      [eauto|].
    pose proof (find_none _ _ E _ Hin) as Hn. unfold txHasId in Hn.
    rewrite Hid, Nat.eqb_refl in Hn. discriminate. }
  destruct Hstored as [t0 Hstored].
  cbv zeta. unfold tryCatch.
  unfold bind at 1. unfold Transaction_save. rewrite Hval.
  rewrite storage_up by (cbn; exact Hf). cbn [transactions emit]. rewrite Hstored.
  fold (storeTransaction tx' (transactions w)). fold w1.
  unfold bind at 1. unfold User_findById.
  rewrite storage_up by (cbn; exact Hf).
  change (users w1) with (users w). unfold stkNotification. rewrite ?Huid.
  fold (endpointFor tx w).
  destruct (endpointFor tx w) as [destination|]; [|reflexivity].
  unfold bind, newObjectId, Webhook_insert, detach, ret, logger.
  change (Webhook.validate _) with (@None string).
  cbv iota beta.
  rewrite storage_up by (cbn; exact Hf).
  change (nextObjectId w1) with id.
  cbn [webhooks set_nextObjectId set_transactions emit Webhook._id].
  change (webhooks w1) with (webhooks w).
  destruct (find (hasId id) (webhooks w)); reflexivity.
Qed.

(** What stkCallback does for a callback that resolves and is refused: the
    save throws before any round trip, the handler logs and acknowledges. *)
Lemma stkCallback_refused (payload : option Callback.t) (w : World)
    (sc : Callback.StkCallback) (tx : Transaction.t) :
  faults w = [] ->
  callbackOf payload = Some sc ->
  resolve payload w = Some tx ->
  refused sc = true ->
  stkCallback payload w
  = (Normal success,
     emit (Logged "error" "Error in stkCallback handler")
       (emit (Logged "info" "STK callback received") w)).
Proof.
  intros Hf Hc Hr Hno.
  rewrite (stkCallback_to_save payload w sc tx Hf Hc Hr).
  destruct (resolve_inv payload w tx Hr) as (_ & _ & _ & _ & Hty).
  pose proof (updatedTransaction_valid payload sc tx Hty) as Hval.
  rewrite Hno in Hval.
  cbv zeta. unfold tryCatch. unfold bind at 1. unfold Transaction_save.
  rewrite Hval. reflexivity.
Qed.

Lemma afterCallback_facts (payload : option Callback.t)
    (sc : Callback.StkCallback) (tx : Transaction.t) (w : World) :
  let w' := afterCallback payload sc tx w in
  transactions w'
  = storeTransaction (updatedTransaction payload sc tx) (transactions w)
  /\ users w' = users w
  /\ faults w' = faults w
  /\ clock w' = clock w
  /\ network w' = network w.
Proof.
  unfold afterCallback.
  destruct (endpointFor tx w);
    [destruct (find (hasId (nextObjectId w)) (webhooks w))|]; repeat split.
Qed.

Lemma storeTransaction_only (tx' : Transaction.t) (ts : list Transaction.t) :
  onlyTransaction (Transaction._id tx') ts (storeTransaction tx' ts).
Proof.
  unfold onlyTransaction, storeTransaction.
  induction ts as [|x rest IH]; simpl; constructor; auto.
  unfold txHasId. destruct (Nat.eqb (Transaction._id x) (Transaction._id tx')) eqn:E.
  - apply Nat.eqb_eq in E. split; [now symmetry|]. intros Hn. now elim Hn.
  - split; reflexivity.
Qed.

Lemma find_storeTransaction (tx' t0 : Transaction.t) (ts : list Transaction.t) :
  find (txHasId (Transaction._id tx')) ts = Some t0 ->
  find (txHasId (Transaction._id tx')) (storeTransaction tx' ts) = Some tx'.
Proof.
  unfold storeTransaction.
  induction ts as [|x rest IH]; simpl; [discriminate|].
  destruct (txHasId (Transaction._id tx') x) eqn:E; intros H.
  - simpl. unfold txHasId at 1. now rewrite Nat.eqb_refl.
  - simpl. rewrite E. auto.
Qed.

Lemma find_hasId_last (id : ObjectId) (ws : list Webhook.t) (d : Webhook.t) :
  find (hasId id) ws = None ->
  Webhook._id d = id ->
  find (hasId id) (ws ++ [d]) = Some d.
Proof.
  intros Hn Hid. induction ws as [|x rest IH]; simpl in *.
  - unfold hasId. now rewrite Hid, Nat.eqb_refl.
  - destruct (hasId id x); [discriminate|auto].
Qed.

(** X7.  With the storage up, a callback that resolves to a stored STK
    transaction saves that transaction with the callback's result code,
    description and body, status COMPLETED for code 0 and FAILED for every
    other code; identity, owner, type, amount, phone number and checkout
    id stay as they were; every other transaction and every user is left
    as it was.  The one exception is a callback that reports success with a
    TransactionDate that [new Date] turns into an Invalid Date: the
    assignment to the Date path is refused, [save()] rejects the document,
    and the handler only logs and acknowledges; the transaction keeps its
    stored status and no notification is queued. *)
Theorem callback_updates_its_transaction (payload : option Callback.t)
    (w : World) (sc : Callback.StkCallback) (tx : Transaction.t) :
  faults w = [] ->
  callbackOf payload = Some sc ->
  resolve payload w = Some tx ->
  let w' := snd (stkCallback payload w) in
  if refused sc then
    transactions w' = transactions w
    /\ webhooks w' = webhooks w
    /\ users w' = users w
    /\ trace w' = trace w ++ [Logged "info" "STK callback received";
                              Logged "error" "Error in stkCallback handler"]
  else
    exists tx',
      find (txHasId (Transaction._id tx)) (transactions w') = Some tx'
      /\ onlyTransaction (Transaction._id tx) (transactions w) (transactions w')
      /\ users w' = users w
      /\ Transaction.status tx' = callbackStatus (Callback.ResultCode sc)
      /\ Transaction.resultCode tx' = Callback.ResultCode sc
      /\ Transaction.resultDesc tx' = Callback.ResultDesc sc
      /\ Transaction.callbackData tx' = option_map Transaction.ofStk payload
      /\ Transaction.validationError tx' = None
      /\ Transaction._id tx' = Transaction._id tx
      /\ Transaction.userId tx' = Transaction.userId tx
      /\ Transaction.type tx' = Transaction.type tx
      /\ Transaction.amount tx' = Transaction.amount tx
      /\ Transaction.phoneNumber tx' = Transaction.phoneNumber tx
      /\ Transaction.checkoutRequestId tx' = Transaction.checkoutRequestId tx.
Proof.
  intros Hf Hc Hr w'. subst w'.
  destruct (refused sc) eqn:Hrefused.
  { rewrite (stkCallback_refused payload w sc tx Hf Hc Hr Hrefused).
    cbn [snd transactions webhooks users trace emit].
    repeat split. now rewrite <- app_assoc. }
  rewrite (stkCallback_resolved payload w sc tx Hf Hc Hr Hrefused). cbn [snd].
  set (tx' := updatedTransaction payload sc tx).
  destruct (updatedTransaction_fields payload sc tx)
    as (H1 & H2 & H3 & H4 & H5 & H6 & H7 & H8 & H9 & H10).
  pose proof (updatedTransaction_validationError payload sc tx) as H11.
  rewrite Hrefused in H11.
  fold tx' in H1, H2, H3, H4, H5, H6, H7, H8, H9, H10, H11.
  destruct (resolve_inv payload w tx Hr) as (_ & _ & Hin & _ & _).
  assert (Hstored : exists t0,
            find (txHasId (Transaction._id tx')) (transactions w) = Some t0).
  { destruct (find (txHasId (Transaction._id tx')) (transactions w)) as [t0|] eqn:E;
      [eauto|].
    pose proof (find_none _ _ E _ Hin) as Hn. unfold txHasId in Hn.
    rewrite H1, Nat.eqb_refl in Hn. discriminate. }
  destruct Hstored as [t0 Hstored].
  destruct (afterCallback_facts payload sc tx w) as (Hts & Hus & _).
  fold tx' in Hts. rewrite Hts, Hus.
  exists tx'. split.
  { rewrite <- H1. exact (find_storeTransaction tx' t0 _ Hstored). }
  split.
  { rewrite <- H1. apply storeTransaction_only. }
  repeat split; assumption.
Qed.

(** X8.  With the storage up and a fresh identifier, a resolved callback
    that is not refused for its date and whose owner has an STK endpoint
    appends exactly one notification: PENDING, no attempt made, addressed to
    that endpoint, carrying the saved status, result code and amount; its
    delivery is detached, and the handler itself posts nothing.  Without an
    endpoint nothing is queued. *)
Theorem callback_queues_one_notification (payload : option Callback.t)
    (w : World) (sc : Callback.StkCallback) (tx : Transaction.t) :
  faults w = [] ->
  callbackOf payload = Some sc ->
  resolve payload w = Some tx ->
  refused sc = false ->
  find (hasId (nextObjectId w)) (webhooks w) = None ->
  let w' := snd (stkCallback payload w) in
  match endpointFor tx w with
  | Some destination =>
    exists n,
      webhooks w' = webhooks w ++ [n]
      /\ trace w' = trace w ++ [Logged "info" "STK callback received";
                                SavedWebhook n; Detached (nextObjectId w)]
      /\ Webhook._id n = nextObjectId w
      /\ Webhook.userId n = Transaction.userId tx
      /\ Webhook.transactionId n = Some (Transaction._id tx)
      /\ Webhook.type n = Some "STK"%string
      /\ Webhook.status n = "PENDING"%string
      /\ Webhook.attempts n = 0
      /\ Webhook.lastAttempt n = None
      /\ Webhook.destination n = destination
      /\ In ("status"%string, JsString (callbackStatus (Callback.ResultCode sc)))
            (Webhook.payload n)
      /\ In ("resultCode"%string, optJs JsNumber (Callback.ResultCode sc))
            (Webhook.payload n)
      /\ In ("amount"%string, JsNumber (Transaction.amount tx)) (Webhook.payload n)
  | None =>
    webhooks w' = webhooks w
    /\ trace w' = trace w ++ [Logged "info" "STK callback received"]
  end.
Proof.
  intros Hf Hc Hr Hok Hfresh w'. subst w'.
  rewrite (stkCallback_resolved payload w sc tx Hf Hc Hr Hok). cbn [snd].
  unfold afterCallback. rewrite Hfresh.
  destruct (updatedTransaction_fields payload sc tx)
    as (H1 & H2 & H3 & H4 & H5 & H6 & H7 & H8 & H9 & H10).
  destruct (endpointFor tx w) as [destination|]; [|split; reflexivity].
  exists (stkNotification (nextObjectId w) destination sc
            (updatedTransaction payload sc tx)).
  split; [reflexivity|]. split.
  { cbn [trace emit set_webhooks set_nextObjectId set_transactions].
    now rewrite <- !app_assoc. }
  unfold stkNotification, stkPayload.
  cbn [Webhook._id Webhook.userId Webhook.transactionId Webhook.type
       Webhook.status Webhook.attempts Webhook.lastAttempt Webhook.destination
       Webhook.payload].
  rewrite H1, H2, H4, H7, H10. unfold callbackStatus.
  repeat split; cbn; auto 20.
Qed.

(** X9.  From the callback to the client: when a resolved callback, not
    refused for its date, has queued its notification and the detached
    delivery then runs against an endpoint that answers with a 2xx status,
    the notification ends SENT after one attempt with the reply stored, and
    the one request that went out is addressed to the owner's STK
    endpoint. *)
Theorem callback_notification_is_delivered (payload : option Callback.t)
    (w : World) (sc : Callback.StkCallback) (tx : Transaction.t)
    (destination secret : string) (st : Z) (body : string) :
  faults w = [] ->
  callbackOf payload = Some sc ->
  resolve payload w = Some tx ->
  refused sc = false ->
  find (hasId (nextObjectId w)) (webhooks w) = None ->
  endpointFor tx w = Some destination ->
  let id := nextObjectId w in
  let n := stkNotification id destination sc (updatedTransaction payload sc tx) in
  secretFor n w = Some secret ->
  network w (deliveryRequest (clock w) secret n) = Replied st body ->
  (200 <=? st) && (st <? 300) = true ->
  let w1 := snd (stkCallback payload w) in
  let w2 := snd (sendWebhook id w1) in
  find (hasId id) (webhooks w1) = Some n
  /\ find (hasId id) (webhooks w2)
     = Some (Webhook.set_response (Some (st, body))
               (Webhook.set_status "SENT"
                  (Webhook.set_lastAttempt (Some (clock w))
                     (Webhook.set_attempts 1 n))))
  /\ posted (trace w2) = posted (trace w) ++ [deliveryRequest (clock w) secret n]
  /\ url (deliveryRequest (clock w) secret n) = destination.
Proof.
  intros Hf Hc Hr Hok Hfresh Hdest id n Hsec Hnet Hnet_ok w1 w2. subst w1 w2.
  rewrite (stkCallback_resolved payload w sc tx Hf Hc Hr Hok). cbn [snd].
  unfold afterCallback. rewrite Hdest, Hfresh. fold id. fold n.
  set (w1 := emit (Detached id) _).
  assert (Hd : find (hasId id) (webhooks w1) = Some n)
    by (apply find_hasId_last; [exact Hfresh | reflexivity]).
  assert (Hty : wellTyped n) by (exists "STK"%string; split; reflexivity).
  rewrite (sendWebhook_delivered id w1 n secret st body Hf Hd Hty eq_refl
             Hsec Hnet Hnet_ok).
  cbn [snd]. split; [exact Hd|]. split; [|split; [|reflexivity]].
  - set (d2 := Webhook.set_response (Some (st, body))
                 (Webhook.set_status "SENT" (attempted (clock w1) n))).
    change (find (hasId (Webhook._id d2))
              (replaceDoc d2 (replaceDoc (attempted (clock w1) n) (webhooks w1)))
            = Some d2).
    apply (find_replaceDoc d2 (attempted (clock w1) n)).
    apply (find_replaceDoc (attempted (clock w1) n) n). exact Hd.
  - unfold inFlight. cbn [trace emit set_webhooks]. unfold w1.
    cbn [trace emit set_webhooks set_nextObjectId set_transactions].
    rewrite !posted_app. cbn [posted]. now rewrite !app_nil_r.
Qed.

(* ------------------------------------------------------------------ *)
(** * Further properties: the callback metadata *)

Lemma length2 (s : string) :
  String.length s = 2%nat -> exists a b, s = String a (String b EmptyString).
Proof.
  destruct s as [|a [|b [|c s]]]; try discriminate. intros _. eauto.
Qed.

Lemma length4 (s : string) :
  String.length s = 4%nat ->
  exists a b c d, s = String a (String b (String c (String d EmptyString))).
Proof.
  destruct s as [|a [|b [|c [|d [|e s]]]]]; try discriminate. intros _. eauto 6.
Qed.

(** X10.  What extractMetadata does with the items of a completed payment.
    Nothing but the receipt number, the payment time and the recorded cast
    error change.  The receipt is the value of the first item named
    MpesaReceiptNumber as [String] prints it, skipped when absent or falsy.
    A TransactionDate whose text starts with YYYYMMDDHHMMSS is handed to
    [new Date] as YYYY-MM-DDTHH:MM:SS, whatever kind of value carried it:
    if that is a date it becomes the payment time; if it is an Invalid Date
    the payment time stays as it was and the cast error is recorded on
    the document, so that the save that follows is refused. *)
Theorem metadata_extraction (sc : Callback.StkCallback) (tx : Transaction.t)
    (m : Callback.Metadata) (items : list Callback.NameValue) :
  Callback.CallbackMetadata sc = Some m ->
  Callback.Item m = Some items ->
  let tx' := extractMetadata sc tx in
  sameButReceipt tx tx'
  /\ Transaction.mpesaReference tx'
     = match findItem "MpesaReceiptNumber" items with
       | Some receiptItem =>
         match Callback.Value receiptItem with
         | Some value =>
           if truthy value then Some (toString value)
           else Transaction.mpesaReference tx
         | None => Transaction.mpesaReference tx
         end
       | None => Transaction.mpesaReference tx
       end
  /\ (findItem "TransactionDate" items = None ->
      Transaction.mpesaTimestamp tx' = Transaction.mpesaTimestamp tx
      /\ Transaction.validationError tx' = Transaction.validationError tx)
  /\ (forall dateItem value year month day hour minute second rest,
        findItem "TransactionDate" items = Some dateItem ->
        Callback.Value dateItem = Some value ->
        toString value
        = (year ++ month ++ day ++ hour ++ minute ++ second ++ rest)%string ->
        String.length year = 4%nat -> String.length month = 2%nat ->
        String.length day = 2%nat -> String.length hour = 2%nat ->
        String.length minute = 2%nat -> String.length second = 2%nat ->
        match Date_parse (year ++ "-" ++ month ++ "-" ++ day ++ "T" ++ hour
                          ++ ":" ++ minute ++ ":" ++ second)%string with
        | Some date =>
          Transaction.mpesaTimestamp tx' = Some date
          /\ Transaction.validationError tx' = Transaction.validationError tx
        | None =>
          Transaction.mpesaTimestamp tx' = Transaction.mpesaTimestamp tx
          /\ Transaction.validationError tx' = Some Transaction.invalidDate
        end).
Proof.
  intros Hm Hi tx'. split; [apply extractMetadata_sameButReceipt|].
  subst tx'. unfold extractMetadata. rewrite Hm, Hi.
  split; [|split].
  - unfold Transaction.assign_mpesaTimestamp. repeat branch; reflexivity.
  - intros Hnone. rewrite Hnone. repeat branch; split; reflexivity.
  - intros dateItem value year month day hour minute second rest
           Hd Hv Hs Hy Hmo Hda Hh Hmi Hse.
    rewrite Hd, Hv.
    destruct (length4 _ Hy) as (y1 & y2 & y3 & y4 & ->).
    destruct (length2 _ Hmo) as (m1 & m2 & ->).
    destruct (length2 _ Hda) as (d1 & d2 & ->).
    destruct (length2 _ Hh) as (h1 & h2 & ->).
    destruct (length2 _ Hmi) as (i1 & i2 & ->).
    destruct (length2 _ Hse) as (s1 & s2 & ->).
    cbn [String.append] in Hs.
    assert (Ht : truthy value = true).
    { destruct value as [|b|z|s]; cbn in Hs |- *.
      - discriminate.
      - destruct b; discriminate.
      - destruct z; [discriminate|reflexivity|reflexivity].
      - subst s. reflexivity. }
    rewrite Ht, Hs. cbv zeta.
    replace (substring 0 4 _) with (String y1 (String y2 (String y3 (String y4 ""))))
      by reflexivity.
    replace (substring 4 6 _) with (String m1 (String m2 "")) by reflexivity.
    replace (substring 6 8 _) with (String d1 (String d2 "")) by reflexivity.
    replace (substring 8 10 _) with (String h1 (String h2 "")) by reflexivity.
    replace (substring 10 12 _) with (String i1 (String i2 "")) by reflexivity.
    replace (substring 12 14 _) with (String s1 (String s2 ""))
      by (destruct rest; reflexivity).
    unfold Transaction.assign_mpesaTimestamp.
    destruct (Date_parse _); repeat branch; split; reflexivity.
Qed.

(* ------------------------------------------------------------------ *)
(** * Further properties: password reset *)

Lemma find_map_same {A} (p : A -> bool) (f : A -> A) (l : list A) :
  (forall x, p (f x) = p x) ->
  find p (map f l) = option_map f (find p l).
Proof.
  intros H. induction l as [|x rest IH]; simpl; [reflexivity|].
  rewrite H. destruct (p x); [reflexivity|exact IH].
Qed.

Lemma rewritten_only (id : ObjectId) (a s : string) (token : option string)
    (expires : option Date) (us : list User.t) :
  onlyUser id us (rewritten id a s token expires us).
Proof.
  unfold onlyUser, rewritten.
  induction us as [|x rest IH]; simpl; constructor; auto.
  unfold userHasId. destruct (Nat.eqb (User._id x) id) eqn:E; [|reflexivity].
  apply Nat.eqb_eq in E. intros Hn. now elim Hn.
Qed.

Lemma find_byEmail_rewritten (email : string) (id : ObjectId) (a s : string)
    (token : option string) (expires : option Date) (us : list User.t)
    (u : User.t) :
  find (byEmail email) us = Some u ->
  find (byEmail email) (rewritten id a s token expires us)
  = Some (if userHasId id u then
            User.mk (User._id u) (User.email u) (Some a) (Some s)
                    (User.webhookConfig u) token expires
          else u).
Proof.
  intros H. unfold rewritten. rewrite find_map_same.
  - now rewrite H.
  - intros x. destruct (userHasId id x); reflexivity.
Qed.

(** [user.save()] on a document loaded without its keys, with the storage
    up: the hook draws both keys. *)
Lemma User_save_run (user : User.t) (w : World) (u0 : User.t)
    (a s : string) (rest : list string) :
  faults w = [] ->
  User.apiKey user = None ->
  entropy w = a :: s :: rest ->
  find (userHasId (User._id user)) (users w) = Some u0 ->
  User_save user w
  = (Normal tt,
     set_users (rewritten (User._id user) a s (User.resetPasswordToken user)
                  (User.resetPasswordExpires user) (users w))
               (set_entropy rest w)).
Proof.
  intros Hf Hk He Hu. unfold User_save. rewrite Hk.
  unfold bind, randomHex, ret. rewrite He. cbn [entropy set_entropy].
  rewrite storage_up by (cbn; exact Hf).
  cbn [users set_entropy User._id User.apiKey User.secretKey
       User.resetPasswordToken User.resetPasswordExpires].
  rewrite Hu. reflexivity.
Qed.

Lemma forgotPassword_run (email : string) (w : World) (u : User.t)
    (t a s : string) (rest : list string) :
  faults w = [] ->
  find (byEmail email) (users w) = Some u ->
  entropy w = t :: a :: s :: rest ->
  forgotPassword email w
  = (Normal resetNotice,
     emit (Logged "info" "Password reset requested")
       (set_users (rewritten (User._id u) a s (Some t) (Some (clock w + 3600000))
                     (users w))
          (set_entropy rest w))).
Proof.
  intros Hf Hu He.
  destruct (find_some_other _ (userHasId (User._id u)) _ _ Hu) as [u0 Hu0].
  { unfold userHasId. apply Nat.eqb_refl. }
  unfold forgotPassword, tryCatch. unfold bind at 1. unfold User_findOne_email.
  rewrite storage_up by assumption. fold (byEmail email). rewrite Hu.
  cbn [option_map]. unfold bind at 1. unfold randomHex at 1. rewrite He.
  unfold bind at 1. unfold Date_now at 1. unfold bind at 1.
  erewrite (User_save_run _ (set_entropy (a :: s :: rest) w) u0 a s rest);
    [reflexivity | exact Hf | reflexivity | reflexivity | exact Hu0].
Qed.

Lemma resetPassword_run (token password : string) (passwords : Passwords)
    (w : World) (x : User.t) (salt a s : string) (rest : list string) :
  faults w = [] ->
  find (resetQuery token (clock w)) (users w) = Some x ->
  entropy w = salt :: a :: s :: rest ->
  resetPassword token password passwords w
  = (Normal (resetDone, (User._id x, bcrypt_hash password salt) :: passwords),
     set_users (rewritten (User._id x) a s None None (users w))
       (set_entropy rest w)).
Proof.
  intros Hf Hx He.
  destruct (find_some_other _ (userHasId (User._id x)) _ _ Hx) as [u0 Hu0].
  { unfold userHasId. apply Nat.eqb_refl. }
  unfold resetPassword, tryCatch. unfold bind at 1. unfold Date_now at 1.
  unfold bind at 1. unfold User_findOne_reset.
  rewrite storage_up by assumption. rewrite Hx.
  cbn [option_map]. unfold bind at 1. unfold randomHex at 1. rewrite He.
  unfold bind at 1.
  erewrite (User_save_run _ (set_entropy (a :: s :: rest) w) u0 a s rest);
    [reflexivity | exact Hf | reflexivity | reflexivity | exact Hu0].
Qed.

Lemma resetPassword_refused (token password : string) (passwords : Passwords)
    (w : World) :
  faults w = [] ->
  find (resetQuery token (clock w)) (users w) = None ->
  resetPassword token password passwords w
  = (Normal (invalidToken, passwords), w).
Proof.
  intros Hf Hx. unfold resetPassword, tryCatch, bind, Date_now, User_findOne_reset.
  rewrite storage_up by assumption. now rewrite Hx.
Qed.

Lemma resetQuery_token (t : string) (now : Date) (x : User.t) :
  resetQuery t now x = true -> User.resetPasswordToken x = Some t.
Proof.
  unfold resetQuery. intros H. apply andb_prop in H. destruct H as [H _].
  destruct (User.resetPasswordToken x) as [k|]; [|discriminate].
  cbn in H. apply String.eqb_eq in H. now subst.
Qed.

Lemma unissued_refused (t : string) (now : Date) (us : list User.t) :
  unissued t us -> find (resetQuery t now) us = None.
Proof.
  intros H. induction H as [|x rest Hx _ IH]; simpl; [reflexivity|].
  destruct (resetQuery t now x) eqn:E; [|exact IH].
  elim Hx. exact (resetQuery_token _ _ _ E).
Qed.

Lemma rewritten_twice (id : ObjectId) (a s a' s' : string)
    (token token' : option string) (expires expires' : option Date)
    (us : list User.t) :
  rewritten id a' s' token' expires' (rewritten id a s token expires us)
  = rewritten id a' s' token' expires' us.
Proof.
  unfold rewritten. rewrite map_map. apply map_ext. intros x.
  destruct (userHasId id x) eqn:E; [|now rewrite E].
  unfold userHasId in *. cbn [User._id]. now rewrite E.
Qed.

Lemma unissued_cleared (t : string) (id : ObjectId) (a s : string)
    (us : list User.t) :
  unissued t us -> unissued t (rewritten id a s None None us).
Proof.
  intros H. unfold rewritten. induction H as [|x rest Hx _ IH]; simpl;
    constructor; [|exact IH].
  destruct (userHasId id x); [discriminate|exact Hx].
Qed.

Lemma issued_expired (t : string) (now e : Date) (id : ObjectId) (a s : string)
    (us : list User.t) :
  unissued t us -> e <= now ->
  find (resetQuery t now) (rewritten id a s (Some t) (Some e) us) = None.
Proof.
  intros H He. unfold rewritten. induction H as [|x rest Hx _ IH]; simpl;
    [reflexivity|].
  destruct (userHasId id x).
  - unfold resetQuery at 1. cbn [User.resetPasswordToken User.resetPasswordExpires].
    replace (now <? e) with false by (symmetry; apply Z.ltb_ge; exact He).
    rewrite andb_false_r. exact IH.
  - destruct (resetQuery t now x) eqn:E; [|exact IH].
    elim Hx. exact (resetQuery_token _ _ _ E).
Qed.

Lemma issued_found (t : string) (now e : Date) (id : ObjectId) (a s : string)
    (us : list User.t) (u0 : User.t) :
  unissued t us -> now < e ->
  find (userHasId id) us = Some u0 ->
  exists x, find (resetQuery t now) (rewritten id a s (Some t) (Some e) us) = Some x
            /\ User._id x = id.
Proof.
  intros H He. unfold rewritten. induction H as [|y rest Hy _ IH]; simpl;
    [discriminate|].
  destruct (userHasId id y) eqn:Ey.
  - intros _. unfold resetQuery at 1.
    cbn [User.resetPasswordToken User.resetPasswordExpires optStringEqb].
    rewrite String.eqb_refl.
    replace (now <? e) with true by (symmetry; apply Z.ltb_lt; exact He).
    cbn [andb]. eexists. split; [reflexivity|].
    cbn [User._id]. unfold userHasId in Ey. now apply Nat.eqb_eq in Ey.
  - intros Hfind. destruct (resetQuery t now y) eqn:E; [|exact (IH Hfind)].
    elim Hy. exact (resetQuery_token _ _ _ E).
Qed.

(** X11.  With the storage up, forgotPassword for a registered address
    stores the token it drew with an expiry one hour after now on that
    user, and the same save replaces the user's API key and secret key with
    freshly drawn ones (the loaded document carries no apiKey, so the
    pre-save hook draws both); address and webhook configuration stay, every
    other user stays, and no notification or transaction is touched. *)
Theorem forgotPassword_issues_token (email : string) (w : World) (u : User.t)
    (t a s : string) (rest : list string) :
  faults w = [] ->
  find (byEmail email) (users w) = Some u ->
  entropy w = t :: a :: s :: rest ->
  let w' := snd (forgotPassword email w) in
  find (byEmail email) (users w')
  = Some (User.mk (User._id u) (User.email u) (Some a) (Some s)
                  (User.webhookConfig u) (Some t) (Some (clock w + 3600000)))
  /\ onlyUser (User._id u) (users w) (users w')
  /\ webhooks w' = webhooks w
  /\ transactions w' = transactions w
  /\ entropy w' = rest.
Proof.
  intros Hf Hu He w'. subst w'.
  rewrite (forgotPassword_run email w u t a s rest Hf Hu He).
  cbn [snd users webhooks transactions entropy emit set_users set_entropy].
  split; [|split; [apply rewritten_only|repeat split]].
  rewrite (find_byEmail_rewritten email _ a s _ _ _ u Hu).
  unfold userHasId. now rewrite Nat.eqb_refl.
Qed.

(** X12.  Round trip of a reset token.  After forgotPassword has issued
    token [t] (held by no user before), resetPassword with [t] before the
    hour is over succeeds: it records the hash of the new password under the
    user's identifier, clears token and expiry and changes no other user;
    and a second resetPassword with the same token is refused with 400 and
    changes nothing. *)
Theorem reset_token_round_trip (email : string) (w : World) (u : User.t)
    (t a s : string) (rest : list string)
    (w2 : World) (salt a2 s2 : string) (rest2 : list string)
    (password : string) (passwords : Passwords) :
  faults w = [] ->
  find (byEmail email) (users w) = Some u ->
  entropy w = t :: a :: s :: rest ->
  unissued t (users w) ->
  users w2 = users (snd (forgotPassword email w)) ->
  faults w2 = [] ->
  entropy w2 = salt :: a2 :: s2 :: rest2 ->
  clock w2 < clock w + 3600000 ->
  let r := resetPassword t password passwords w2 in
  fst r = Normal (resetDone, (User._id u, bcrypt_hash password salt) :: passwords)
  /\ find (byEmail email) (users (snd r))
     = Some (User.mk (User._id u) (User.email u) (Some a2) (Some s2)
                     (User.webhookConfig u) None None)
  /\ onlyUser (User._id u) (users w) (users (snd r))
  /\ forall password' passwords' w3,
       users w3 = users (snd r) -> faults w3 = [] ->
       resetPassword t password' passwords' w3
       = (Normal (invalidToken, passwords'), w3).
Proof.
  intros Hf Hu He Hun Hus Hf2 He2 Hclock r. subst r.
  rewrite (forgotPassword_run email w u t a s rest Hf Hu He) in Hus.
  cbn [snd users emit set_users set_entropy] in Hus.
  destruct (find_some_other _ (userHasId (User._id u)) _ _ Hu) as [u0 Hu0].
  { unfold userHasId. apply Nat.eqb_refl. }
  destruct (issued_found t (clock w2) (clock w + 3600000) (User._id u) a s
              (users w) u0 Hun Hclock Hu0) as (x & Hx & Hid).
  assert (Hx2 : find (resetQuery t (clock w2)) (users w2) = Some x)
    by (rewrite Hus; exact Hx).
  rewrite (resetPassword_run t password passwords w2 x salt a2 s2 rest2 Hf2 Hx2 He2).
  cbn [fst snd users set_users set_entropy].
  rewrite Hid, Hus, rewritten_twice.
  split; [reflexivity|]. split.
  { rewrite (find_byEmail_rewritten email _ a2 s2 _ _ _ u Hu).
    unfold userHasId. now rewrite Nat.eqb_refl. }
  split; [apply rewritten_only|].
  intros password' passwords' w3 Hus3 Hf3.
  apply resetPassword_refused; [exact Hf3|].
  rewrite Hus3. apply unissued_refused. now apply unissued_cleared.
Qed.

(** X13.  Expiry of a reset token.  Once an hour or more has passed since
    forgotPassword issued token [t], resetPassword with [t] is refused with
    400, records no password and leaves the world as it is. *)
Theorem expired_token_is_refused (email : string) (w : World) (u : User.t)
    (t a s : string) (rest : list string)
    (w2 : World) (password : string) (passwords : Passwords) :
  faults w = [] ->
  find (byEmail email) (users w) = Some u ->
  entropy w = t :: a :: s :: rest ->
  unissued t (users w) ->
  users w2 = users (snd (forgotPassword email w)) ->
  faults w2 = [] ->
  clock w + 3600000 <= clock w2 ->
  resetPassword t password passwords w2 = (Normal (invalidToken, passwords), w2).
Proof.
  intros Hf Hu He Hun Hus Hf2 Hclock.
  rewrite (forgotPassword_run email w u t a s rest Hf Hu He) in Hus.
  cbn [snd users emit set_users set_entropy] in Hus.
  apply resetPassword_refused; [exact Hf2|].
  rewrite Hus. now apply issued_expired.
Qed.

(* ------------------------------------------------------------------ *)
(** * Further properties: phone numbers and timestamps *)

Lemma substring_all (r : string) : String.substring 0 (String.length r) r = r.
Proof. induction r as [|c r IH]; simpl; [reflexivity|now rewrite IH]. Qed.

Lemma isSubscriber_seven (sub : string) :
  isSubscriber sub = true -> exists r, sub = String "7" r.
Proof.
  destruct sub as [|a r]; [discriminate|]. unfold isSubscriber. intros H.
  apply andb_prop in H. destruct H as [H _].
  apply andb_prop in H. destruct H as [H _].
  apply Ascii.eqb_eq in H. subst a. now exists r.
Qed.

Lemma prefix_254 (s : string) :
  String.eqb (String.substring 0 3 s) "254" = true ->
  exists r, s = String "2" (String "5" (String "4" r))
            /\ String.substring 3 (String.length s - 3) s = r.
Proof.
  intros H. apply String.eqb_eq in H.
  destruct s as [|a [|b [|c r]]]; try discriminate.
  cbn [String.substring] in H. injection H as -> -> -> _.
  exists r. split; [reflexivity|].
  cbn [String.length].
  change (S (S (S (String.length r))) - 3)%nat with (String.length r - 0)%nat.
  rewrite Nat.sub_0_r. cbn [String.substring]. apply substring_all.
Qed.

Lemma prefix_plus254 (s : string) :
  String.eqb (String.substring 0 4 s) "+254" = true ->
  exists r, s = String "+" (String "2" (String "5" (String "4" r)))
            /\ String.substring 4 (String.length s - 4) s = r.
Proof.
  intros H. apply String.eqb_eq in H.
  destruct s as [|a [|b [|c [|d r]]]]; try discriminate.
  cbn [String.substring] in H. injection H as -> -> -> -> _.
  exists r. split; [reflexivity|].
  cbn [String.length].
  change (S (S (S (S (String.length r)))) - 4)%nat with (String.length r - 0)%nat.
  rewrite Nat.sub_0_r. cbn [String.substring]. apply substring_all.
Qed.

(** X14.  On every number the route validation accepts, the formatting
    written in initiateStkPush and again in StkPush.initiate turns the forms
    0..., 254... and +254... into 254 followed by the subscriber number, leaves
    a bare subscriber number (7 and eight digits) without the 254 prefix, and
    changes nothing when applied a second time, so the number stored on the
    transaction is the number sent to the network. *)
Theorem formatPhone_on_validated (s : string) :
  validPhone s = true ->
  exists sub,
    isSubscriber sub = true
    /\ (s = sub \/ s = ("0" ++ sub)%string \/ s = ("254" ++ sub)%string
        \/ s = ("+254" ++ sub)%string)
    /\ formatPhone s = (if isSubscriber s then sub else ("254" ++ sub)%string)
    /\ formatPhone (formatPhone s) = formatPhone s.
Proof.
  unfold validPhone. intros H. apply orb_prop in H. destruct H as [H|H].
  - destruct (isSubscriber_seven _ H) as [r E]. exists s. rewrite H.
    subst s. repeat split; auto.
  - destruct s as [|a rest]; [discriminate|].
    apply orb_prop in H. destruct H as [H|H];
      [apply orb_prop in H; destruct H as [H|H]|];
      apply andb_prop in H; destruct H as [Hp Hs].
    + apply Ascii.eqb_eq in Hp. subst a.
      destruct (isSubscriber_seven _ Hs) as [r E]. exists rest.
      split; [exact Hs|]. subst rest.
      split; [right; left; reflexivity|]. split; reflexivity.
    + destruct (prefix_254 _ Hp) as (r & E & Er). rewrite Er in Hs.
      exists r. split; [exact Hs|]. rewrite E.
      split; [right; right; left; reflexivity|]. split; reflexivity.
    + destruct (prefix_plus254 _ Hp) as (r & E & Er). rewrite Er in Hs.
      exists r. split; [exact Hs|]. rewrite E.
      split; [right; right; right; reflexivity|]. split; reflexivity.
Qed.

Lemma range_check (p : Z -> bool) (lo : Z) (n : nat) :
  forallb (fun k => p (lo + Z.of_nat k)) (seq 0 n) = true ->
  forall z, lo <= z < lo + Z.of_nat n -> p z = true.
Proof.
  intros H z Hz. rewrite forallb_forall in H.
  replace z with (lo + Z.of_nat (Z.to_nat (z - lo))) by lia.
  apply H. apply in_seq. lia.
Qed.

Lemma two_digits (z : Z) :
  0 <= z <= 99 ->
  String.length (padStart 2 "0" (decimal z)) = 2%nat
  /\ allDigits (padStart 2 "0" (decimal z)) = true.
Proof.
  intros Hz.
  assert (H : (Nat.eqb (String.length (padStart 2 "0" (decimal z))) 2
               && allDigits (padStart 2 "0" (decimal z))) = true).
  { apply (range_check
             (fun z => Nat.eqb (String.length (padStart 2 "0" (decimal z))) 2
                       && allDigits (padStart 2 "0" (decimal z))) 0 100);
      [vm_compute; reflexivity|lia]. }
  apply andb_prop in H. destruct H as [H1 H2].
  apply Nat.eqb_eq in H1. now split.
Qed.

Lemma four_digits (z : Z) :
  1000 <= z <= 9999 ->
  String.length (decimal z) = 4%nat /\ allDigits (decimal z) = true.
Proof.
  intros Hz.
  assert (H : (Nat.eqb (String.length (decimal z)) 4 && allDigits (decimal z))
              = true).
  { apply (range_check
             (fun z => Nat.eqb (String.length (decimal z)) 4 && allDigits (decimal z))
             1000 (90 * 100)); [vm_compute; reflexivity|lia]. }
  apply andb_prop in H. destruct H as [H1 H2].
  apply Nat.eqb_eq in H1. now split.
Qed.

(** X15.  For a date whose year has four digits, generateTimestamp returns
    fourteen decimal digits laid out as YYYYMMDDHHMMSS: the year as it is,
    then month + 1, day, hours, minutes and seconds, each padded to two
    digits. *)
Theorem generateTimestamp_layout (date : LocalDate) :
  calendar date ->
  let ts := generateTimestamp date in
  String.length ts = 14%nat
  /\ allDigits ts = true
  /\ substring 0 4 ts = decimal (getFullYear date)
  /\ substring 4 6 ts = padStart 2 "0" (decimal (getMonth date + 1))
  /\ substring 6 8 ts = padStart 2 "0" (decimal (getDate date))
  /\ substring 8 10 ts = padStart 2 "0" (decimal (getHours date))
  /\ substring 10 12 ts = padStart 2 "0" (decimal (getMinutes date))
  /\ substring 12 14 ts = padStart 2 "0" (decimal (getSeconds date)).
Proof.
  intros (Hy & Hmo & Hd & Hh & Hmi & Hs) ts. subst ts. unfold generateTimestamp.
  destruct (four_digits (getFullYear date) Hy) as [Ly Dy].
  destruct (two_digits (getMonth date + 1)) as [Lmo Dmo]; [lia|].
  destruct (two_digits (getDate date)) as [Ld Dd]; [lia|].
  destruct (two_digits (getHours date)) as [Lh Dh]; [lia|].
  destruct (two_digits (getMinutes date)) as [Lmi Dmi]; [lia|].
  destruct (two_digits (getSeconds date)) as [Ls Ds]; [lia|].
  destruct (length4 _ Ly) as (y1 & y2 & y3 & y4 & Ey). rewrite Ey in *.
  destruct (length2 _ Lmo) as (m1 & m2 & Emo). rewrite Emo in *.
  destruct (length2 _ Ld) as (d1 & d2 & Ed). rewrite Ed in *.
  destruct (length2 _ Lh) as (h1 & h2 & Eh). rewrite Eh in *.
  destruct (length2 _ Lmi) as (i1 & i2 & Emi). rewrite Emi in *.
  destruct (length2 _ Ls) as (s1 & s2 & Es). rewrite Es in *.
  unfold allDigits in *.
  cbn [list_ascii_of_string forallb] in Dy, Dmo, Dd, Dh, Dmi, Ds.
  repeat match goal with
         | H : _ && _ = true |- _ => apply andb_prop in H; destruct H
         end.
  split; [reflexivity|]. split; [|repeat split].
  cbn [String.append list_ascii_of_string forallb].
  repeat match goal with
         | H : isDigit _ = true |- _ => rewrite H; clear H
         end.
  reflexivity.
Qed.

(* ------------------------------------------------------------------ *)
(** * Further properties: the OAuth token cache *)

(** X16.  For every state of the object, every time and every answer of the
    token endpoint: a token that getOAuthToken returns is, afterwards, the
    cached and still valid token; a call that throws leaves the object as
    it was; the credentials never change; and the token endpoint is asked
    exactly when the cache does not hold a valid token, once. *)
Theorem oauth_token_cache_invariant (base64 : string -> string)
    (endpoint : MpesaAuth.TokenRequest -> MpesaAuth.TokenReply)
    (now : Date) (this : MpesaAuth.t) :
  let '(r, this', effects) := MpesaAuth.getOAuthToken base64 endpoint now this in
  match r with
  | Normal token => MpesaAuth.cached now this' = Some token
  | Thrown _ => this' = this
  end
  /\ MpesaAuth.consumerKey this' = MpesaAuth.consumerKey this
  /\ MpesaAuth.consumerSecret this' = MpesaAuth.consumerSecret this
  /\ MpesaAuth.baseUrl this' = MpesaAuth.baseUrl this
  /\ requests effects
     = match MpesaAuth.cached now this with
       | Some _ => []
       | None => [tokenRequest base64 this]
       end.
Proof.
  unfold MpesaAuth.getOAuthToken.
  destruct (MpesaAuth.cached now this) as [token|] eqn:Hc.
  - repeat split. exact Hc.
  - fold (tokenRequest base64 this).
    destruct (endpoint (tokenRequest base64 this)) as [[[token|]|]|message];
      try (repeat split; fail).
    destruct (nonEmpty token) eqn:Hn; [|repeat split].
    repeat split. unfold MpesaAuth.cached, MpesaAuth.set_token.
    cbn [MpesaAuth.tokenCache MpesaAuth.tokenExpiry]. rewrite Hn.
    replace (now <? now + 55 * 60 * 1000) with true
      by (symmetry; apply Z.ltb_lt; lia).
    reflexivity.
Qed.

(** X17.  A token fetched at time [now] is reused, without a request, by
    every call made less than 55 minutes later, and fetched again by every
    call made 55 minutes later or more. *)
Theorem oauth_token_lives_55_minutes (base64 : string -> string)
    (endpoint : MpesaAuth.TokenRequest -> MpesaAuth.TokenReply)
    (now : Date) (this : MpesaAuth.t) (token : string) :
  MpesaAuth.cached now this = None ->
  endpoint (tokenRequest base64 this) = MpesaAuth.Answered (Some (Some token)) ->
  nonEmpty token = true ->
  let this' := snd (fst (MpesaAuth.getOAuthToken base64 endpoint now this)) in
  fst (fst (MpesaAuth.getOAuthToken base64 endpoint now this)) = Normal token
  /\ (forall endpoint' later,
        later < now + 55 * 60 * 1000 ->
        MpesaAuth.getOAuthToken base64 endpoint' later this'
        = (Normal token, this',
           [MpesaAuth.Log "debug" "Using cached OAuth token"]))
  /\ (forall endpoint' later,
        now + 55 * 60 * 1000 <= later ->
        requests (snd (MpesaAuth.getOAuthToken base64 endpoint' later this'))
        = [tokenRequest base64 this]).
Proof.
  intros Hc He Hn this'. subst this'.
  assert (E : MpesaAuth.getOAuthToken base64 endpoint now this
              = (Normal token,
                 MpesaAuth.set_token token (now + 55 * 60 * 1000) this,
                 [MpesaAuth.Log "info" "Fetching new OAuth token from Safaricom";
                  MpesaAuth.Get (tokenRequest base64 this)])).
  { unfold MpesaAuth.getOAuthToken. rewrite Hc.
    fold (tokenRequest base64 this). now rewrite He, Hn. }
  rewrite E. cbn [fst snd].
  split; [reflexivity|]. split.
  - intros endpoint' later Hl. unfold MpesaAuth.getOAuthToken, MpesaAuth.cached.
    cbn [MpesaAuth.set_token MpesaAuth.tokenCache MpesaAuth.tokenExpiry].
    rewrite Hn.
    replace (later <? now + 55 * 60 * 1000) with true
      by (symmetry; apply Z.ltb_lt; exact Hl).
    reflexivity.
  - intros endpoint' later Hl. unfold MpesaAuth.getOAuthToken, MpesaAuth.cached.
    cbn [MpesaAuth.set_token MpesaAuth.tokenCache MpesaAuth.tokenExpiry].
    rewrite Hn.
    replace (later <? now + 55 * 60 * 1000) with false
      by (symmetry; apply Z.ltb_ge; exact Hl).
    cbn [andb].
    change (MpesaAuth.mkTokenRequest _ _) with (tokenRequest base64 this).
    destruct (endpoint' (tokenRequest base64 this)) as [[[token'|]|]|message];
      try reflexivity.
    destruct (nonEmpty token'); reflexivity.
Qed.

(* ------------------------------------------------------------------ *)
(** * Further properties: status reports and the two status paths *)

(** X18.  getWebhookStatus only reads: under every fault script it leaves
    notifications, users and transactions as they are and posts nothing.  A
    report it returns describes the stored notification of that identifier,
    with [created] and [eventType] undefined; with the storage up it throws
    'Webhook not found' for an identifier that is not stored. *)
Theorem status_report_reads_the_store (id : ObjectId) (w : World) :
  let r := getWebhookStatus id w in
  webhooks (snd r) = webhooks w
  /\ users (snd r) = users w
  /\ transactions (snd r) = transactions w
  /\ posted (trace (snd r)) = posted (trace w)
  /\ match fst r with
     | Normal v =>
       exists d, find (hasId id) (webhooks w) = Some d /\ reports v d
     | Thrown e =>
       faults w = [] ->
       find (hasId id) (webhooks w) = None /\ e = "Webhook not found"%string
     end.
Proof.
  unfold getWebhookStatus, tryCatch, bind, Webhook_findById, storage, throw,
    logger, ret.
  destruct (faults w) as [|[e|] rest];
    [destruct (find (hasId id) (webhooks w)) as [d|] eqn:Hd| |].
  - cbn [fst snd]. repeat split. exists d. repeat split.
  - cbn [fst snd webhooks users transactions trace emit].
    rewrite posted_app, app_nil_r. repeat split.
  - cbn [fst snd webhooks users transactions trace emit set_faults].
    rewrite posted_app, app_nil_r. repeat split; discriminate.
  - cbn [webhooks set_faults].
    destruct (find (hasId id) (webhooks w)) as [d|] eqn:Hd.
    + cbn [fst snd]. repeat split. exists d. repeat split.
    + cbn [fst snd webhooks users transactions trace emit set_faults].
      rewrite posted_app, app_nil_r. repeat split; discriminate.
Qed.

(** X19.  The two places that turn a result code into a transaction status
    agree on every code except 1 and 1032: checkStkStatus stores CANCELLED
    for those two, stkCallback stores FAILED. *)
Theorem status_paths_agree_except_cancelled (sc : Callback.StkCallback)
    (tx : Transaction.t) (code : Z) :
  Callback.ResultCode sc = Some code ->
  (Transaction.status (applyResultCode sc tx) = checkStkStatus_status code
   <-> code <> 1 /\ code <> 1032)
  /\ (code = 1 \/ code = 1032 ->
      Transaction.status (applyResultCode sc tx) = "FAILED"%string
      /\ checkStkStatus_status code = "CANCELLED"%string).
Proof.
  intros Hc.
  assert (Hs : Transaction.status (applyResultCode sc tx)
               = callbackStatus (Some code)).
  { unfold applyResultCode. rewrite Hc.
    destruct code as [|p|p]; try reflexivity.
    destruct (extractMetadata_sameButReceipt sc
                (Transaction.set_status "COMPLETED" tx))
      as (_ & _ & _ & _ & _ & H & _).
    exact H. }
  rewrite Hs. unfold callbackStatus, checkStkStatus_status.
  split.
  - destruct (code =? 0) eqn:E0.
    + apply Z.eqb_eq in E0. subst code. split; [intros _; lia|reflexivity].
    + apply Z.eqb_neq in E0. cbn [existsb].
      destruct (code =? 1) eqn:E1; [|destruct (code =? 1032) eqn:E2].
      * apply Z.eqb_eq in E1. subst code. cbn. split; [discriminate|lia].
      * apply Z.eqb_eq in E2. subst code. cbn. split; [discriminate|lia].
      * apply Z.eqb_neq in E1. apply Z.eqb_neq in E2. cbn [orb].
        destruct code; try lia; split; auto; intros _; lia.
  - intros [-> | ->]; split; reflexivity.
Qed.

End Platform.

(* ------------------------------------------------------------------ *)
(** * Concrete runs *)

(** C1 on a concrete run.  The notification is stored as SENT and the read
    that opens sendWebhook fails once: the call returns, the stored status
    is FAILED with the driver's message, and the sweep that follows posts
    the notification again. *)
Lemma failed_read_reopens_a_sent_notification_witness :
  map Webhook.status (webhooks Scenario.brokenRead) = ["SENT"%string]
  /\ find (hasId 1%nat)
          (webhooks (snd (sendWebhook Sample.stringify Sample.hmac 1%nat
                            Scenario.brokenRead)))
     = Some (Webhook.set_errorMessage (Some "connection lost"%string)
               (Webhook.set_status "FAILED"
                  (Sample.note 1%nat 10%nat "SENT" 1 (Some 1000))))
  /\ map X_MPESA_Connect_WebhookId
         (map headers
            (posted (trace (snd (retryFailedWebhooks Sample.stringify Sample.hmac None
                                   (snd (sendWebhook Sample.stringify Sample.hmac
                                           1%nat Scenario.brokenRead)))))))
     = [1%nat]
  /\ map Webhook.attempts
         (webhooks (snd (retryFailedWebhooks Sample.stringify Sample.hmac None
                           (snd (sendWebhook Sample.stringify Sample.hmac
                                   1%nat Scenario.brokenRead)))))
     = [2].
Proof.
  split; [reflexivity|]. split; [|split; reflexivity].
  exact (proj1 (proj2
           (proj2 (failed_read_reopens_a_sent_notification
                     Sample.stringify Sample.hmac 1%nat Scenario.brokenRead
                     (Sample.note 1%nat 10%nat "SENT" 1 (Some 1000))
                     eq_refl
                     (ex_intro _ "STK"%string (conj eq_refl eq_refl))
                     eq_refl eq_refl)
                  "connection lost"%string eq_refl))).
Defined.

Lemma missing_secret_recorded_as_failed_witness :
  find (hasId 1%nat)
       (webhooks (snd (sendWebhook Sample.stringify Sample.hmac 1%nat Sample.bareWorld)))
  = Some (Webhook.set_errorMessage (Some "Invalid webhook configuration"%string)
            (Webhook.set_status "FAILED"
               (Sample.note 1%nat 11%nat "FAILED" 1 (Some 1000)))).
Proof.
  apply (missing_secret_recorded_as_failed Sample.stringify Sample.hmac 1%nat
           Sample.bareWorld (Sample.note 1%nat 11%nat "FAILED" 1 (Some 1000)));
    try reflexivity.
  exists "STK"%string. split; reflexivity.
Defined.

(** C2 as stated fails: without a signing secret the record becomes FAILED,
    not FAILED_PERMANENT, with the message 'Invalid webhook configuration',
    and the next sweep selects it again. *)
Lemma missing_secret_is_retried :
  map Webhook.status
      (webhooks (snd (sendWebhook Sample.stringify Sample.hmac 1%nat Sample.bareWorld)))
  = ["FAILED"%string]
  /\ map Webhook.errorMessage
         (webhooks (snd (sendWebhook Sample.stringify Sample.hmac 1%nat Sample.bareWorld)))
     = [Some "Invalid webhook configuration"%string]
  /\ map Webhook._id
         (selection None
            (snd (sendWebhook Sample.stringify Sample.hmac 1%nat Sample.bareWorld)))
     = [1%nat].
Proof. vm_compute. repeat split. Qed.

(** C3 on a concrete run.  The endpoint answers 500 every time.  After each
    of the first four failures the stored status is FAILED; on the fifth the
    catch block sets FAILED_PERMANENT, which is not in the schema's status
    enumeration, so the save is refused and the stored record is left as the
    attempt marked it: PENDING with 5 attempts. *)
Theorem fifth_failure_is_not_recorded :
  map (fun k => map Webhook.status
                  (webhooks (Nat.iter k
                     (fun w => snd (sendWebhook Sample.stringify Sample.hmac 1%nat w))
                     Sample.freshWorld)))
      [1; 2; 3; 4; 5]%nat
  = [["FAILED"]; ["FAILED"]; ["FAILED"]; ["FAILED"]; ["PENDING"]]%string
  /\ map Webhook.attempts
         (webhooks (Nat.iter 5
            (fun w => snd (sendWebhook Sample.stringify Sample.hmac 1%nat w))
            Sample.freshWorld)) = [5]
  /\ last (trace (Nat.iter 5
             (fun w => snd (sendWebhook Sample.stringify Sample.hmac 1%nat w))
             Sample.freshWorld)) (Detached 0%nat)
     = Logged "error" "Error updating webhook after failure"
  /\ Webhook.inEnum Webhook.statusEnum "FAILED_PERMANENT" = false.
Proof. vm_compute. repeat split. Qed.

Lemma sweep_selection_witness :
  fst (retryFailedWebhooks Sample.stringify Sample.hmac (Some 1%nat) Sample.backlog)
  = Normal 1%nat.
Proof.
  apply (sweep_selection Sample.stringify Sample.hmac (Some 1%nat) Sample.backlog).
  reflexivity.
Defined.

(** C4 as stated fails: with two eligible notifications and a batch of one,
    the sweep takes the first in collection order, whose last attempt is the
    newer one, and leaves the older one untouched. *)
Lemma sweep_takes_collection_order :
  map Webhook.lastAttempt (webhooks Sample.backlog) = [Some 2000; Some 1000]
  /\ map (retryQuery (clock Sample.backlog)) (webhooks Sample.backlog) = [true; true]
  /\ map Webhook.lastAttempt (selection (Some 1%nat) Sample.backlog) = [Some 2000]
  /\ map Webhook.attempts
         (webhooks (snd (retryFailedWebhooks Sample.stringify Sample.hmac
                           (Some 1%nat) Sample.backlog))) = [2; 1].
Proof. vm_compute. repeat split. Qed.


(** C6 on a concrete callback.  Result code 1032 (cancelled by the user) for
    a stored STK transaction: stkCallback stores status FAILED, where the
    status query checkStkStatus maps the same code to CANCELLED. *)
Theorem cancelled_callback_is_marked_failed :
  resolve (Sample.callback "ws_CO_1" 1032 "Request cancelled by user") Sample.stkWorld
  = Some Sample.pendingTx
  /\ map Transaction.status
         (transactions
            (snd (stkCallback Sample.numberToString Sample.parseDate (Sample.callback "ws_CO_1" 1032 "Request cancelled by user")
                    Sample.stkWorld)))
     = ["FAILED"%string]
  /\ checkStkStatus_status 1032 = "CANCELLED"%string
  /\ map Transaction.status
         (transactions
            (snd (stkCallback Sample.numberToString Sample.parseDate (Sample.callback "ws_CO_1" 1 "Insufficient balance")
                    Sample.stkWorld)))
     = ["FAILED"%string]
  /\ checkStkStatus_status 1 = "CANCELLED"%string.
Proof. vm_compute. repeat split. Qed.

Lemma attempt_accounting_witness :
  (exists d',
     find (hasId 1%nat)
          (webhooks (snd (sendWebhook Sample.stringify Sample.hmac 1%nat
                            Sample.failingWorld))) = Some d'
     /\ Webhook.attempts d' = 2
     /\ Webhook.lastAttempt d' = Some 1000000)
  /\ (exists d',
        find (hasId 1%nat)
             (webhooks (snd (sendWebhook Sample.stringify Sample.hmac 1%nat
                               Scenario.crashing))) = Some d'
        /\ d' = attempted 1000000 (Sample.note 1%nat 10%nat "FAILED" 1 (Some 1000))
        /\ Webhook.attempts d' = 2
        /\ Webhook.lastAttempt d' = Some 1000000
        /\ Webhook.status d' = "PENDING"%string).
Proof.
  split.
  - apply (proj1 (attempt_accounting Sample.stringify Sample.hmac
                    Sample.numberToString Sample.parseDate Sample.parseFloat
                    Sample.shortCodeIs) 1%nat
             Sample.failingWorld (Sample.note 1%nat 10%nat "FAILED" 1 (Some 1000))
             "whsec"%string); try reflexivity.
    exists "STK"%string. split; reflexivity.
  - apply (proj1 (proj2 (attempt_accounting Sample.stringify Sample.hmac
                    Sample.numberToString Sample.parseDate Sample.parseFloat
                    Sample.shortCodeIs)) 1%nat
             Scenario.crashing (Sample.note 1%nat 10%nat "FAILED" 1 (Some 1000))
             "whsec"%string "connection lost"%string "connection lost"%string []);
      try reflexivity.
    exists "STK"%string. split; reflexivity.
Defined.

Lemma delivery_errors_are_not_raised_witness :
  find (hasId 1%nat)
       (webhooks (snd (sendWebhook Sample.stringify Sample.hmac 1%nat Sample.failingWorld)))
  = Some (Webhook.set_errorMessage (Some "Request failed with status code 500"%string)
            (Webhook.set_status "FAILED"
               (attempted 1000000 (Sample.note 1%nat 10%nat "FAILED" 1 (Some 1000))))).
Proof.
  apply (proj1 (proj2 (delivery_errors_are_not_raised Sample.stringify Sample.hmac))
           1%nat Sample.failingWorld (Sample.note 1%nat 10%nat "FAILED" 1 (Some 1000))
           "whsec"%string "Request failed with status code 500"%string);
    try reflexivity.
  exists "STK"%string. split; reflexivity.
Defined.

(** C8 as stated fails for a missing record: the error is logged and no
    notification record carries it. *)
Lemma missing_record_is_only_logged :
  find (hasId 7%nat) (webhooks Sample.emptyWorld) = None
  /\ fst (sendWebhook Sample.stringify Sample.hmac 7%nat Sample.emptyWorld) = Normal tt
  /\ (forall d,
        ~ In d (webhooks (snd (sendWebhook Sample.stringify Sample.hmac 7%nat
                                 Sample.emptyWorld))))
  /\ trace (snd (sendWebhook Sample.stringify Sample.hmac 7%nat Sample.emptyWorld))
     = [Logged "error" "Webhook not found"].
Proof. vm_compute. repeat split. intros d H. exact H. Qed.

Lemma signature_over_transmitted_body_witness :
  exists r1 r2,
    posted (trace (snd (sendWebhook Sample.stringify Sample.hmac 1%nat Sample.failingWorld)))
    = posted (trace Sample.failingWorld) ++ [r1]
    /\ posted (trace (snd (sendWebhook Sample.stringify Sample.hmac 1%nat Sample.freshWorld)))
       = posted (trace Sample.freshWorld) ++ [r2]
    /\ X_MPESA_Connect_Signature (headers r1) = X_MPESA_Connect_Signature (headers r2)
    /\ X_MPESA_Connect_Signature (headers r1)
       = Sample.hmac "whsec" (transmittedBody Sample.stringify r1)
    /\ X_MPESA_Connect_Signature (headers r2)
       = Sample.hmac "whsec" (transmittedBody Sample.stringify r2).
Proof.
  apply (signature_over_transmitted_body Sample.stringify Sample.hmac 1%nat 1%nat
           Sample.failingWorld Sample.freshWorld
           (Sample.note 1%nat 10%nat "FAILED" 1 (Some 1000))
           (Sample.note 1%nat 10%nat "PENDING" 0 None) "whsec"%string);
    try reflexivity; exists "STK"%string; split; reflexivity.
Defined.

(** C10 on a concrete run.  The query passes and the write that follows it
    fails: the registered address is answered with the error, the
    unregistered one with the notice. *)
Lemma forgotPassword_reply_reveals_registration_witness :
  fst (forgotPassword Sample.normalize "merchant@example.com" Scenario.brokenSave)
  = Normal (Boom 500 "Error processing your request")
  /\ fst (forgotPassword Sample.normalize "nobody@example.com" Scenario.brokenSave)
     = Normal resetNotice.
Proof.
  destruct (proj2 (forgotPassword_reply_reveals_registration Sample.normalize
                     Scenario.brokenSave "merchant@example.com" "nobody@example.com"
                     Sample.owner eq_refl eq_refl)
              "connection lost"%string [] eq_refl) as (H1 & H2 & _).
  split; [exact H1 | exact H2].
Defined.

(* ------------------------------------------------------------------ *)
(** * Concrete runs of the further properties *)

Lemma operations_keep_the_schema_witness :
  schemaValid
    (webhooks (perform Sample.stringify Sample.hmac Sample.numberToString
                Sample.parseDate Sample.parseFloat Sample.shortCodeIs
                (Deliver 1%nat) Sample.failingWorld)).
Proof.
  assert (H : schemaValid (webhooks Sample.failingWorld))
    by (repeat constructor).
  exact (proj1 (operations_keep_the_schema Sample.stringify Sample.hmac
                  Sample.numberToString Sample.parseDate Sample.parseFloat
                  Sample.shortCodeIs (Deliver 1%nat) Sample.failingWorld H)).
Defined.

Lemma accepted_delivery_is_final_witness :
  let w := Sample.world [Sample.note 1%nat 10%nat "PENDING" 0 None] [] Sample.accepts in
  let w' := snd (sendWebhook Sample.stringify Sample.hmac 1%nat w) in
  sendWebhook Sample.stringify Sample.hmac 1%nat w' = (Normal tt, w').
Proof.
  apply (accepted_delivery_is_final Sample.stringify Sample.hmac 1%nat
           (Sample.world [Sample.note 1%nat 10%nat "PENDING" 0 None] [] Sample.accepts)
           (Sample.note 1%nat 10%nat "PENDING" 0 None) "whsec"%string 200 "ok"%string);
    try reflexivity.
  exists "STK"%string. split; reflexivity.
Defined.

Lemma failed_attempt_cools_down_witness :
  exists d',
    find (hasId 1%nat)
         (webhooks (snd (sendWebhook Sample.stringify Sample.hmac 1%nat
                           Sample.failingWorld))) = Some d'
    /\ retryQuery 1300001 d' = true
    /\ retryQuery 1300000 d' = false.
Proof.
  destruct (failed_attempt_cools_down Sample.stringify Sample.hmac 1%nat
              Sample.failingWorld (Sample.note 1%nat 10%nat "FAILED" 1 (Some 1000))
              "whsec"%string "Request failed with status code 500"%string
              eq_refl eq_refl
              (ex_intro _ "STK"%string (conj eq_refl eq_refl))
              eq_refl eq_refl eq_refl eq_refl)
    as (d' & Hd & _ & _ & _ & Hq).
  exists d'. split; [exact Hd|]. split.
  - apply Hq. reflexivity.
  - destruct (retryQuery 1300000 d') eqn:E; [|reflexivity].
    apply Hq in E. discriminate E.
Defined.

Lemma callback_updates_its_transaction_witness :
  (exists tx',
     find (txHasId 50%nat)
          (transactions (snd (stkCallback Sample.numberToString Sample.parseDate
                                Scenario.paidCallback Sample.stkWorld)))
     = Some tx'
     /\ Transaction.status tx' = "COMPLETED"%string
     /\ Transaction.amount tx' = 100)
  /\ transactions (snd (stkCallback Sample.numberToString Sample.parseDate
                          Scenario.misdatedCallback Sample.stkWorld))
     = [Sample.pendingTx].
Proof.
  split.
  - pose proof (callback_updates_its_transaction Sample.numberToString
                  Sample.parseDate Scenario.paidCallback Sample.stkWorld
                  Scenario.paid Sample.pendingTx eq_refl eq_refl eq_refl) as H.
    cbv zeta in H.
    change (refused Sample.numberToString Sample.parseDate Scenario.paid)
      with false in H.
    cbv iota in H.
    destruct H as (tx' & H1 & _ & _ & H4 & _ & _ & _ & _ & _ & _ & _ & H12 & _).
    exists tx'. split; [exact H1|]. split; [exact H4|exact H12].
  - pose proof (callback_updates_its_transaction Sample.numberToString
                  Sample.parseDate Scenario.misdatedCallback Sample.stkWorld
                  Scenario.misdated Sample.pendingTx eq_refl eq_refl eq_refl) as H.
    cbv zeta in H.
    change (refused Sample.numberToString Sample.parseDate Scenario.misdated)
      with true in H.
    cbv iota in H.
    exact (proj1 H).
Defined.

Lemma callback_queues_one_notification_witness :
  exists n,
    webhooks (snd (stkCallback Sample.numberToString Sample.parseDate
                     Scenario.paidCallback Sample.stkWorld)) = [n]
    /\ Webhook.status n = "PENDING"%string
    /\ Webhook.destination n = "https://client.example/stk"%string.
Proof.
  pose proof (callback_queues_one_notification Sample.numberToString
                Sample.parseDate Scenario.paidCallback Sample.stkWorld
                Scenario.paid Sample.pendingTx
                eq_refl eq_refl eq_refl eq_refl eq_refl) as H.
  cbv zeta in H.
  change (endpointFor Sample.pendingTx Sample.stkWorld)
    with (Some "https://client.example/stk"%string) in H.
  cbv iota beta in H.
  destruct H as (n & H1 & _ & _ & _ & _ & _ & H7 & _ & _ & H10 & _).
  exists n. split; [exact H1|]. split; [exact H7|exact H10].
Defined.

Lemma callback_notification_is_delivered_witness :
  option_map Webhook.status
    (find (hasId 100%nat)
       (webhooks (snd (stkCallback Sample.numberToString Sample.parseDate
                         Scenario.paidCallback Sample.stkWorld))))
  = Some "PENDING"%string
  /\ option_map Webhook.status
       (find (hasId 100%nat)
          (webhooks
             (snd (sendWebhook Sample.stringify Sample.hmac 100%nat
                     (snd (stkCallback Sample.numberToString Sample.parseDate
                             Scenario.paidCallback Sample.stkWorld))))))
     = Some "SENT"%string.
Proof.
  pose proof (callback_notification_is_delivered Sample.stringify Sample.hmac
                Sample.numberToString Sample.parseDate
                Scenario.paidCallback Sample.stkWorld Scenario.paid
                Sample.pendingTx "https://client.example/stk"%string
                "whsec"%string 200 "ok"%string
                eq_refl eq_refl eq_refl eq_refl eq_refl eq_refl eq_refl eq_refl
                eq_refl)
    as (H1 & H2 & _).
  split.
  - exact (f_equal (option_map Webhook.status) H1).
  - exact (f_equal (option_map Webhook.status) H2).
Defined.

Lemma metadata_extraction_witness :
  Transaction.mpesaTimestamp
    (extractMetadata Sample.numberToString Sample.parseDate Scenario.paid
       Sample.pendingTx) = Some 20240105090703
  /\ Transaction.validationError
       (extractMetadata Sample.numberToString Sample.parseDate Scenario.paid
          Sample.pendingTx) = None.
Proof.
  exact (proj2 (proj2 (proj2
           (metadata_extraction Sample.numberToString Sample.parseDate
              Scenario.paid Sample.pendingTx
              (Callback.mkMetadata (Some Scenario.items)) Scenario.items
              eq_refl eq_refl)))
           (Callback.mkNameValue "TransactionDate" (Some (JsonNumber 20240105090703)))
           (JsonNumber 20240105090703)
           "2024"%string "01"%string "05"%string "09"%string "07"%string
           "03"%string ""%string
           eq_refl eq_refl eq_refl eq_refl eq_refl eq_refl eq_refl eq_refl eq_refl).
Defined.

Lemma forgotPassword_issues_token_witness :
  find (byEmail Sample.normalize "merchant@example.com")
       (users (snd (forgotPassword Sample.normalize "merchant@example.com"
                      Scenario.resetWorld)))
  = Some Scenario.issued.
Proof.
  apply (proj1 (forgotPassword_issues_token Sample.normalize
                  "merchant@example.com" Scenario.resetWorld
                  Sample.owner "t0ken"%string "ak9"%string "sk9"%string []
                  eq_refl eq_refl eq_refl)).
Defined.

Lemma reset_token_round_trip_witness :
  fst (resetPassword Scenario.hash "t0ken" "hunter2" [] (Scenario.laterWorld 2000000))
  = Normal (resetDone, [(10%nat, Scenario.hash "hunter2" "salt")]).
Proof.
  assert (H : unissued "t0ken" (users Scenario.resetWorld))
    by (repeat constructor; discriminate).
  apply (proj1 (reset_token_round_trip Sample.normalize Scenario.hash
                  "merchant@example.com"
                  Scenario.resetWorld Sample.owner
                  "t0ken"%string "ak9"%string "sk9"%string []
                  (Scenario.laterWorld 2000000)
                  "salt"%string "ak10"%string "sk10"%string []
                  "hunter2"%string []
                  eq_refl eq_refl eq_refl
                  H
                  eq_refl eq_refl eq_refl eq_refl)).
Defined.

Lemma expired_token_is_refused_witness :
  resetPassword Scenario.hash "t0ken" "hunter2" [] (Scenario.laterWorld 4600000)
  = (Normal (invalidToken, []), Scenario.laterWorld 4600000).
Proof.
  apply (expired_token_is_refused Sample.normalize Scenario.hash
           "merchant@example.com"
           Scenario.resetWorld Sample.owner
           "t0ken"%string "ak9"%string "sk9"%string []
           (Scenario.laterWorld 4600000) "hunter2"%string []);
    try reflexivity.
  repeat constructor; discriminate.
Defined.

Lemma formatPhone_on_validated_witness :
  formatPhone "0712345678" = "254712345678"%string
  /\ formatPhone (formatPhone "0712345678") = formatPhone "0712345678".
Proof.
  split; [reflexivity|].
  destruct (formatPhone_on_validated "0712345678" eq_refl) as (sub & _ & _ & _ & H).
  exact H.
Defined.

Lemma generateTimestamp_layout_witness :
  String.length (generateTimestamp Scenario.morning) = 14%nat
  /\ generateTimestamp Scenario.morning = "20240105090703"%string.
Proof.
  split; [|reflexivity].
  apply (proj1 (generateTimestamp_layout Scenario.morning
                  ltac:(unfold calendar; cbn; lia))).
Defined.

Lemma oauth_token_lives_55_minutes_witness :
  fst (fst (MpesaAuth.getOAuthToken Scenario.base64 Scenario.tokenEndpoint 1000
              Scenario.auth))
  = Normal "tkn"%string.
Proof.
  apply (proj1 (oauth_token_lives_55_minutes Scenario.base64 Scenario.tokenEndpoint
                  1000 Scenario.auth "tkn"%string eq_refl eq_refl eq_refl)).
Defined.

Lemma status_paths_agree_except_cancelled_witness :
  Transaction.status
    (applyResultCode Sample.numberToString Sample.parseDate Scenario.cancelled
       Sample.pendingTx)
  = "FAILED"%string
  /\ checkStkStatus_status 1032 = "CANCELLED"%string.
Proof.
  apply (proj2 (status_paths_agree_except_cancelled Sample.numberToString
                  Sample.parseDate Scenario.cancelled
                  Sample.pendingTx 1032 eq_refl)).
  right. reflexivity.
Defined.
